(** * mne/report.py: the HTML report assembly engine

    A shallow embedding of [mne/report.py] (Python 2) and the properties of
    it that the specification states.

    Conventions of the embedding:
    - Python [int]s are [Z]; [/] on ints is Python 2 floor division, [Z.div].
    - [str] is [string]; [str.endswith] with a tuple argument is
      [endswith_any].
    - numpy arrays are nested lists together with their [shape]; only the
      operations the module calls are given ([rot90], [flipud], the three
      basic slicings), with numpy's documented behaviour.
    - generators are the lists of the values they yield.
    - the text produced by a template is kept as the record of the values
      substituted into it, so that markup can be inspected by field.
    - methods of [Report] run in a state-and-exception monad over the
      attributes of [self] together with the process-wide logger and
      warning sinks; a state change made before a [raise] stays.
    - [add_section] (user figures) is not part of the embedding; every
      other method of [Report] is. *)

From Stdlib Require Import List String Ascii ZArith Lia Bool Arith Sorted.
From Stdlib Require DecimalString.
Import ListNotations.

Local Open Scope list_scope.
Local Open Scope string_scope.

(** ** Python strings and paths *)

Module Str.

(** [s.endswith(suf)]: some tail of [s] is [suf]. *)
Fixpoint endswith (s suf : string) : bool :=
  if String.eqb s suf then true
  else match s with
       | EmptyString => false
       | String _ s' => endswith s' suf
       end.

(** [s.endswith((suf1, suf2, ...))]. *)
Definition endswith_any (s : string) (sufs : list string) : bool :=
  existsb (endswith s) sufs.

(** [s[-n:]] for [n > 0]. *)
Definition last_chars (n : nat) (s : string) : string :=
  substring (String.length s - n) n s.

(** The text of [s] after its last ['/'] ([os.path.basename]). *)
Fixpoint basename_from (acc s : string) : string :=
  match s with
  | EmptyString => acc
  | String c s' =>
      if Ascii.eqb c "/" then basename_from s' s' else basename_from acc s'
  end.

Definition basename (s : string) : string := basename_from s s.

Definition startswith_slash (s : string) : bool :=
  match s with
  | String c _ => Ascii.eqb c "/"
  | EmptyString => false
  end.

(** [os.path.join(a, b)] on POSIX. *)
Definition join (a b : string) : string :=
  if startswith_slash b then b
  else if String.eqb a "" || endswith a "/" then a ++ b
  else a ++ "/" ++ b.

End Str.

(** ** numpy arrays *)

Module Np.

(** A 2-D array: [shape = (nrows, ncols)] and the rows. *)
Record ndarray2 : Type := Array2 {
  nrows : nat;
  ncols : nat;
  item2 : list (list Z)
}.

(** A 3-D array: [shape = (dim0, dim1, dim2)] and [item3[i][j][k]]. *)
Record ndarray3 : Type := Array3 {
  dim0 : nat;
  dim1 : nat;
  dim2 : nat;
  item3 : list (list (list Z))
}.

Definition wf2 (a : ndarray2) : Prop :=
  List.length (item2 a) = nrows a /\
  Forall (fun r => List.length r = ncols a) (item2 a).

Definition wf3 (a : ndarray3) : Prop :=
  List.length (item3 a) = dim0 a /\
  Forall (fun p => List.length p = dim1 a /\
                   Forall (fun r => List.length r = dim2 a) p) (item3 a).

(** [m.T] *)
Definition transpose (m : ndarray2) : ndarray2 :=
  {| nrows := ncols m;
     ncols := nrows m;
     item2 := map (fun j => map (fun r => nth j r 0%Z) (item2 m))
                  (seq 0 (ncols m)) |}.

(** [np.fliplr(m)]: every row reversed. *)
Definition fliplr (m : ndarray2) : ndarray2 :=
  {| nrows := nrows m; ncols := ncols m; item2 := map (@rev Z) (item2 m) |}.

(** [np.flipud(m)]: the rows in reverse order. *)
Definition flipud (m : ndarray2) : ndarray2 :=
  {| nrows := nrows m; ncols := ncols m; item2 := rev (item2 m) |}.

(** [np.rot90(m)]: one counterclockwise quarter turn,
    [transpose(flip(m, axis=1))]. *)
Definition rot90 (m : ndarray2) : ndarray2 := transpose (fliplr m).

(** [np.rot90(m, 2)]: the half turn, [flip(flip(m, axis=0), axis=1)]. *)
Definition rot180 (m : ndarray2) : ndarray2 := fliplr (flipud m).

(** [array[ind, :, :]] *)
Definition index0 (a : ndarray3) (ind : Z) : ndarray2 :=
  {| nrows := dim1 a; ncols := dim2 a;
     item2 := nth (Z.to_nat ind) (item3 a) [] |}.

(** [array[:, ind, :]] *)
Definition index1 (a : ndarray3) (ind : Z) : ndarray2 :=
  {| nrows := dim0 a; ncols := dim2 a;
     item2 := map (fun p => nth (Z.to_nat ind) p []) (item3 a) |}.

(** [array[:, :, ind]] *)
Definition index2 (a : ndarray3) (ind : Z) : ndarray2 :=
  {| nrows := dim0 a; ncols := dim1 a;
     item2 := map (map (fun r => nth (Z.to_nat ind) r 0%Z)) (item3 a) |}.

End Np.

(** ** Python builtins used by the module *)

(** [xrange(n)] *)
Definition xrange (n : nat) : list Z := map Z.of_nat (seq 0 n).

(** [range(0, n, 2)] *)
Definition range_step2 (n : nat) : list Z :=
  map (fun k => (2 * Z.of_nat k)%Z) (seq 0 (Nat.div2 (S n))).

(** [x in l] for a list of ints. *)
Definition contains (l : list Z) (x : Z) : bool := existsb (Z.eqb x) l.

(** Exceptions that can cross a function boundary of the module. *)
Inductive exn : Type :=
| IndexError
| KeyError
| AttributeError
| UnboundLocalError
| UnicodeDecodeError
| ExternalError (origin : string).

Inductive result (A : Type) : Type :=
| Ok (a : A)
| Raise (e : exn).

Arguments Ok {A} a.
Arguments Raise {A} e.

(** ** Slice iterators (lines 53-77) *)

(** Truth value of the [limits] argument: [None] and the empty collection
    are false. *)
Definition truthy (limits : option (list Z)) : bool :=
  match limits with
  | Some (_ :: _) => true
  | _ => false
  end.

(** [limits and ind not in limits] *)
Definition skipped (limits : option (list Z)) (ind : Z) : bool :=
  truthy limits &&
  negb (contains (match limits with Some l => l | None => [] end) ind).

(** [np.flipud(np.rot90(m))], the presentation transform of line 77. *)
Definition coronal_transform (m : Np.ndarray2) : Np.ndarray2 :=
  Np.flipud (Np.rot90 m).

Definition _iterate_sagittal_slices (array : Np.ndarray3)
    (limits : option (list Z)) : list (Z * Np.ndarray2) :=
  let shape := Np.dim0 array in
  flat_map (fun ind =>
              if skipped limits ind then []
              else [(ind, Np.index0 array ind)])
           (xrange shape).

Definition _iterate_axial_slices (array : Np.ndarray3)
    (limits : option (list Z)) : list (Z * Np.ndarray2) :=
  let shape := Np.dim1 array in
  flat_map (fun ind =>
              if skipped limits ind then []
              else [(ind, Np.index1 array ind)])
           (xrange shape).

Definition _iterate_coronal_slices (array : Np.ndarray3)
    (limits : option (list Z)) : list (Z * Np.ndarray2) :=
  let shape := Np.dim2 array in
  flat_map (fun ind =>
              if skipped limits ind then []
              else [(ind, coronal_transform (Np.index2 array ind))])
           (xrange shape).

(** ** Slider builder (lines 98-124) *)

(** The values substituted into [slider_template]; [step] is the
    template's constant. *)
Record Slider : Type := MkSlider {
  slider_id : string;
  klass : string;
  minvalue : Z;
  maxvalue : Z;
  step : Z;
  startvalue : Z
}.

Definition slider_template_substitute (slider_id klass : string)
    (minvalue maxvalue startvalue : Z) : Slider :=
  MkSlider slider_id klass minvalue maxvalue 2 startvalue.

(** [slices_range[0]] and [slices_range[-1]] raise [IndexError] on the
    empty list. *)
Definition _build_html_slider (slices_range : list Z)
    (slides_klass slider_id : string) : result Slider :=
  match slices_range with
  | [] => Raise IndexError
  | first :: _ =>
      let startvalue := ((first + last slices_range first) / 2 + 1)%Z in
      Ok (slider_template_substitute slider_id slides_klass
            first (last slices_range first) startvalue)
  end.

(** ** More string helpers: formatting, [re.sub], [fnmatch] *)

(** ['%d' % n] and ['%s' % n] for an int. *)
Definition str_of_int (n : Z) : string :=
  DecimalString.NilZero.string_of_int (Z.to_int n).

(** A byte below 128. *)
Definition ascii7 (c : ascii) : bool :=
  match c with
  | Ascii _ _ _ _ _ _ _ b7 => negb b7
  end.

(** The byte string [s] decodes as ASCII. *)
Fixpoint is_ascii (s : string) : bool :=
  match s with
  | EmptyString => true
  | String c s' => ascii7 c && is_ascii s'
  end.

(** [u'...%s...' % args] for byte strings [args] (names coming from
    [os.walk] on a byte-string path, comments of the readers): Python 2
    decodes each one as ASCII and raises [UnicodeDecodeError] on a byte
    above 127.  The class names and colours the module formats along with
    them are its own ASCII literals. *)
Definition unicode_format (args : list string) : result unit :=
  if forallb is_ascii args then Ok tt else Raise UnicodeDecodeError.

(** [re.sub(c, '', s)] for a one-character pattern. *)
Fixpoint remove_char (c : ascii) (s : string) : string :=
  match s with
  | EmptyString => EmptyString
  | String d s' =>
      if Ascii.eqb c d then remove_char c s' else String d (remove_char c s')
  end.

Definition newline : ascii := ascii_of_nat 10.

(** [re.sub('\\n', '\\n</br>', s)]: a break after every newline. *)
Fixpoint break_lines (s : string) : string :=
  match s with
  | EmptyString => EmptyString
  | String d s' =>
      if Ascii.eqb d newline then String d ("</br>" ++ break_lines s')
      else String d (break_lines s')
  end.

(** [fnmatch] for patterns made of literal characters, [*] and [?]
    (character classes are not used by the module). *)
Fixpoint fnmatch (pat : string) : string -> bool :=
  match pat with
  | EmptyString => fun name => String.eqb name ""
  | String c pat' =>
      if Ascii.eqb c "*" then
        fix star (name : string) : bool :=
          fnmatch pat' name ||
          match name with
          | EmptyString => false
          | String _ name' => star name'
          end
      else if Ascii.eqb c "?" then
        fun name =>
          match name with
          | EmptyString => false
          | String _ name' => fnmatch pat' name'
          end
      else
        fun name =>
          match name with
          | EmptyString => false
          | String d name' => Ascii.eqb c d && fnmatch pat' name'
          end
  end.

(** [fnmatch.filter(names, pat)] *)
Definition fnmatch_filter (names : list string) (pat : string)
  : list string :=
  filter (fnmatch pat) names.

(** ** External collaborators *)

(** The measurement info dictionary; the module only hands it on. *)
Definition Info : Type := string.

(** One condition returned by [read_evokeds]: its [comment], and the
    outcome of [_fig_to_img(ev.plot(show=False))]. *)
Record Evoked : Type := MkEvoked {
  comment : string;
  plot_img : result string
}.

(** What [plot_trans] returns: a mayavi [Scene], with the outcome of
    saving and re-encoding its bitmap (lines 840-843), or anything else. *)
Inductive TransFig : Type :=
| Scene (bmp : result string)
| OtherFig.

(** What the event plotting code (lines 752-771) hands to the template:
    [img] and [html], one of which is [False]. *)
Record EventsPlot : Type := MkEventsPlot {
  events_img : option string;
  events_html : option string
}.

(** The readers, the plotting backend and the operating system.
    Consecutive calls into collaborators with no change to the [Report]
    between them are one field.  Every reader is a function of its
    arguments. *)
Record World : Type := MkWorld {
  (* operating system *)
  os_walk : string -> list (string * list string * list string);
  glob : string -> list string;
  isfile : string -> bool;
  isdir : string -> bool;
  open_read : string -> result string;
  open_write : string -> result unit;
  abspath : string -> string;
  strftime : string;
  module_dir : string;
  (* readers *)
  read_info : string -> result Info;
  Raw_repr : string -> result (string * string);
  read_forward_solution_repr : string -> result string;
  read_evokeds : string -> result (list Evoked);
  get_subjects_dir : option string -> result string;
  nib_load : string -> result Np.ndarray3;
  (* plotting *)
  import_mpld3 : result unit;
  events_plot : string -> Info -> bool -> result EventsPlot;
  epochs_drop_log_img : string -> option string -> result string;
  covariance_img : string -> result string;
  import_mayavi : result unit;
  plot_trans : Info -> string -> option string -> option string
               -> result TransFig;
  figure_png : Np.ndarray2 -> string -> result string;
  mri_contours_png : string -> list string -> string -> Z -> nat * nat
                     -> result string
}.

(** ** Rendered markup *)

(** The payload of [image_template]: the [<img>] (whose source is [img],
    possibly [False]) or the interactive markup. *)
Inductive Payload : Type :=
| ImageBytes (img : option string)
| InteractiveMarkup (markup : string).

(** One instance of [image_template]. *)
Record ImageLi : Type := MkImageLi {
  li_klass : string;
  li_id : Z;
  li_show : bool;
  li_caption : string;
  li_payload : Payload
}.

(** One [<li>] of [_build_html_image]. *)
Record SliceLi : Type := MkSliceLi {
  slice_klass : string;
  slice_id : string;
  slice_show : bool;
  slice_img_klass : string;
  slice_img : string;
  slice_caption : string
}.

(** One column of a volume section: the slider [<div>], the thumbnails
    and the slider script. *)
Record Axe : Type := MkAxe {
  axe_div_id : string;
  axe_slices : list SliceLi;
  axe_slider : Slider
}.

(** A row of the table of contents. *)
Record TocCond : Type := MkTocCond {
  cond_href : Z;
  cond_title : string;
  cond_color : string;
  cond_label : string
}.

Inductive TocEntry : Type :=
| TocFile (class_name : string) (href : Z) (title color label : string)
| TocEvoked (title label : string) (conds : list TocCond)
| TocBem (href : Z)
| TocCustom (href : Z).

(** An asset embedded in the header: [<script>] or [<style>]. *)
Inductive Include : Type :=
| Script (body : string)
| Style (body : string).

(** An element of [self.html]. *)
Inductive Html : Type :=
| Header (title : option string) (include : list Include)
| Toc (entries : list TocEntry)
| ReprLi (div_klass : string) (id : Z) (caption repr : string)
| ImageLis (lis : list ImageLi)
| SlicesLi (id : Z) (name : string) (axes : list Axe)
| Footer (date : string).

(** The messages of [warnings.warn] in [_render_bem]. *)
Inductive Warning : Type :=
| MriFileMissing (mri_fname : string)
| BemDirectoryMissing (bem_path : string)
| NoSurfaceFound (surf_name : string).

Inductive LogRecord : Type :=
| LogInfo (msg : string)
| LogException (e : exn)
| LogFolders (folders : list string).

(** ** The [Report] object and the process around it *)

Record State : Type := MkState {
  (* attributes of [self] *)
  info_fname : string;
  subjects_dir : option string;
  subject : option string;
  title : option string;
  data_path : option string;
  initial_id : Z;
  html : list Html;
  fnames : list string;
  (* the process *)
  logged : list LogRecord;
  warned : list Warning;
  written : list (string * list Html);
  browser_tabs : list string
}.

Definition set_title (v : option string) (s : State) : State :=
  MkState (info_fname s) (subjects_dir s) (subject s) v (data_path s)
          (initial_id s) (html s) (fnames s)
          (logged s) (warned s) (written s) (browser_tabs s).

Definition set_data_path (v : option string) (s : State) : State :=
  MkState (info_fname s) (subjects_dir s) (subject s) (title s) v
          (initial_id s) (html s) (fnames s)
          (logged s) (warned s) (written s) (browser_tabs s).

Definition set_initial_id (v : Z) (s : State) : State :=
  MkState (info_fname s) (subjects_dir s) (subject s) (title s) (data_path s)
          v (html s) (fnames s)
          (logged s) (warned s) (written s) (browser_tabs s).

Definition set_html (v : list Html) (s : State) : State :=
  MkState (info_fname s) (subjects_dir s) (subject s) (title s) (data_path s)
          (initial_id s) v (fnames s)
          (logged s) (warned s) (written s) (browser_tabs s).

Definition set_fnames (v : list string) (s : State) : State :=
  MkState (info_fname s) (subjects_dir s) (subject s) (title s) (data_path s)
          (initial_id s) (html s) v
          (logged s) (warned s) (written s) (browser_tabs s).

Definition set_logged (v : list LogRecord) (s : State) : State :=
  MkState (info_fname s) (subjects_dir s) (subject s) (title s) (data_path s)
          (initial_id s) (html s) (fnames s)
          v (warned s) (written s) (browser_tabs s).

Definition set_warned (v : list Warning) (s : State) : State :=
  MkState (info_fname s) (subjects_dir s) (subject s) (title s) (data_path s)
          (initial_id s) (html s) (fnames s)
          (logged s) v (written s) (browser_tabs s).

Definition set_written (v : list (string * list Html)) (s : State) : State :=
  MkState (info_fname s) (subjects_dir s) (subject s) (title s) (data_path s)
          (initial_id s) (html s) (fnames s)
          (logged s) (warned s) v (browser_tabs s).

Definition set_browser_tabs (v : list string) (s : State) : State :=
  MkState (info_fname s) (subjects_dir s) (subject s) (title s) (data_path s)
          (initial_id s) (html s) (fnames s)
          (logged s) (warned s) (written s) v.

(** *** The monad of methods *)

Definition M (A : Type) : Type := State -> result A * State.

Definition ret {A : Type} (a : A) : M A := fun s => (Ok a, s).

Definition bind {A B : Type} (m : M A) (k : A -> M B) : M B :=
  fun s =>
    match m s with
    | (Ok a, s') => k a s'
    | (Raise e, s') => (Raise e, s')
    end.

Definition raise {A : Type} (e : exn) : M A := fun s => (Raise e, s).

(** A call into a collaborator, or into a function without effects. *)
Definition call {A : Type} (r : result A) : M A := fun s => (r, s).

Definition modify (f : State -> State) : M unit := fun s => (Ok tt, f s).

Definition get {A : Type} (f : State -> A) : M A := fun s => (Ok (f s), s).

(** [try: body  except Exception as e: handler(e)] *)
Definition try_except {A : Type} (body : M A) (handler : exn -> M A)
  : M A :=
  fun s =>
    match body s with
    | (Ok a, s') => (Ok a, s')
    | (Raise e, s') => handler e s'
    end.

Declare Scope monad_scope.
Delimit Scope monad_scope with monad.
Notation "x <- c1 ;; c2" := (bind c1 (fun x => c2))
  (at level 61, c1 at next level, right associativity) : monad_scope.
Notation "c1 ;; c2" := (bind c1 (fun _ => c2))
  (at level 61, right associativity) : monad_scope.
Local Open Scope monad_scope.

(** [for x in xs: body(x)] *)
Fixpoint for_each {A : Type} (xs : list A) (body : A -> M unit) : M unit :=
  match xs with
  | [] => ret tt
  | x :: xs' => body x ;; for_each xs' body
  end.

Definition logger_info (r : LogRecord) : M unit :=
  modify (fun s => set_logged (logged s ++ [r])%list s).

Definition warnings_warn (msg : Warning) : M unit :=
  modify (fun s => set_warned (warned s ++ [msg])%list s).

Definition html_append (h : Html) : M unit :=
  modify (fun s => set_html (html s ++ [h])%list s).

Definition fnames_append (f : string) : M unit :=
  modify (fun s => set_fnames (fnames s ++ [f])%list s).

(** [d.get(k)] on a dict with string keys, as an association list. *)
Definition dict_get {V : Type} (d : list (string * V)) (k : string)
  : option V :=
  match find (fun kv => String.eqb (fst kv) k) d with
  | Some kv => Some (snd kv)
  | None => None
  end.

(** [l.insert(i, x)] *)
Definition list_insert {A : Type} (i : nat) (x : A) (l : list A) : list A :=
  firstn i l ++ x :: skipn i l.

(** [_build_html_image] (lines 83-96). *)
Definition _build_html_image (img id div_klass img_klass caption : string)
    (show : bool) : SliceLi :=
  MkSliceLi div_klass id show img_klass img caption.

(** [image_template.substitute]: the template embeds [img] when
    [interactive] is false (or empty), the markup otherwise. *)
Definition image_template_substitute (img : option string) (id : Z)
    (div_klass caption : string) (interactive : option string)
    (show : bool) : ImageLi :=
  MkImageLi div_klass id show caption
    match interactive with
    | Some markup =>
        if String.eqb markup "" then ImageBytes img
        else InteractiveMarkup markup
    | None => ImageBytes img
    end.

(** [_recursive_search] (lines 944-952). *)
Definition _recursive_search (w : World) (path pattern : string)
  : list string :=
  flat_map (fun entry =>
              match entry with
              | (dirpath, dirnames, files) =>
                  map (Str.join dirpath) (fnmatch_filter files pattern)
              end)
           (os_walk w path).

Section Report.

Variable w : World.

(** *** Construction (lines 305-334, 394-416) *)

Definition blank (info_fname : string) (subjects_dir subject title
    : option string) : State :=
  MkState info_fname subjects_dir subject title None 0 [] [] [] [] [] [].

Definition inc_fnames : list string :=
  ["jquery-1.10.2.min.js"; "jquery-ui.js"; "bootstrap.min.js";
   "jquery-ui.css"; "bootstrap.min.css"].

Fixpoint embed_includes (names : list string) (include : list Include)
  : M (list Include) :=
  match names with
  | [] => ret include
  | inc_fname :: rest =>
      logger_info (LogInfo ("Embedding : " ++ inc_fname)) ;;
      f <- call (open_read w
                   (Str.join (Str.join (module_dir w) "html") inc_fname)) ;;
      embed_includes rest
        (if Str.endswith inc_fname ".js" then (include ++ [Script f])%list
         else if Str.endswith inc_fname ".css" then
           (include ++ [Style f])%list
         else include)
  end.

Definition _init_render : M unit :=
  include <- embed_includes inc_fnames [] ;;
  title <- get title ;;
  html_append (Header title include).

(** [Report(info_fname, subjects_dir, subject, title)] *)
Definition __init__ (info_fname : string) (subjects_dir subject title
    : option string) : result unit * State :=
  _init_render (blank info_fname subjects_dir subject title).

Definition _get_id : M Z :=
  modify (fun s => set_initial_id (initial_id s + 1) s) ;;
  get initial_id.

(** [n] consecutive calls of [self._get_id()], with the values returned. *)
Fixpoint consecutive_ids (n : nat) : M (list Z) :=
  match n with
  | O => ret []
  | S k =>
      i <- _get_id ;;
      ids <- consecutive_ids k ;;
      ret (i :: ids)
  end.

(** *** Volume rendering (lines 33-50, 362-390, 592-682) *)

(** For the 2-D planes the module passes, [figsize = (ncols, nrows)];
    when [ncols] is 1 the statement [data = data[:, :, 0]] indexes a 2-D
    array with three indices. *)
Definition _build_image (data : Np.ndarray2) (cmap : string)
  : result string :=
  if Nat.eqb (Np.ncols data) 1 then Raise IndexError
  else figure_png w data cmap.

(** The loop of lines 371-380: the thumbnails and [slices_range]. *)
Fixpoint render_slices (slices_iter : list (Z * Np.ndarray2))
    (name global_id cmap : string) (first : bool)
  : result (list SliceLi * list Z) :=
  match slices_iter with
  | [] => Ok ([], [])
  | (ind, data) :: rest =>
      let caption := "Slice " ++ name ++ " " ++ str_of_int ind in
      let slice_id := name ++ "-" ++ global_id ++ "-" ++ str_of_int ind in
      let div_klass := "span12 " ++ name ++ "-" ++ global_id in
      match _build_image data cmap with
      | Raise e => Raise e
      | Ok img =>
          match render_slices rest name global_id cmap false with
          | Raise e => Raise e
          | Ok (slices, slices_range) =>
              Ok (_build_html_image img slice_id div_klass
                    ("slideimg-" ++ name) caption first :: slices,
                  ind :: slices_range)
          end
      end
  end.

Definition _render_one_axe (slices_iter : list (Z * Np.ndarray2))
    (name : string) (global_id : option Z) (cmap : string) : result Axe :=
  let global_id :=
    match global_id with
    | Some g => if Z.eqb g 0 then name else str_of_int g
    | None => name
    end in
  let slides_klass := name ++ "-" ++ global_id in
  match render_slices slices_iter name global_id cmap true with
  | Raise e => Raise e
  | Ok (slices, slices_range) =>
      let slider_id := "select-" ++ name ++ "-" ++ global_id in
      match _build_html_slider slices_range slides_klass slider_id with
      | Raise e => Raise e
      | Ok slider => Ok (MkAxe slider_id slices slider)
      end
  end.

Definition _render_array (array : Np.ndarray3) (global_id : option Z)
    (cmap : string) (limits : option (list (string * list Z)))
  : result (list Axe) :=
  let limits := match limits with Some d => d | None => [] end in
  let axial_limit := dict_get limits "axial" in
  let axial_slices_gen := _iterate_axial_slices array axial_limit in
  match _render_one_axe axial_slices_gen "axial" global_id cmap with
  | Raise e => Raise e
  | Ok axial =>
      let sagittal_limit := dict_get limits "sagittal" in
      let sagittal_slices_gen :=
        _iterate_sagittal_slices array sagittal_limit in
      match _render_one_axe sagittal_slices_gen "sagittal" global_id cmap
      with
      | Raise e => Raise e
      | Ok sagittal =>
          let coronal_limit := dict_get limits "coronal" in
          let coronal_slices_gen :=
            _iterate_coronal_slices array coronal_limit in
          match _render_one_axe coronal_slices_gen "coronal" global_id cmap
          with
          | Raise e => Raise e
          | Ok coronal => Ok [axial; sagittal; coronal]
          end
      end
  end.

Definition _render_image (image cmap : string) : M Html :=
  global_id <- _get_id ;;
  data <- call (nib_load w image) ;;
  let limits := [("sagittal", range_step2 (Np.dim0 data));
                 ("axial", range_step2 (Np.dim1 data));
                 ("coronal", range_step2 (Np.dim2 data))] in
  let name := Str.basename image in
  axes <- call (_render_array data (Some global_id) cmap (Some limits)) ;;
  let html := SlicesLi global_id name axes in
  html_append html ;;
  ret html.

(** *** BEM contours (lines 619-661, 858-911) *)

Definition orientation_name2axis : list (string * nat) :=
  [("sagittal", 0); ("axial", 1); ("coronal", 2)].

(** The loop of lines 634-649. *)
Fixpoint render_bem_slices (mri_fname : string) (surf_fnames : list string)
    (name global_id : string) (orig_size : nat * nat) (sls : list Z)
    (first : bool) : M (list SliceLi * list Z) :=
  match sls with
  | [] => ret ([], [])
  | sl :: rest =>
      logger_info (LogInfo ("Rendering BEM contours : orientation = "
                            ++ name ++ ", slice = " ++ str_of_int sl)) ;;
      let caption := "Slice " ++ name ++ " " ++ str_of_int sl in
      let slice_id := name ++ "-" ++ global_id ++ "-" ++ str_of_int sl in
      let div_klass := "span12 " ++ name ++ "-" ++ global_id in
      img <- call (mri_contours_png w mri_fname surf_fnames name sl
                     orig_size) ;;
      r <- render_bem_slices mri_fname surf_fnames name global_id orig_size
             rest false ;;
      ret (_build_html_image img slice_id div_klass ("slideimg-" ++ name)
             caption first :: fst r,
           sl :: snd r)
  end.

Definition _render_one_bem_axe (mri_fname : string)
    (surf_fnames : list string) (global_id : Z) (shape : nat * nat * nat)
    (orientation : string) : M Axe :=
  match dict_get orientation_name2axis orientation with
  | None => raise KeyError
  | Some orientation_axis =>
      let '(x, y, z) := shape in
      let n_slices := nth orientation_axis [x; y; z] 0 in
      (* np.roll(shape, orientation_axis)[[1, 2]] *)
      let orig_size :=
        match orientation_axis with
        | 0 => (y, z)
        | 1 => (x, y)
        | _ => (z, x)
        end in
      let name := orientation in
      let gid := str_of_int global_id in
      let slides_klass := name ++ "-" ++ gid in
      r <- render_bem_slices mri_fname surf_fnames name gid orig_size
             (range_step2 n_slices) true ;;
      let slider_id := "select-" ++ name ++ "-" ++ gid in
      slider <- call (_build_html_slider (snd r) slides_klass slider_id) ;;
      ret (MkAxe slider_id (fst r) slider)
  end.

(** The loop of lines 878-885: the three surfaces, or the early return
    of the plain rendering. *)
Fixpoint find_surfaces (bem_path mri_fname : string)
    (surf_names surf_fnames : list string) : M (Html + list string) :=
  match surf_names with
  | [] => ret (inr surf_fnames)
  | surf_name :: rest =>
      match glob w (Str.join bem_path (surf_name ++ ".surf")) with
      | surf_fname :: _ =>
          find_surfaces bem_path mri_fname rest
            (surf_fnames ++ [surf_fname])%list
      | [] =>
          warnings_warn (NoSurfaceFound surf_name) ;;
          html <- _render_image mri_fname "gray" ;;
          ret (inl html)
      end
  end.

Definition _render_bem (subject subjects_dir : option string) : M Html :=
  subjects_dir <- call (get_subjects_dir w subjects_dir) ;;
  match subject with
  | None => raise AttributeError
  | Some subject =>
      let mri_fname :=
        Str.join (Str.join (Str.join subjects_dir subject) "mri") "T1.mgz" in
      (if isfile w mri_fname then ret tt
       else warnings_warn (MriFileMissing mri_fname)) ;;
      let bem_path := Str.join (Str.join subjects_dir subject) "bem" in
      if negb (isdir w bem_path) then
        warnings_warn (BemDirectoryMissing bem_path) ;;
        _render_image mri_fname "gray"
      else
        found <- find_surfaces bem_path mri_fname
                   ["*inner_skull"; "*outer_skull"; "*outer_skin"] [] ;;
        match found with
        | inl html => ret html
        | inr surf_fnames =>
            data <- call (nib_load w mri_fname) ;;
            let shape := (Np.dim0 data, Np.dim1 data, Np.dim2 data) in
            global_id <- _get_id ;;
            axial <- _render_one_bem_axe mri_fname surf_fnames global_id
                       shape "axial" ;;
            sagittal <- _render_one_bem_axe mri_fname surf_fnames global_id
                          shape "sagittal" ;;
            coronal <- _render_one_bem_axe mri_fname surf_fnames global_id
                         shape "coronal" ;;
            let html := SlicesLi global_id "BEM" [axial; sagittal; coronal] in
            html_append html ;;
            ret html
        end
  end.

(** *** Section builders (lines 684-856) *)

Definition _render_raw (raw_fname : string) : M unit :=
  global_id <- _get_id ;;
  let div_klass := "raw" in
  let caption := "Raw : " ++ raw_fname in
  raw <- call (Raw_repr w raw_fname) ;;
  let repr_raw := remove_char ">" (remove_char "<" (fst raw)) in
  let repr_info :=
    break_lines (remove_char ">" (remove_char "<" (snd raw))) in
  let repr_html := repr_raw ++ (repr_raw ++ "<br/>" ++ repr_info) in
  html_append (ReprLi div_klass global_id caption repr_html).

Definition _render_forward (fwd_fname : string) : M unit :=
  let div_klass := "forward" in
  let caption := "Forward: " ++ fwd_fname in
  fwd <- call (read_forward_solution_repr w fwd_fname) ;;
  let repr_fwd := remove_char ">" (remove_char "<" fwd) in
  global_id <- _get_id ;;
  html_append (ReprLi div_klass global_id caption repr_fwd) ;;
  fnames_append fwd_fname.

(** The loop of lines 724-737. *)
Fixpoint render_evokeds (evoked_fname : string) (evokeds : list Evoked)
  : M (list ImageLi) :=
  match evokeds with
  | [] => ret []
  | ev :: rest =>
      global_id <- _get_id ;;
      img <- call (plot_img ev) ;;
      let caption :=
        "Evoked : " ++ evoked_fname ++ " (" ++ comment ev ++ ")" in
      let li := image_template_substitute (Some img) global_id "evoked"
                  caption None true in
      lis <- render_evokeds evoked_fname rest ;;
      ret (li :: lis)
  end.

Definition _render_evoked (evoked_fname : string) : M unit :=
  evokeds <- call (read_evokeds w evoked_fname) ;;
  html <- render_evokeds evoked_fname evokeds ;;
  html_append (ImageLis html).

Definition _render_eve (eve_fname : string) (info : Info)
    (interactive : bool) : M unit :=
  (if interactive then call (import_mpld3 w) else ret tt) ;;
  global_id <- _get_id ;;
  plot <- call (events_plot w eve_fname info interactive) ;;
  let caption := "Events : " ++ eve_fname in
  html_append
    (ImageLis [image_template_substitute (events_img plot) global_id
                 "events" caption (events_html plot) true]).

Definition _render_epochs (epo_fname : string) : M unit :=
  global_id <- _get_id ;;
  subject <- get subject ;;
  img <- call (epochs_drop_log_img w epo_fname subject) ;;
  let caption := "Epochs : " ++ epo_fname in
  html_append
    (ImageLis [image_template_substitute (Some img) global_id "epochs"
                 caption None true]).

Definition _render_cov (cov_fname : string) : M unit :=
  global_id <- _get_id ;;
  img <- call (covariance_img w cov_fname) ;;
  let caption := "Covariance : " ++ cov_fname in
  html_append
    (ImageLis [image_template_substitute (Some img) global_id "covariance"
                 caption None true]).

Definition _render_trans (trans_fname path : string) (info : Info)
    (subject subjects_dir : option string) : M unit :=
  call (import_mayavi w) ;;
  fig <- call (plot_trans w info trans_fname subject subjects_dir) ;;
  match fig with
  | Scene bmp =>
      global_id <- _get_id ;;
      img <- call bmp ;;
      let caption := "Trans : " ++ trans_fname in
      html_append
        (ImageLis [image_template_substitute (Some img) global_id "trans"
                     caption None true])
  | OtherFig => ret tt
  end.

(** *** Scanning a folder (lines 418-481) *)

(** The body of the [try] of lines 451-479; [folders] is the local list. *)
Definition render_file (fname data_path : string) (info : Info)
    (interactive : bool) (folders : list string) : M (list string) :=
  if Str.endswith_any fname [".mgz"] then
    subject <- get subject ;;
    subjects_dir <- get subjects_dir ;;
    _render_bem subject subjects_dir ;;
    fnames_append "bem" ;;
    ret folders
  else if Str.endswith_any fname ["raw.fif"; "sss.fif"] then
    _render_raw fname ;;
    fnames_append fname ;;
    ret folders
  else if Str.endswith_any fname ["-fwd.fif"; "-fwd.fif.gz"] then
    _render_forward fname ;;
    ret folders
  else if Str.endswith_any fname ["-ave.fif"] then
    _render_evoked fname ;;
    fnames_append fname ;;
    ret folders
  else if Str.endswith_any fname ["-eve.fif"] then
    _render_eve fname info interactive ;;
    fnames_append fname ;;
    ret folders
  else if Str.endswith_any fname ["-epo.fif"] then
    _render_epochs fname ;;
    fnames_append fname ;;
    ret folders
  else if Str.endswith_any fname ["-cov.fif"] then
    _render_cov fname ;;
    fnames_append fname ;;
    ret folders
  else if Str.endswith_any fname ["-trans.fif"] then
    subject <- get subject ;;
    subjects_dir <- get subjects_dir ;;
    _render_trans fname data_path info subject subjects_dir ;;
    fnames_append fname ;;
    ret folders
  else if isdir w fname then
    let folders := (folders ++ [fname])%list in
    logger_info (LogFolders folders) ;;
    ret folders
  else ret folders.

(** The record of lines 448-450. *)
Definition rendering_msg (data_path fname : string) : LogRecord :=
  LogInfo ("Rendering : "
           ++ Str.join ("..." ++ Str.last_chars 20 data_path) fname).

(** The loop of lines 447-481.  A failed iteration leaves [folders] as
    it was: the branch that changes it cannot raise. *)
Fixpoint render_files (fnames : list string) (data_path : string)
    (info : Info) (interactive : bool) (folders : list string) : M unit :=
  match fnames with
  | [] => ret tt
  | fname :: rest =>
      logger_info (rendering_msg data_path fname) ;;
      folders <- try_except
                   (render_file fname data_path info interactive folders)
                   (fun e => logger_info (LogException e) ;; ret folders) ;;
      render_files rest data_path info interactive folders
  end.

(** The file names of lines 439-443. *)
Definition scan_fnames (data_path : string) (subjects_dir subject
    : option string) : list string :=
  let fnames := _recursive_search w data_path "*.fif" in
  match subjects_dir, subject with
  | Some subjects_dir, Some subject =>
      (fnames
       ++ glob w (Str.join (Str.join (Str.join subjects_dir subject) "mri")
                    "T1.mgz"))%list
  | _, _ => fnames
  end.

Definition parse_folder (data_path : string) (interactive : bool)
  : M unit :=
  modify (set_data_path (Some data_path)) ;;
  title <- get title ;;
  match title with
  | None =>
      modify (set_title
                (Some ("MNE Report for ..." ++ Str.last_chars 20 data_path)))
  | Some _ => ret tt
  end ;;
  subjects_dir <- get subjects_dir ;;
  subject <- get subject ;;
  let fnames := scan_fnames data_path subjects_dir subject in
  info_fname <- get info_fname ;;
  info <- call (read_info w info_fname) ;;
  render_files fnames data_path info interactive [].

(** *** Table of contents and saving (lines 483-590) *)

(** Lines 521-528. *)
Definition toc_color (fname : string) : string :=
  if negb (Str.endswith_any fname
             ["-eve.fif"; "-ave.fif"; "-cov.fif"; "-sol.fif"; "-fwd.fif";
              "-inv.fif"; "-src.fif"; "-trans.fif"; "raw.fif"; "-epo.fif";
              "T1.mgz"])
  then "red" else "".

(** Lines 530-546; [class_name] keeps its value from the previous
    iteration when no branch assigns it, and is unbound before the first
    assignment. *)
Definition toc_class_name (class_name : option string) (fname : string)
  : option string :=
  if Str.endswith_any fname ["-eve.fif"] then Some "events"
  else if Str.endswith_any fname ["-ave.fif"] then Some "evoked"
  else if Str.endswith_any fname ["-cov.fif"] then Some "covariance"
  else if Str.endswith_any fname ["raw.fif"; "sss.fif"] then Some "raw"
  else if Str.endswith_any fname ["-trans.fif"] then Some "trans"
  else if Str.endswith_any fname ["-fwd.fif"] then Some "forward"
  else if Str.endswith_any fname ["-epo.fif"] then Some "epochs"
  else if Str.endswith_any fname [".nii"; ".nii.gz"; ".mgh"; ".mgz"]
  then Some "slices-images"
  else class_name.

(** The suffixes of lines 548-550: the names that get one linked row. *)
Definition toc_file_suffixes : list string :=
  [".nii"; ".nii.gz"; ".mgh"; ".mgz"; "raw.fif"; "sss.fif";
   "-eve.fif"; "-cov.fif"; "-trans.fif"; "-fwd.fif"; "-epo.fif"].

(** The nested rows of lines 568-573. *)
Fixpoint toc_conditions (fname color : string) (evokeds : list Evoked)
    (global_id : Z) : list TocCond :=
  match evokeds with
  | [] => []
  | ev :: rest =>
      MkTocCond global_id fname color (comment ev)
      :: toc_conditions fname color rest (global_id + 1)
  end.

(** The loop of lines 517-584, with its three variables that outlive an
    iteration: the markup, [global_id] and [class_name].  The rows of
    lines 551-554, 563-565 and 569-572 format the name, its base name and
    the comments of the conditions into unicode markup. *)
Fixpoint toc_entries (fnames : list string) (global_id : Z)
    (class_name : option string) : M (list TocEntry) :=
  match fnames with
  | [] => ret []
  | fname :: rest =>
      logger_info (LogInfo ("	... " ++ Str.last_chars 20 fname)) ;;
      let color := toc_color fname in
      let class_name := toc_class_name class_name fname in
      if Str.endswith_any fname toc_file_suffixes then
        match class_name with
        | None => raise UnboundLocalError
        | Some c =>
            call (unicode_format [fname; Str.basename fname]) ;;
            entries <- toc_entries rest (global_id + 1) class_name ;;
            ret (TocFile c global_id fname color (Str.basename fname)
                 :: entries)
        end
      else if Str.endswith_any fname ["-ave.fif"] then
        evokeds <- call (read_evokeds w fname) ;;
        call (unicode_format [fname; Str.basename fname]) ;;
        call (unicode_format (map comment evokeds)) ;;
        entries <- toc_entries rest
                     (global_id + Z.of_nat (List.length evokeds))
                     class_name ;;
        ret (TocEvoked fname (Str.basename fname)
               (toc_conditions fname color evokeds global_id)
             :: entries)
      else if String.eqb fname "bem" then
        entries <- toc_entries rest (global_id + 1) class_name ;;
        ret (TocBem global_id :: entries)
      else
        entries <- toc_entries rest (global_id + 1) class_name ;;
        ret (TocCustom global_id :: entries)
  end.

Definition _render_toc : M unit :=
  logger_info (LogInfo "Rendering : Table of Contents") ;;
  fnames <- get fnames ;;
  entries <- toc_entries fnames 1 None ;;
  modify (fun s => set_html (list_insert 1 (Toc entries) (html s)) s).

Definition save (fname : string) (open_browser : bool) : M string :=
  _render_toc ;;
  html_append (Footer (strftime w)) ;;
  data_path <- get data_path ;;
  match data_path with
  | None => raise AttributeError
  | Some data_path =>
      call (open_write w (Str.join data_path fname)) ;;
      modify (fun s =>
                set_written
                  (written s ++ [(Str.join data_path fname, html s)])%list
                  s) ;;
      (if open_browser then
         let path := abspath w data_path in
         modify (fun s =>
                   set_browser_tabs
                     (browser_tabs s
                      ++ [("file://" ++ Str.join path fname)%string])%list
                     s)
       else ret tt) ;;
      ret fname
  end.

End Report.

(** ** Effects of a method *)

(** [m] leaves the observation [f] of the state as it was, whether it
    returns or raises. *)
Definition preserves {A B : Type} (f : State -> B) (m : M A) : Prop :=
  forall s, f (snd (m s)) = f s.

(** [m] touches neither [self.html] nor [self.fnames]. *)
Definition silent {A : Type} (m : M A) : Prop :=
  preserves html m /\ preserves fnames m.



(** Every name [m] adds to [self.fnames] satisfies [P]. *)
Definition appends (P : string -> Prop) {A : Type} (m : M A) : Prop :=
  forall s, exists l,
    fnames (snd (m s)) = (fnames s ++ l)%list /\ Forall P l.

(** The names for which [_render_toc] calls [read_evokeds] again. *)
Definition toc_rereads (fname : string) : bool :=
  negb (Str.endswith_any fname toc_file_suffixes)
  && Str.endswith_any fname ["-ave.fif"].

(** [read_evokeds] answers for [fname] if [_render_toc] asks. *)
Definition toc_rereadable (w : World) (fname : string) : Prop :=
  toc_rereads fname = true ->
  exists evokeds, read_evokeds w fname = Ok evokeds.

(** The rows of [fname] can be formatted: a name that gets a linked row
    or a group of condition rows is ASCII, and so are the comments of its
    conditions. *)
Definition toc_printable (w : World) (fname : string) : Prop :=
  if Str.endswith_any fname toc_file_suffixes then is_ascii fname = true
  else if Str.endswith_any fname ["-ave.fif"] then
    is_ascii fname = true /\
    forall evokeds, read_evokeds w fname = Ok evokeds ->
                    forallb is_ascii (map comment evokeds) = true
  else True.

(** [_render_toc] can write the rows of [fname]. *)
Definition toc_ready (w : World) (fname : string) : Prop :=
  toc_rereadable w fname /\ toc_printable w fname.

(** What the scan loop guarantees of a name it appends to [self.fnames]
    while it goes through [names]: it is the fixed name [bem] or one of
    [names], and it can be read again if the table re-reads it. *)
Definition scanned_name (w : World) (names : list string)
    (fname : string) : Prop :=
  toc_rereadable w fname /\ (fname = "bem" \/ In fname names).

(** The observation [f] does not read what a section builder writes
    apart from [self.fnames]: the id counter, the markup, the log and
    the warnings. *)
Definition untouched {C : Type} (f : State -> C) : Prop :=
  (forall v s, f (set_initial_id v s) = f s) /\
  (forall v s, f (set_html v s) = f s) /\
  (forall v s, f (set_logged v s) = f s) /\
  (forall v s, f (set_warned v s) = f s).

(** The attributes of [self] set at construction and by [parse_folder],
    and what the process has written and opened. *)
Definition config (s : State)
  : string * option string * option string * option string * option string
    * list (string * list Html) * list string :=
  (info_fname s, subjects_dir s, subject s, title s, data_path s,
   written s, browser_tabs s).

(** ** Observations on a document *)

(** The [id] attributes of the fragments of the body, in document order. *)
Definition fragment_ids (h : Html) : list Z :=
  match h with
  | ReprLi _ id _ _ => [id]
  | ImageLis lis => map li_id lis
  | SlicesLi id _ _ => [id]
  | Header _ _ | Toc _ | Footer _ => []
  end.

(** The [class] attributes of the fragments of the body. *)
Definition fragment_classes (h : Html) : list string :=
  match h with
  | ReprLi div_klass _ _ _ => [div_klass]
  | ImageLis lis => map li_klass lis
  | SlicesLi _ _ _ => ["slices-images"]
  | Header _ _ | Toc _ | Footer _ => []
  end.

(** The targets [href="#id"] of a row of the table of contents. *)
Definition toc_hrefs (e : TocEntry) : list Z :=
  match e with
  | TocFile _ href _ _ _ => [href]
  | TocEvoked _ _ conds => map cond_href conds
  | TocBem href => [href]
  | TocCustom href => [href]
  end.

(** The file a row stands for (its [title] attribute), when it has one. *)
Definition toc_title (e : TocEntry) : option string :=
  match e with
  | TocFile _ _ title _ _ => Some title
  | TocEvoked title _ _ => Some title
  | TocBem _ | TocCustom _ => None
  end.

(** The rows whose text is coloured red. *)
Definition toc_flagged (e : TocEntry) : bool :=
  match e with
  | TocFile _ _ _ color _ => String.eqb color "red"
  | TocEvoked _ _ conds =>
      existsb (fun c => String.eqb (cond_color c) "red") conds
  | TocBem _ | TocCustom _ => false
  end.

Definition toc_of (h : Html) : list TocEntry :=
  match h with
  | Toc entries => entries
  | _ => []
  end.

(** Smallest and largest element of a non-empty list of ints. *)
Definition list_min (x : Z) (l : list Z) : Z := fold_right Z.min x l.
Definition list_max (x : Z) (l : list Z) : Z := fold_right Z.max x l.

(** The world [w] with the file [name] removed from every directory. *)
Definition without_file (name : string) (w : World) : World :=
  MkWorld
    (fun path =>
       map (fun entry =>
              match entry with
              | (dirpath, dirnames, files) =>
                  (dirpath, dirnames,
                   filter (fun f => negb (String.eqb f name)) files)
              end)
           (os_walk w path))
    (glob w) (isfile w) (isdir w) (open_read w) (open_write w) (abspath w)
    (strftime w) (module_dir w) (read_info w) (Raw_repr w)
    (read_forward_solution_repr w) (read_evokeds w) (get_subjects_dir w)
    (nib_load w) (import_mpld3 w) (events_plot w) (epochs_drop_log_img w)
    (covariance_img w) (import_mayavi w) (plot_trans w) (figure_png w)
    (mri_contours_png w).

(** The indices the slice iterators are to yield, after the statement
    of the specification as amended for the empty collection: the indices
    of the axis that are in a non-empty [limits], every index of the axis
    otherwise. *)
Definition spec_indices (limits : option (list Z)) (extent : nat) : list Z :=
  match limits with
  | Some (x :: l) => filter (contains (x :: l)) (xrange extent)
  | Some [] | None => xrange extent
  end.

(** ** Anchors and fragment ids *)

(** The ids [g, g + 1, ..., g + n - 1]. *)
Definition ids_from (g : Z) (n : nat) : list Z :=
  map (fun k => (g + Z.of_nat k)%Z) (seq 0 n).

(** How far [_render_toc] advances [global_id] on a name. *)
Definition toc_width (w : World) (fname : string) : nat :=
  if Str.endswith_any fname toc_file_suffixes then 1
  else if Str.endswith_any fname ["-ave.fif"] then
    match read_evokeds w fname with
    | Ok evokeds => List.length evokeds
    | Raise _ => 0
    end
  else 1.

Definition total_width (w : World) (fnames : list string) : nat :=
  list_sum (map (toc_width w) fnames).

(** The ids of the fragments are those the table of contents will hand
    out for the names listed so far, and the counter stands at the last. *)
Definition aligned (w : World) (s : State) : Prop :=
  flat_map fragment_ids (html s)
  = ids_from 1 (total_width w (fnames s)) /\
  initial_id s = Z.of_nat (total_width w (fnames s)).

(** [plot_trans] draws every transform as a 3-D scene. *)
Definition always_scene (w : World) : Prop :=
  forall info fname subject subjects_dir fig,
    plot_trans w info fname subject subjects_dir = Ok fig ->
    exists bmp, fig = Scene bmp.

(** Every iteration of the loop of [parse_folder] leaves its [try]
    without an exception. *)
Fixpoint renders_cleanly (w : World) (fnames : list string)
    (data_path : string) (info : Info) (interactive : bool)
    (folders : list string) (s : State) : Prop :=
  match fnames with
  | [] => True
  | fname :: rest =>
      match render_file w fname data_path info interactive folders
              (set_logged (logged s ++ [rendering_msg data_path fname])%list
                 s)
      with
      | (Ok folders', s') =>
          renders_cleanly w rest data_path info interactive folders' s'
      | (Raise _, _) => False
      end
  end.

(** A method that returns has appended fragments with the next [k] ids
    and left [self.fnames] alone. *)
Definition emits (k : nat) {A : Type} (m : M A) : Prop :=
  forall s a s', m s = (Ok a, s') ->
    exists hs,
      html s' = (html s ++ hs)%list /\
      flat_map fragment_ids hs = ids_from (initial_id s + 1) k /\
      initial_id s' = (initial_id s + Z.of_nat k)%Z /\
      fnames s' = fnames s.

(** The counter, the markup and the names: what logging and warning
    leave alone. *)
Definition rendering (s : State) : Z * list Html * list string :=
  (initial_id s, html s, fnames s).

(** ** Sections of the body *)

(** Every element [m] adds to [self.html] satisfies [P]. *)
Definition adds (P : Html -> Prop) {A : Type} (m : M A) : Prop :=
  forall s, exists hs,
    html (snd (m s)) = (html s ++ hs)%list /\ Forall P hs.

(** The class of the fragments rendered for a file name, by the cascade
    of lines 452-476 and the [div_klass] of the builder each branch calls. *)
Definition kind_class (fname : string) : option string :=
  if Str.endswith_any fname [".mgz"] then Some "slices-images"
  else if Str.endswith_any fname ["raw.fif"; "sss.fif"] then Some "raw"
  else if Str.endswith_any fname ["-fwd.fif"; "-fwd.fif.gz"]
  then Some "forward"
  else if Str.endswith_any fname ["-ave.fif"] then Some "evoked"
  else if Str.endswith_any fname ["-eve.fif"] then Some "events"
  else if Str.endswith_any fname ["-epo.fif"] then Some "epochs"
  else if Str.endswith_any fname ["-cov.fif"] then Some "covariance"
  else if Str.endswith_any fname ["-trans.fif"] then Some "trans"
  else None.

(** [h] is a section of the body whose fragments all have class [c]. *)
Definition section_of (c : string) (h : Html) : Prop :=
  match h with
  | ReprLi div_klass _ _ _ => div_klass = c
  | ImageLis lis => Forall (fun li => li_klass li = c) lis
  | SlicesLi _ _ _ => "slices-images" = c
  | Header _ _ | Toc _ | Footer _ => False
  end.

(** The classes the buttons of [header_template] toggle (lines 237-260). *)
Definition navbar_classes : list string :=
  ["raw"; "epochs"; "evoked"; "forward"; "covariance"; "events"; "trans";
   "slices-images"].

(** A section rendered for one of [names], with the class of its kind. *)
Definition rendered_for (names : list string) (h : Html) : Prop :=
  exists fname c,
    In fname names /\ kind_class fname = Some c /\ section_of c h.

(** ** Sample worlds *)

Module Sample.

(** A world in which the readers and the plotting backend answer: the
    directory tree is [walk], [T1.mgz] exists when [mri] says so and loads
    as [volume], no [bem] directory exists, [plot_trans] returns [fig],
    and the raw reader fails on names ending in [bad_raw.fif]. *)
Definition world (walk : list (string * list string * list string))
    (mri : bool) (volume : result Np.ndarray3) (fig : TransFig) : World :=
  MkWorld
    (fun _ => walk)
    (fun pattern =>
       if mri && Str.endswith pattern "T1.mgz" then [pattern] else [])
    (fun _ => mri)
    (fun _ => false)
    (fun _ => Ok "asset")
    (fun _ => Ok tt)
    (fun p => p)
    "November 03, 2026"
    "/mne"
    (fun _ => Ok "info")
    (fun f => if Str.endswith f "bad_raw.fif"
              then Raise (ExternalError "Raw")
              else Ok ("<Raw>", "<Info>"))
    (fun _ => Ok "<Forward>")
    (fun _ => Ok [MkEvoked "A" (Ok "imgA"); MkEvoked "B" (Ok "imgB")])
    (fun d => match d with
              | Some d => Ok d
              | None => Raise (ExternalError "get_subjects_dir")
              end)
    (fun _ => volume)
    (Ok tt)
    (fun _ _ interactive =>
       if interactive then Ok (MkEventsPlot None (Some "<div>events</div>"))
       else Ok (MkEventsPlot (Some "events.png") None))
    (fun _ _ => Ok "droplog.png")
    (fun _ => Ok "cov.png")
    (Ok tt)
    (fun _ _ _ _ => Ok fig)
    (fun _ _ => Ok "slice.png")
    (fun _ _ _ _ _ => Ok "contour.png").

(** A 2 x 2 x 2 volume. *)
Definition cube : Np.ndarray3 :=
  Np.Array3 2 2 2 [[[1; 2]; [3; 4]]; [[5; 6]; [7; 8]]]%Z.


Definition square : Np.ndarray2 := Np.Array2 2 2 [[1; 2]; [3; 4]]%Z.

(** A report made, scanned and saved in [w]. *)
Definition run (w : World) (subjects_dir subject : option string)
  : result string * State :=
  match __init__ w "info.fif" subjects_dir subject None with
  | (Raise e, s) => (Raise e, s)
  | (Ok _, s) =>
      match parse_folder w "/data" true s with
      | (Raise e, s) => (Raise e, s)
      | (Ok _, s) => save w "report.html" false s
      end
  end.

(** The report of [w] when the loop of [parse_folder] starts. *)
Definition at_scan (w : World) (subjects_dir subject : option string)
  : State :=
  set_data_path (Some "/data")
    (snd (__init__ w "info.fif" subjects_dir subject (Some "Sample"))).

(** A folder with an unreadable raw file before a readable one. *)
Definition bad_raw_world : World :=
  world [("/data", [], ["bad_raw.fif"; "b_raw.fif"])] true (Ok cube)
        OtherFig.


(** A subject with a loadable volume and no [bem] directory. *)
Definition no_bem_world : World := world [] true (Ok cube) OtherFig.

(** A subject with neither volume nor [bem] directory. *)
Definition no_mri_world : World :=
  world [] false (Raise (ExternalError "nib.load")) OtherFig.

(** A folder whose only file has an unknown suffix. *)
Definition weird_world : World :=
  world [("/data", [], ["weird_data.bin"])] true (Ok cube) OtherFig.

(** A folder with a transform the plotting backend draws in 2-D, then a
    raw file. *)
Definition trans_world : World :=
  world [("/data", [], ["a-trans.fif"; "b_raw.fif"])] true (Ok cube)
        OtherFig.

(** A folder whose transform is drawn as a 3-D scene, with a raw file
    and an averaged-response file of two conditions. *)
Definition scene_world : World :=
  world [("/data", [], ["a-trans.fif"; "b_raw.fif"; "d-ave.fif"])] true
        (Ok cube) (Scene (Ok "scene.bmp")).

(** The two bytes of the UTF-8 encoding of U+00E9, as they stand in a
    Python 2 byte string. *)
Definition e_acute : string :=
  String (ascii_of_nat 195) (String (ascii_of_nat 169) EmptyString).

(** A folder with an unreadable raw file, then a transform whose name is
    not ASCII and which the plotting backend draws in 2-D. *)
Definition accent_world : World :=
  world [("/data", [], ["bad_raw.fif"; e_acute ++ "-trans.fif"])] true
        (Ok cube) OtherFig.

(** A folder with a Maxwell-filtered raw file. *)
Definition sss_world : World :=
  world [("/data", [], ["sub_sss.fif"])] true (Ok cube) OtherFig.

(** A report that lists a raw file, an averaged-response file, the
    anatomy and a user figure, before any table of contents. *)
Definition listed : State :=
  set_fnames ["/data/b_raw.fif"; "/data/d-ave.fif"; "bem"; "custom"]
    (snd (__init__ scene_world "info.fif" None None None)).

(** A volume of shape (2, 2, 1): every axial plane has one column. *)
Definition thin_volume : Np.ndarray3 :=
  Np.Array3 2 2 1 [[[1]; [2]]; [[3]; [4]]]%Z.

Definition thin_world : World := world [] true (Ok thin_volume) OtherFig.

End Sample.

(** * Properties *)

(** ** Suffixes *)

Lemma endswith_refl (s : string) : Str.endswith s s = true.
Proof. destruct s; cbn [Str.endswith]; rewrite String.eqb_refl; reflexivity. Qed.

Lemma endswith_cons (c : ascii) (s suf : string) :
  Str.endswith s suf = true -> Str.endswith (String c s) suf = true.
Proof.
  intros H. cbn [Str.endswith].
  destruct (String.eqb (String c s) suf); [reflexivity|exact H].
Qed.

Lemma endswith_app (p suf : string) : Str.endswith (p ++ suf) suf = true.
Proof.
  induction p as [|c p IH]; cbn [Str.endswith append].
  - apply endswith_refl.
  - destruct (String.eqb (String c (p ++ suf)) suf); [reflexivity|exact IH].
Qed.

Lemma endswith_inv (s suf : string) :
  Str.endswith s suf = true -> exists p, s = p ++ suf.
Proof.
  induction s as [|c s IH]; cbn [Str.endswith].
  - destruct (String.eqb "" suf) eqn:E; [|discriminate].
    apply String.eqb_eq in E. intros _. exists "". exact E.
  - destruct (String.eqb (String c s) suf) eqn:E.
    + apply String.eqb_eq in E. intros _. exists "". exact E.
    + intros H. destruct (IH H) as [p Hp]. exists (String c p).
      simpl. now rewrite Hp.
Qed.

Lemma endswith_trans (s a b : string) :
  Str.endswith s a = true -> Str.endswith a b = true ->
  Str.endswith s b = true.
Proof.
  intros Ha Hb. induction s as [|c s IH]; cbn [Str.endswith] in Ha |- *.
  - destruct (String.eqb "" a) eqn:E; [|discriminate].
    apply String.eqb_eq in E. subst a. exact Hb.
  - destruct (String.eqb (String c s) a) eqn:E.
    + apply String.eqb_eq in E. subst a. exact Hb.
    + destruct (String.eqb (String c s) b); [reflexivity|]. now apply IH.
Qed.

(** Two suffixes of one string: one of them is a suffix of the other. *)
Lemma endswith_both (s a b : string) :
  Str.endswith s a = true -> Str.endswith s b = true ->
  Str.endswith a b || Str.endswith b a = true.
Proof.
  induction s as [|c s IH]; cbn [Str.endswith].
  - destruct (String.eqb "" a) eqn:Ea; [|discriminate].
    destruct (String.eqb "" b) eqn:Eb; [|discriminate].
    apply String.eqb_eq in Ea, Eb. subst. intros _ _. reflexivity.
  - destruct (String.eqb (String c s) a) eqn:Ea.
    + apply String.eqb_eq in Ea. subst a. intros _ Hb.
      change (Str.endswith (String c s) b = true) in Hb.
      rewrite Hb. reflexivity.
    + destruct (String.eqb (String c s) b) eqn:Eb.
      * apply String.eqb_eq in Eb. subst b. intros Ha _.
        assert (H : Str.endswith (String c s) a = true).
        { cbn [Str.endswith]. rewrite Ea. exact Ha. }
        rewrite H. apply orb_true_r.
      * exact IH.
Qed.

(** A name with suffix [a] has no suffix [b] unrelated to [a]. *)
Lemma endswith_apart (s a b : string) :
  Str.endswith a b || Str.endswith b a = false ->
  Str.endswith s a = true -> Str.endswith s b = false.
Proof.
  intros Hab Ha. destruct (Str.endswith s b) eqn:Hb; [|reflexivity].
  rewrite (endswith_both s a b Ha Hb) in Hab. discriminate.
Qed.

Lemma endswith_join (d f suf : string) :
  Str.endswith f suf = true -> Str.endswith (Str.join d f) suf = true.
Proof.
  intros H. unfold Str.join.
  destruct (Str.startswith_slash f); [exact H|].
  destruct (String.eqb d "" || Str.endswith d "/").
  - apply endswith_trans with (a := f); [apply endswith_app|exact H].
  - apply endswith_trans with (a := f); [|exact H].
    replace (d ++ "/" ++ f) with ((d ++ "/") ++ f).
    + apply endswith_app.
    + induction d as [|c d IH]; simpl; [reflexivity|now rewrite IH].
Qed.

Lemma fnmatch_literal (pat name : string) :
  (forall c, In c (list_ascii_of_string pat) ->
             Ascii.eqb c "*" = false /\ Ascii.eqb c "?" = false) ->
  fnmatch pat name = String.eqb pat name.
Proof.
  revert name. induction pat as [|c pat IH]; intros name Hlit.
  - simpl. destruct name; reflexivity.
  - simpl. destruct (Hlit c (or_introl eq_refl)) as [Hs Hq].
    rewrite Hs, Hq. destruct name as [|d name]; [reflexivity|].
    rewrite IH; [reflexivity|]. intros c' Hc'. apply Hlit. now right.
Qed.

(** The pattern of [parse_folder] selects the names that end in [.fif]. *)
Lemma fnmatch_fif (name : string) :
  fnmatch "*.fif" name = Str.endswith name ".fif".
Proof.
  assert (Hlit : forall n, fnmatch ".fif" n = String.eqb n ".fif").
  { intros n. rewrite fnmatch_literal.
    - apply String.eqb_sym.
    - intros c Hc. simpl in Hc.
      repeat (destruct Hc as [<-|Hc]; [split; reflexivity|]).
      destruct Hc. }
  change (fnmatch "*.fif" name)
    with ((fix star (n : string) : bool :=
             fnmatch ".fif" n ||
             match n with
             | EmptyString => false
             | String _ n' => star n'
             end) name).
  induction name as [|c name IH].
  - reflexivity.
  - rewrite Hlit. cbn [Str.endswith].
    destruct (String.eqb (String c name) ".fif"); [reflexivity|].
    simpl. exact IH.
Qed.

(** ** Arrays *)

Lemma tabulate_nth {A : Type} (l : list A) (d : A) :
  map (fun j => nth j l d) (seq 0 (List.length l)) = l.
Proof.
  induction l as [|a l IH]; [reflexivity|].
  cbn [List.length seq map nth]. f_equal.
  rewrite <- seq_shift, map_map. exact IH.
Qed.

Lemma rev_seq (n : nat) : rev (seq 0 n) = map (fun j => n - 1 - j) (seq 0 n).
Proof.
  induction n as [|n IH]; [reflexivity|].
  rewrite seq_S at 1. rewrite rev_app_distr. cbn [rev app plus].
  rewrite IH. cbn [seq map]. f_equal; [lia|].
  rewrite <- seq_shift, map_map. apply map_ext_in.
  intros j _. lia.
Qed.

Lemma wf2_transpose (m : Np.ndarray2) : Np.wf2 m -> Np.wf2 (Np.transpose m).
Proof.
  intros [Hr Hc]. split; cbn.
  - now rewrite length_map, length_seq.
  - apply Forall_forall. intros r Hin. apply in_map_iff in Hin.
    destruct Hin as [j [<- _]]. now rewrite length_map.
Qed.

Lemma wf2_fliplr (m : Np.ndarray2) : Np.wf2 m -> Np.wf2 (Np.fliplr m).
Proof.
  intros [Hr Hc]. split; cbn.
  - now rewrite length_map.
  - apply Forall_forall. intros r Hin. apply in_map_iff in Hin.
    destruct Hin as [r' [<- Hr']]. rewrite length_rev.
    rewrite Forall_forall in Hc. now apply Hc.
Qed.

Lemma wf2_flipud (m : Np.ndarray2) : Np.wf2 m -> Np.wf2 (Np.flipud m).
Proof.
  intros [Hr Hc]. split; cbn.
  - now rewrite length_rev.
  - apply Forall_forall. intros r Hin. apply in_rev in Hin.
    rewrite Forall_forall in Hc. now apply Hc.
Qed.

(** Transposing twice gives the array back. *)
Lemma transpose_involutive (m : Np.ndarray2) :
  Np.wf2 m -> Np.transpose (Np.transpose m) = m.
Proof.
  destruct m as [r c rows]. intros [Hr Hc]. cbn in Hr, Hc.
  unfold Np.transpose. cbn. f_equal.
  rewrite <- Hr.
  transitivity (map (fun i => nth i rows []) (seq 0 (List.length rows)));
    [|apply tabulate_nth].
  apply map_ext_in. intros i Hi. apply in_seq in Hi.
  rewrite map_map.
  assert (Hlen : List.length (nth i rows []) = c).
  { rewrite Forall_forall in Hc. apply Hc. apply nth_In. lia. }
  transitivity (map (fun j => nth j (nth i rows []) 0%Z) (seq 0 c));
    [|rewrite <- Hlen; apply tabulate_nth].
  apply map_ext. intros j.
  rewrite (nth_indep _ 0%Z (nth j [] 0%Z)).
  - now rewrite (map_nth (fun r0 => nth j r0 0%Z)).
  - rewrite length_map. lia.
Qed.

(** The coronal presentation transform is the transposition. *)
Lemma coronal_transform_transpose (m : Np.ndarray2) :
  Np.wf2 m -> coronal_transform m = Np.transpose m.
Proof.
  destruct m as [r c rows]. intros [Hr Hc]. cbn in Hr, Hc.
  unfold coronal_transform, Np.flipud, Np.rot90, Np.transpose, Np.fliplr.
  cbn. f_equal.
  rewrite <- map_rev, rev_seq, map_map.
  apply map_ext_in. intros j Hj. apply in_seq in Hj.
  rewrite map_map. apply map_ext_in. intros row Hrow.
  rewrite Forall_forall in Hc. specialize (Hc row Hrow).
  rewrite rev_nth by lia. f_equal. lia.
Qed.

Lemma fliplr_transpose (m : Np.ndarray2) :
  Np.fliplr (Np.transpose m) = Np.transpose (Np.flipud m).
Proof.
  unfold Np.fliplr, Np.transpose, Np.flipud. cbn. f_equal.
  rewrite map_map. apply map_ext. intros j. now rewrite map_rev.
Qed.

(** Two quarter turns are the half turn. *)
Lemma rot90_twice (m : Np.ndarray2) :
  Np.wf2 m -> Np.rot90 (Np.rot90 m) = Np.rot180 m.
Proof.
  intros Hm. unfold Np.rot90 at 1. unfold Np.rot90.
  rewrite fliplr_transpose, transpose_involutive.
  - unfold Np.rot180, Np.flipud, Np.fliplr. cbn. f_equal. symmetry; apply map_rev.
  - now apply wf2_flipud, wf2_fliplr.
Qed.

(** C2, as amended: on every well-formed 2-D array (square or not) the
    coronal presentation transform, rotate 90 degrees then flip
    vertically, is an involution: applied twice in succession it returns
    the original array, not its 180-degree rotation. *)
Theorem coronal_transform_twice (m : Np.ndarray2) :
  Np.wf2 m -> coronal_transform (coronal_transform m) = m.
Proof.
  intros Hm.
  rewrite (coronal_transform_transpose m Hm).
  rewrite coronal_transform_transpose by now apply wf2_transpose.
  now apply transpose_involutive.
Qed.

Lemma coronal_transform_twice_witness :
  Np.wf2 Sample.square /\
  coronal_transform (coronal_transform Sample.square) = Sample.square.
Proof.
  assert (H : Np.wf2 Sample.square).
  { split; [reflexivity|]. repeat constructor. }
  split; [exact H|]. exact (coronal_transform_twice Sample.square H).
Defined.

(** C2, as stated, fails on the square array [[1, 2], [3, 4]]: the
    transform applied twice gives the array itself, and the array differs
    from its 180-degree rotation [[4, 3], [2, 1]]. *)
Lemma coronal_twice_is_not_half_turn :
  Np.nrows Sample.square = Np.ncols Sample.square /\
  coronal_transform (coronal_transform Sample.square)
  <> Np.rot180 Sample.square.
Proof. split; [reflexivity|]. vm_compute. discriminate. Qed.

(** ** Slice iterators *)

Lemma xrange_In (n : nat) (i : Z) :
  In i (xrange n) <-> (0 <= i < Z.of_nat n)%Z.
Proof.
  unfold xrange. rewrite in_map_iff. split.
  - intros [k [<- Hk]]. apply in_seq in Hk. lia.
  - intros Hi. exists (Z.to_nat i). split; [lia|]. apply in_seq. lia.
Qed.

Lemma of_nat_seq_sorted (a n : nat) :
  StronglySorted Z.lt (map Z.of_nat (seq a n)).
Proof.
  revert a. induction n as [|n IH]; intros a; cbn [seq map].
  - constructor.
  - constructor; [apply IH|].
    apply Forall_forall. intros x Hx. apply in_map_iff in Hx.
    destruct Hx as [k [<- Hk]]. apply in_seq in Hk. lia.
Qed.

Lemma filter_sorted (p : Z -> bool) (l : list Z) :
  StronglySorted Z.lt l -> StronglySorted Z.lt (filter p l).
Proof.
  induction 1 as [|x l Hl IH Hx]; cbn [filter]; [constructor|].
  destruct (p x); [|exact IH].
  constructor; [exact IH|].
  apply Forall_forall. intros y Hy. apply filter_In in Hy.
  rewrite Forall_forall in Hx. now apply Hx.
Qed.

Lemma spec_indices_sorted (limits : option (list Z)) (extent : nat) :
  Sorted Z.lt (spec_indices limits extent).
Proof.
  apply StronglySorted_Sorted. unfold spec_indices.
  destruct limits as [[|x l]|];
    try apply filter_sorted; apply of_nat_seq_sorted.
Qed.

Lemma contains_In (l : list Z) (i : Z) : contains l i = true <-> In i l.
Proof.
  unfold contains. rewrite existsb_exists. split.
  - intros [y [Hy E]]. apply Z.eqb_eq in E. now subst.
  - intros Hi. exists i. split; [exact Hi|apply Z.eqb_refl].
Qed.

Lemma filter_all {A : Type} (p : A -> bool) (l : list A) :
  (forall x, p x = true) -> filter p l = l.
Proof.
  intros Hp. induction l as [|x l IH]; [reflexivity|].
  cbn [filter]. rewrite Hp. now rewrite IH.
Qed.

(** The shape shared by the three generators: the pairs of the indices
    that are not skipped. *)
Lemma iterate_slices (plane : Z -> Np.ndarray2) (limits : option (list Z))
    (extent : nat) :
  flat_map (fun ind => if skipped limits ind then []
                       else [(ind, plane ind)])
           (xrange extent)
  = map (fun ind => (ind, plane ind)) (spec_indices limits extent).
Proof.
  assert (H : forall l,
    flat_map (fun ind => if skipped limits ind then []
                         else [(ind, plane ind)]) l
    = map (fun ind => (ind, plane ind))
          (filter (fun ind => negb (skipped limits ind)) l)).
  { induction l as [|i l IH]; [reflexivity|].
    cbn [flat_map filter]. destruct (skipped limits i); cbn.
    - exact IH.
    - now rewrite IH. }
  rewrite H. f_equal. unfold spec_indices, skipped.
  destruct limits as [[|x l]|]; cbn [truthy andb negb].
  - apply filter_all. reflexivity.
  - apply filter_ext. intros i. apply negb_involutive.
  - apply filter_all. reflexivity.
Qed.

Lemma iterators_by_indices (array : Np.ndarray3)
    (limits : option (list Z)) :
  _iterate_sagittal_slices array limits
  = map (fun ind => (ind, Np.index0 array ind))
        (spec_indices limits (Np.dim0 array)) /\
  _iterate_axial_slices array limits
  = map (fun ind => (ind, Np.index1 array ind))
        (spec_indices limits (Np.dim1 array)) /\
  _iterate_coronal_slices array limits
  = map (fun ind => (ind, coronal_transform (Np.index2 array ind)))
        (spec_indices limits (Np.dim2 array)).
Proof.
  split; [apply iterate_slices|]. split; apply iterate_slices.
Qed.

(** C10, as amended: for every 3-D array and every axis (sagittal over the
    first dimension, axial over the second, coronal over the third, the
    coronal plane transformed), a non-empty limit collection makes the
    iterator yield exactly the indices of the axis that belong to the
    collection, each paired with its plane, in ascending order; with no
    limit, or with an empty limit collection, every index of the axis is
    yielded. *)
Theorem slice_iterators_yield (array : Np.ndarray3)
    (limits : option (list Z)) :
  _iterate_sagittal_slices array limits
  = map (fun ind => (ind, Np.index0 array ind))
        (spec_indices limits (Np.dim0 array)) /\
  _iterate_axial_slices array limits
  = map (fun ind => (ind, Np.index1 array ind))
        (spec_indices limits (Np.dim1 array)) /\
  _iterate_coronal_slices array limits
  = map (fun ind => (ind, coronal_transform (Np.index2 array ind)))
        (spec_indices limits (Np.dim2 array)) /\
  forall extent : nat,
    Sorted Z.lt (spec_indices limits extent) /\
    forall ind : Z,
      In ind (spec_indices limits extent) <->
      (0 <= ind < Z.of_nat extent)%Z /\
      match limits with
      | Some (x :: l) => In ind (x :: l)
      | Some [] | None => True
      end.
Proof.
  split; [apply iterate_slices|].
  split; [apply iterate_slices|].
  split; [apply iterate_slices|].
  intros extent. split; [apply spec_indices_sorted|].
  intros ind. unfold spec_indices.
  destruct limits as [[|x l]|]; rewrite ?filter_In, xrange_In;
    rewrite ?contains_In; tauto.
Qed.

(** C10, as stated, fails for the empty limit collection: on the
    2 x 2 x 2 volume the sagittal iterator given [limits = []] yields the
    indices 0 and 1, none of which belongs to the collection. *)
Lemma empty_limits_yield_everything :
  map fst (_iterate_sagittal_slices Sample.cube (Some [])) = [0; 1]%Z /\
  ~ (forall ind : Z,
       In ind (map fst (_iterate_sagittal_slices Sample.cube (Some []))) ->
       In ind []).
Proof.
  split; [reflexivity|]. intros H. apply (H 0%Z). left. reflexivity.
Qed.

(** ** Slider builder *)

Lemma sorted_min (x : Z) (l : list Z) :
  StronglySorted Z.le (x :: l) -> list_min x l = x.
Proof.
  intros H. apply StronglySorted_inv in H. destruct H as [_ Hx].
  unfold list_min. induction l as [|y l IH]; [reflexivity|].
  cbn [fold_right]. apply Forall_cons_iff in Hx. destruct Hx as [Hy Hl].
  rewrite (IH Hl). lia.
Qed.

Lemma list_max_ge (x : Z) (l : list Z) (y : Z) :
  In y (x :: l) -> (y <= list_max x l)%Z.
Proof.
  unfold list_max. induction l as [|z l IH]; cbn [fold_right].
  - intros [<-|[]]. lia.
  - intros [<-|[<-|H]].
    + specialize (IH (or_introl eq_refl)). lia.
    + lia.
    + specialize (IH (or_intror H)). lia.
Qed.

Lemma list_max_In (x : Z) (l : list Z) : In (list_max x l) (x :: l).
Proof.
  unfold list_max. induction l as [|z l IH]; cbn [fold_right].
  - now left.
  - destruct (Z.max_spec z (fold_right Z.max x l)) as [[_ ->]|[_ ->]].
    + destruct IH as [IH|IH]; [now left|now right; right].
    + right. now left.
Qed.

Lemma last_In (x : Z) (l : list Z) (d : Z) : In (last (x :: l) d) (x :: l).
Proof.
  revert x. induction l as [|y l IH]; intros x.
  - now left.
  - right. exact (IH y).
Qed.

Lemma sorted_last_ge (s : list Z) (d y : Z) :
  StronglySorted Z.le s -> In y s -> (y <= last s d)%Z.
Proof.
  induction 1 as [|a s Hs IH Ha]; intros Hy; [destruct Hy|].
  destruct s as [|b s].
  - destruct Hy as [<-|[]]. cbn. lia.
  - change (last (a :: b :: s) d) with (last (b :: s) d).
    destruct Hy as [<-|Hy]; [|now apply IH].
    rewrite Forall_forall in Ha. apply Ha. apply last_In.
Qed.

Lemma sorted_max (x : Z) (l : list Z) :
  StronglySorted Z.le (x :: l) -> list_max x l = last (x :: l) x.
Proof.
  intros H. apply Z.le_antisymm.
  - apply sorted_last_ge; [exact H|apply list_max_In].
  - apply list_max_ge, last_In.
Qed.

(** C3, as amended: for every non-empty ascending sequence of integer
    indices the slider builder succeeds, its start value equals
    floor((min + max) / 2) + 1 and is at least the minimum; it is at most
    the maximum exactly when the sequence holds two different indices
    (for a single index i the start value is i + 1). *)
Theorem slider_startvalue (first : Z) (rest : list Z)
    (slides_klass slider_id : string) :
  Sorted Z.le (first :: rest) ->
  exists s : Slider,
    _build_html_slider (first :: rest) slides_klass slider_id = Ok s /\
    startvalue s
    = ((list_min first rest + list_max first rest) / 2 + 1)%Z /\
    (list_min first rest <= startvalue s)%Z /\
    ((startvalue s <= list_max first rest)%Z <->
     (list_min first rest < list_max first rest)%Z).
Proof.
  intros Hs. apply Sorted_StronglySorted in Hs;
    [|intros a b c; apply Z.le_trans].
  pose proof (sorted_min first rest Hs) as Hmin.
  pose proof (sorted_max first rest Hs) as Hmax.
  assert (Hle : (first <= last (first :: rest) first)%Z).
  { apply sorted_last_ge; [exact Hs|now left]. }
  eexists. split; [reflexivity|].
  cbn [startvalue slider_template_substitute].
  rewrite Hmin, Hmax.
  set (hi := last (first :: rest) first) in *.
  pose proof (Z.div_mod (first + hi) 2 ltac:(lia)) as Hdm.
  pose proof (Z.mod_pos_bound (first + hi) 2 ltac:(lia)) as Hb.
  repeat split; lia.
Qed.

Lemma slider_startvalue_witness :
  Sorted Z.le [0; 2; 4]%Z /\
  exists s : Slider,
    _build_html_slider [0; 2; 4]%Z "axial-1" "select-axial-1" = Ok s /\
    startvalue s = ((list_min 0 [2; 4] + list_max 0 [2; 4]) / 2 + 1)%Z /\
    (list_min 0 [2; 4] <= startvalue s)%Z /\
    ((startvalue s <= list_max 0 [2; 4])%Z <->
     (list_min 0 [2; 4] < list_max 0 [2; 4])%Z).
Proof.
  assert (H : Sorted Z.le [0; 2; 4]%Z).
  { repeat constructor; vm_compute; discriminate. }
  split; [exact H|].
  exact (slider_startvalue 0 [2; 4]%Z "axial-1" "select-axial-1" H).
Defined.

(** C3, as stated, fails on the one-index sequence [0] (the slices of an
    axis of extent 1 or 2): the start value is 1, above the maximum 0. *)
Lemma slider_startvalue_above_max :
  Sorted Z.le [0%Z] /\
  exists s : Slider,
    _build_html_slider [0%Z] "axial-1" "select-axial-1" = Ok s /\
    ~ (list_min 0 [] <= startvalue s <= list_max 0 [])%Z.
Proof.
  split; [repeat constructor|].
  eexists. split; [reflexivity|]. vm_compute. intros [_ H]. now apply H.
Qed.

(** ** Effects: what a method leaves untouched *)

Section Effects.

Context {A B : Type}.

Lemma preserves_ret {C : Type} (f : State -> C) (a : A) : preserves f (ret a).
Proof. intros s. reflexivity. Qed.

Lemma preserves_raise {C : Type} (f : State -> C) (e : exn) :
  preserves f (@raise A e).
Proof. intros s. reflexivity. Qed.

Lemma preserves_call {C : Type} (f : State -> C) (r : result A) : preserves f (call r).
Proof. intros s. reflexivity. Qed.

Lemma preserves_get {C : Type} (f : State -> C) (g : State -> A) : preserves f (get g).
Proof. intros s. reflexivity. Qed.

Lemma preserves_modify {C : Type} (f : State -> C) (g : State -> State) :
  (forall s, f (g s) = f s) -> preserves f (modify g).
Proof. intros H s. apply H. Qed.

Lemma preserves_bind {C : Type} (f : State -> C) (m : M A) (k : A -> M B) :
  preserves f m -> (forall a, preserves f (k a)) -> preserves f (bind m k).
Proof.
  intros Hm Hk s. unfold bind. specialize (Hm s).
  destruct (m s) as [[a|e] s1]; cbn in Hm |- *.
  - rewrite (Hk a s1). exact Hm.
  - exact Hm.
Qed.

Lemma preserves_try {C : Type} (f : State -> C) (m : M A) (h : exn -> M A) :
  preserves f m -> (forall e, preserves f (h e)) ->
  preserves f (try_except m h).
Proof.
  intros Hm Hh s. unfold try_except. specialize (Hm s).
  destruct (m s) as [[a|e] s1]; cbn in Hm |- *.
  - exact Hm.
  - rewrite (Hh e s1). exact Hm.
Qed.

Lemma silent_bind (m : M A) (k : A -> M B) :
  silent m -> (forall a, silent (k a)) -> silent (bind m k).
Proof.
  intros [H1 H2] Hk. split; apply preserves_bind; try assumption;
    intros a; apply (Hk a).
Qed.







End Effects.




Lemma silent_ret {A : Type} (a : A) : silent (ret a).
Proof. split; apply preserves_ret. Qed.

Lemma silent_raise {A : Type} (e : exn) : silent (@raise A e).
Proof. split; apply preserves_raise. Qed.

Lemma silent_call {A : Type} (r : result A) : silent (call r).
Proof. split; apply preserves_call. Qed.

Lemma silent_get {A : Type} (g : State -> A) : silent (get g).
Proof. split; apply preserves_get. Qed.

Lemma silent_logger_info (r : LogRecord) : silent (logger_info r).
Proof. split; apply preserves_modify; reflexivity. Qed.

Lemma silent_warnings_warn (msg : Warning) : silent (warnings_warn msg).
Proof. split; apply preserves_modify; reflexivity. Qed.

Lemma silent_get_id : silent _get_id.
Proof.
  apply silent_bind; [|intros; apply silent_get].
  split; apply preserves_modify; reflexivity.
Qed.

(** ** Identifier allocator *)

Lemma get_id_run (s : State) :
  _get_id s = (Ok (initial_id s + 1)%Z, set_initial_id (initial_id s + 1) s).
Proof. reflexivity. Qed.

Lemma consecutive_ids_from (n : nat) (s : State) :
  fst (consecutive_ids n s)
  = Ok (map (fun k => (initial_id s + Z.of_nat k)%Z) (seq 1 n)).
Proof.
  revert s. induction n as [|n IH]; intros s; [reflexivity|].
  cbn [consecutive_ids]. unfold bind at 1. rewrite get_id_run.
  unfold bind at 1.
  specialize (IH (set_initial_id (initial_id s + 1) s)).
  destruct (consecutive_ids n (set_initial_id (initial_id s + 1) s))
    as [[ids|e] s1]; cbn in IH; [|discriminate].
  inversion IH; subst ids. cbn [ret fst seq map]. do 2 f_equal.
  rewrite <- (seq_shift n 1), map_map. apply map_ext. intros k.
  cbn [initial_id set_initial_id]. lia.
Qed.

Lemma preserves_embed_includes (w : World) (names : list string)
    (include : list Include) :
  preserves initial_id (embed_includes w names include).
Proof.
  revert include. induction names as [|n names IH]; intros include.
  - apply preserves_ret.
  - cbn [embed_includes]. apply preserves_bind.
    + apply preserves_modify. reflexivity.
    + intros _. apply preserves_bind; [apply preserves_call|].
      intros f. apply IH.
Qed.

Lemma init_initial_id (w : World) (info_fname : string)
    (subjects_dir subject title : option string) :
  initial_id (snd (__init__ w info_fname subjects_dir subject title)) = 0%Z.
Proof.
  unfold __init__.
  assert (H : preserves initial_id (_init_render w)).
  { apply preserves_bind; [apply preserves_embed_includes|].
    intros inc. apply preserves_bind; [apply preserves_get|].
    intros t. apply preserves_modify. reflexivity. }
  now rewrite H.
Qed.

(** C9: on a freshly constructed [Report], [n] consecutive calls of the
    identifier allocator return exactly 1, 2, ..., n in this order. *)
Theorem fresh_report_ids (w : World) (info_fname : string)
    (subjects_dir subject title : option string) (n : nat) :
  fst (consecutive_ids n
         (snd (__init__ w info_fname subjects_dir subject title)))
  = Ok (map Z.of_nat (seq 1 n)).
Proof.
  rewrite consecutive_ids_from, init_initial_id. reflexivity.
Qed.

(** ** Failures inside a section builder *)




Ltac silent_steps :=
  repeat first
    [ apply silent_get_id | apply silent_call | apply silent_get
    | apply silent_logger_info | apply silent_warnings_warn
    | apply silent_ret | apply silent_raise
    | apply silent_bind; [|intros ?]
    | assumption ].



Section Builders.

Variable w : World.

Lemma silent_render_evokeds (fname : string) (evokeds : list Evoked) :
  silent (render_evokeds fname evokeds).
Proof.
  induction evokeds as [|ev rest IH]; cbn [render_evokeds]; silent_steps.
Qed.

Lemma silent_render_bem_slices (mri : string) (surfs : list string)
    (name gid : string) (size : nat * nat) (sls : list Z) (first : bool) :
  silent (render_bem_slices w mri surfs name gid size sls first).
Proof.
  revert first. induction sls as [|sl rest IH]; intros first;
    cbn [render_bem_slices]; cbv zeta; silent_steps. apply IH.
Qed.

Lemma silent_render_one_bem_axe (mri : string) (surfs : list string)
    (gid : Z) (shape : nat * nat * nat) (orientation : string) :
  silent (_render_one_bem_axe w mri surfs gid shape orientation).
Proof.
  unfold _render_one_bem_axe.
  destruct (dict_get orientation_name2axis orientation);
    [|apply silent_raise].
  destruct shape as [[x y] z]. cbv zeta.
  apply silent_bind; [apply silent_render_bem_slices|intros r].
  silent_steps.
Qed.










(** When the three surfaces are found nothing has been rendered yet. *)
Lemma find_surfaces_found (bem_path mri : string)
    (names found surfs : list string) (s s' : State) :
  find_surfaces w bem_path mri names found s = (Ok (inr surfs), s') ->
  s' = s.
Proof.
  revert found. induction names as [|n names IH]; intros found;
    cbn [find_surfaces].
  - intros H. now inversion H.
  - destruct (glob w (Str.join bem_path (n ++ ".surf"))); [|apply IH].
    unfold bind, warnings_warn, modify.
    destruct (_render_image w mri "gray" _) as [[h|e] s1];
      cbn; intros H; inversion H.
Qed.


End Builders.

(** ** The scan loop *)

Section Appends.

Context {A B : Type}.

Lemma appends_preserves (P : string -> Prop) (m : M A) :
  preserves fnames m -> appends P m.
Proof.
  intros H s. exists []. rewrite (H s), app_nil_r. now split.
Qed.

Lemma appends_bind (P : string -> Prop) (m : M A) (k : A -> M B) :
  appends P m -> (forall a, appends P (k a)) -> appends P (bind m k).
Proof.
  intros Hm Hk s. unfold bind. destruct (Hm s) as [l [El Pl]].
  destruct (m s) as [[a|e] s1]; cbn in El |- *.
  - destruct (Hk a s1) as [l' [El' Pl']]. exists (l ++ l')%list.
    rewrite El', El, app_assoc. split; [reflexivity|].
    apply Forall_app. now split.
  - now exists l.
Qed.

Lemma appends_try (P : string -> Prop) (m : M A) (h : exn -> M A) :
  appends P m -> (forall e, appends P (h e)) -> appends P (try_except m h).
Proof.
  intros Hm Hh s. unfold try_except. destruct (Hm s) as [l [El Pl]].
  destruct (m s) as [[a|e] s1]; cbn in El |- *.
  - now exists l.
  - destruct (Hh e s1) as [l' [El' Pl']]. exists (l ++ l')%list.
    rewrite El', El, app_assoc. split; [reflexivity|].
    apply Forall_app. now split.
Qed.

End Appends.

Lemma appends_weaken {A : Type} (P Q : string -> Prop) (m : M A) :
  (forall f, P f -> Q f) -> appends P m -> appends Q m.
Proof.
  intros HPQ Hm s. destruct (Hm s) as [l [El Pl]]. exists l.
  split; [exact El|]. revert Pl. apply Forall_impl. exact HPQ.
Qed.

Lemma appends_fnames_append (P : string -> Prop) (f : string) :
  P f -> appends P (fnames_append f).
Proof.
  intros Hf s. exists [f]. split; [reflexivity|]. now constructor.
Qed.

(** A call that raises ends the method at once. *)
Lemma bind_call_raise {A B : Type} (e : exn) (k : A -> M B) :
  bind (call (Raise e)) k = raise e.
Proof. reflexivity. Qed.

Ltac preserves_steps :=
  repeat first
    [ apply preserves_ret | apply preserves_raise | apply preserves_call
    | apply preserves_get
    | apply preserves_modify; first [reflexivity|intros ?; solve [auto]]
    | apply preserves_bind; [|intros ?]
    | assumption ].

Lemma untouched_fnames : untouched fnames.
Proof. repeat split. Qed.

Lemma untouched_config : untouched config.
Proof. repeat split. Qed.

Section Scan.

Variable w : World.

Section Untouched.

Context {C : Type} (f : State -> C) (Hf : untouched f).

Lemma untouched_render_evokeds (fname : string) (evokeds : list Evoked) :
  preserves f (render_evokeds fname evokeds).
Proof.
  destruct Hf as [H1 [H2 [H3 H4]]].
  induction evokeds as [|ev rest IH]; cbn [render_evokeds]; cbv zeta;
    preserves_steps.
Qed.

Lemma untouched_render_bem_slices (mri : string) (surfs : list string)
    (name gid : string) (size : nat * nat) (sls : list Z) (first : bool) :
  preserves f (render_bem_slices w mri surfs name gid size sls first).
Proof.
  destruct Hf as [H1 [H2 [H3 H4]]].
  revert first. induction sls as [|sl rest IH]; intros first;
    cbn [render_bem_slices]; cbv zeta; preserves_steps. apply IH.
Qed.

Lemma untouched_render_one_bem_axe (mri : string) (surfs : list string)
    (gid : Z) (shape : nat * nat * nat) (orientation : string) :
  preserves f (_render_one_bem_axe w mri surfs gid shape orientation).
Proof.
  unfold _render_one_bem_axe.
  destruct (dict_get orientation_name2axis orientation);
    [|apply preserves_raise].
  destruct shape as [[x y] z]. cbv zeta.
  apply preserves_bind; [apply untouched_render_bem_slices|intros r].
  preserves_steps.
Qed.

Lemma untouched_render_image (image cmap : string) :
  preserves f (_render_image w image cmap).
Proof.
  destruct Hf as [H1 [H2 [H3 H4]]].
  unfold _render_image. cbv zeta. preserves_steps.
Qed.

Lemma untouched_find_surfaces (bem_path mri : string)
    (names found : list string) :
  preserves f (find_surfaces w bem_path mri names found).
Proof.
  pose proof Hf as [H1 [H2 [H3 H4]]].
  revert found. induction names as [|n names IH]; intros found;
    cbn [find_surfaces]; [preserves_steps|].
  destruct (glob w _); [|apply IH].
  apply preserves_bind; [preserves_steps|intros _].
  apply preserves_bind; [apply untouched_render_image|intros h].
  preserves_steps.
Qed.

Lemma untouched_render_bem (subject subjects_dir : option string) :
  preserves f (_render_bem w subject subjects_dir).
Proof.
  pose proof Hf as [H1 [H2 [H3 H4]]].
  unfold _render_bem.
  apply preserves_bind; [preserves_steps|intros sdir].
  destruct subject as [subj|]; [|preserves_steps]. cbv zeta.
  apply preserves_bind; [destruct (isfile w _); preserves_steps|intros _].
  destruct (negb (isdir w _)).
  - apply preserves_bind; [preserves_steps|intros _].
    apply untouched_render_image.
  - apply preserves_bind; [apply untouched_find_surfaces|].
    intros [h|surfs]; [preserves_steps|].
    apply preserves_bind; [preserves_steps|intros data]. cbv zeta.
    apply preserves_bind; [preserves_steps|intros gid].
    do 3 (apply preserves_bind;
          [apply untouched_render_one_bem_axe|intros ?]).
    preserves_steps.
Qed.

Lemma untouched_render_raw (fname : string) :
  preserves f (_render_raw w fname).
Proof.
  destruct Hf as [H1 [H2 [H3 H4]]].
  unfold _render_raw. cbv zeta. preserves_steps.
Qed.

Lemma untouched_render_evoked (fname : string) :
  preserves f (_render_evoked w fname).
Proof.
  pose proof Hf as [H1 [H2 [H3 H4]]].
  unfold _render_evoked.
  apply preserves_bind; [preserves_steps|intros evokeds].
  apply preserves_bind; [apply untouched_render_evokeds|intros lis].
  preserves_steps.
Qed.

Lemma untouched_render_eve (fname : string) (info : Info)
    (interactive : bool) :
  preserves f (_render_eve w fname info interactive).
Proof.
  destruct Hf as [H1 [H2 [H3 H4]]].
  unfold _render_eve. cbv zeta.
  apply preserves_bind; [destruct interactive|intros ?]; preserves_steps.
Qed.

Lemma untouched_render_epochs (fname : string) :
  preserves f (_render_epochs w fname).
Proof.
  destruct Hf as [H1 [H2 [H3 H4]]].
  unfold _render_epochs. cbv zeta. preserves_steps.
Qed.

Lemma untouched_render_cov (fname : string) :
  preserves f (_render_cov w fname).
Proof.
  destruct Hf as [H1 [H2 [H3 H4]]].
  unfold _render_cov. cbv zeta. preserves_steps.
Qed.

Lemma untouched_render_trans (fname path : string) (info : Info)
    (subject subjects_dir : option string) :
  preserves f (_render_trans w fname path info subject subjects_dir).
Proof.
  destruct Hf as [H1 [H2 [H3 H4]]].
  unfold _render_trans.
  apply preserves_bind; [preserves_steps|intros _].
  apply preserves_bind; [preserves_steps|intros fig].
  destruct fig; cbv zeta; preserves_steps.
Qed.

End Untouched.

(** The scan changes neither the configuration of the report nor what
    the process has written. *)
Lemma config_render_file (fname data_path : string) (info : Info)
    (interactive : bool) (folders : list string) :
  preserves config (render_file w fname data_path info interactive folders).
Proof.
  pose proof untouched_config as Hc.
  unfold render_file.
  repeat match goal with
         | |- preserves _ (if ?b then _ else _) => destruct b
         end;
    try (apply preserves_bind; [solve [preserves_steps]|intros ?]);
    try (apply preserves_bind; [solve [preserves_steps]|intros ?]);
    try solve [cbv zeta; preserves_steps];
    (apply preserves_bind; [|intros ?; preserves_steps]);
    first [ now apply untouched_render_bem
          | now apply untouched_render_raw
          | now apply untouched_render_evoked
          | now apply untouched_render_eve
          | now apply untouched_render_epochs
          | now apply untouched_render_cov
          | now apply untouched_render_trans ].
Qed.

Lemma config_render_files (fnames : list string) (data_path : string)
    (info : Info) (interactive : bool) (folders : list string) :
  preserves config
    (render_files w fnames data_path info interactive folders).
Proof.
  revert folders. induction fnames as [|fn rest IH]; intros folders;
    cbn [render_files]; [preserves_steps|].
  apply preserves_bind; [preserves_steps|intros _].
  apply preserves_bind; [|intros folders'; apply IH].
  apply preserves_try; [apply config_render_file|intros e; preserves_steps].
Qed.

(** The class of every linked row is bound when the row is written. *)
Lemma toc_class_name_bound (class_name : option string) (fname : string) :
  Str.endswith_any fname toc_file_suffixes = true ->
  exists c, toc_class_name class_name fname = Some c.
Proof.
  unfold toc_class_name, toc_file_suffixes, Str.endswith_any.
  cbn [existsb]. intros H.
  repeat match goal with
         | |- context [if ?b then _ else _] =>
             let E := fresh "E" in destruct b eqn:E; [eexists; reflexivity|]
         end.
  repeat match goal with
         | E : _ || _ = false |- _ =>
             apply orb_false_elim in E; destruct E
         end.
  repeat match goal with
         | E : Str.endswith fname _ = false |- _ => rewrite E in H; clear E
         end.
  discriminate.
Qed.

(** A name with one of the suffixes of [parse_folder] other than
    [-ave.fif] is never re-read by the table of contents. *)
Lemma toc_rereadable_suffix (fname suf : string) :
  Str.endswith fname suf = true ->
  Str.endswith_any suf toc_file_suffixes = true \/
  Str.endswith suf "-ave.fif" || Str.endswith "-ave.fif" suf = false ->
  toc_rereadable w fname.
Proof.
  intros Hs Hsuf Hre. exfalso. unfold toc_rereads in Hre.
  apply andb_prop in Hre. destruct Hre as [Hn Ha].
  destruct Hsuf as [Hsuf|Hsuf].
  - apply negb_true_iff in Hn.
    unfold Str.endswith_any in Hsuf, Hn.
    apply existsb_exists in Hsuf. destruct Hsuf as [x [Hx Hsx]].
    assert (Hex : existsb (Str.endswith fname) toc_file_suffixes = true).
    { apply existsb_exists. exists x. split; [exact Hx|].
      now apply endswith_trans with (a := suf). }
    congruence.
  - unfold Str.endswith_any in Ha. cbn [existsb] in Ha.
    rewrite orb_false_r in Ha.
    now rewrite (endswith_apart fname suf "-ave.fif" Hsuf Hs) in Ha.
Qed.

Lemma appends_bind_ok {A B : Type} (P : string -> Prop) (m : M A)
    (k : A -> M B) :
  appends P m ->
  (forall a, (exists s s', m s = (Ok a, s')) -> appends P (k a)) ->
  appends P (bind m k).
Proof.
  intros Hm Hk s. unfold bind. destruct (Hm s) as [l [El Pl]].
  destruct (m s) as [[a|e] s1] eqn:E; cbn in El |- *.
  - destruct (Hk a (ex_intro _ s (ex_intro _ s1 E)) s1) as [l' [El' Pl']].
    exists (l ++ l')%list. rewrite El', El, app_assoc.
    split; [reflexivity|]. apply Forall_app. now split.
  - now exists l.
Qed.

Lemma render_evoked_read (fname : string) (s s' : State) (a : unit) :
  _render_evoked w fname s = (Ok a, s') ->
  exists evokeds, read_evokeds w fname = Ok evokeds.
Proof.
  unfold _render_evoked, bind at 1, call.
  destruct (read_evokeds w fname) as [l|e]; [eauto|discriminate].
Qed.

Ltac appends_silent :=
  apply appends_preserves; solve [preserves_steps].

Ltac ready_by_suffix suf :=
  split;
  [apply toc_rereadable_suffix with suf;
   [assumption | first [left; reflexivity | right; reflexivity]]
  |right; left; reflexivity].

Lemma appends_render_file (fname data_path : string) (info : Info)
    (interactive : bool) (folders : list string) :
  appends (scanned_name w [fname])
    (render_file w fname data_path info interactive folders).
Proof.
  unfold render_file.
  repeat match goal with
         | |- appends _ (if Str.endswith_any fname ?l then _ else _) =>
             let E := fresh "E" in
             destruct (Str.endswith_any fname l) eqn:E;
             [cbn [Str.endswith_any existsb] in E;
              rewrite ?orb_false_r in E|clear E]
         end.
  - (* .mgz *)
    apply appends_bind; [appends_silent|intros subj].
    apply appends_bind; [appends_silent|intros sdir].
    apply appends_bind;
      [now apply appends_preserves, untouched_render_bem,
         untouched_fnames|intros h].
    apply appends_bind; [|intros _; appends_silent].
    apply appends_fnames_append.
    split; [intros H; discriminate H|left; reflexivity].
  - (* raw.fif, sss.fif *)
    apply appends_bind;
      [now apply appends_preserves, untouched_render_raw,
         untouched_fnames|intros _].
    apply appends_bind; [|intros _; appends_silent].
    apply appends_fnames_append.
    apply orb_prop in E. destruct E as [E|E];
      [ready_by_suffix "raw.fif"|ready_by_suffix "sss.fif"].
  - (* -fwd.fif, -fwd.fif.gz *)
    apply appends_bind; [|intros _; appends_silent].
    unfold _render_forward. cbv zeta.
    apply appends_bind; [appends_silent|intros fwd].
    apply appends_bind; [appends_silent|intros gid].
    apply appends_bind; [appends_silent|intros _].
    apply appends_fnames_append.
    apply orb_prop in E. destruct E as [E|E];
      [ready_by_suffix "-fwd.fif"|ready_by_suffix "-fwd.fif.gz"].
  - (* -ave.fif *)
    apply appends_bind_ok;
      [now apply appends_preserves, untouched_render_evoked,
         untouched_fnames|].
    intros a [s [s' Hrun]].
    apply appends_bind; [|intros _; appends_silent].
    apply appends_fnames_append.
    split; [intros _|right; left; reflexivity].
    exact (render_evoked_read fname s s' a Hrun).
  - (* -eve.fif *)
    apply appends_bind;
      [now apply appends_preserves, untouched_render_eve,
         untouched_fnames|intros _].
    apply appends_bind; [|intros _; appends_silent].
    apply appends_fnames_append. ready_by_suffix "-eve.fif".
  - (* -epo.fif *)
    apply appends_bind;
      [now apply appends_preserves, untouched_render_epochs,
         untouched_fnames|intros _].
    apply appends_bind; [|intros _; appends_silent].
    apply appends_fnames_append. ready_by_suffix "-epo.fif".
  - (* -cov.fif *)
    apply appends_bind;
      [now apply appends_preserves, untouched_render_cov,
         untouched_fnames|intros _].
    apply appends_bind; [|intros _; appends_silent].
    apply appends_fnames_append. ready_by_suffix "-cov.fif".
  - (* -trans.fif *)
    apply appends_bind; [appends_silent|intros subj].
    apply appends_bind; [appends_silent|intros sdir].
    apply appends_bind;
      [now apply appends_preserves, untouched_render_trans,
         untouched_fnames|intros _].
    apply appends_bind; [|intros _; appends_silent].
    apply appends_fnames_append. ready_by_suffix "-trans.fif".
  - (* a directory, or nothing *)
    destruct (isdir w fname); cbv zeta; appends_silent.
Qed.

Lemma appends_render_files (fnames : list string) (data_path : string)
    (info : Info) (interactive : bool) (folders : list string) :
  appends (scanned_name w fnames)
    (render_files w fnames data_path info interactive folders).
Proof.
  revert folders. induction fnames as [|f rest IH]; intros folders;
    cbn [render_files]; [appends_silent|].
  apply appends_bind; [appends_silent|intros _].
  apply appends_bind.
  - apply appends_try; [|intros e; appends_silent].
    apply appends_weaken with (scanned_name w [f]);
      [|apply appends_render_file].
    intros g [Hre [Hg|[Hg|[]]]]; (split; [exact Hre|]);
      [now left|right; now left].
  - intros folders'.
    apply appends_weaken with (scanned_name w rest); [|apply IH].
    intros g [Hre [Hg|Hg]]; (split; [exact Hre|]);
      [now left|right; now right].
Qed.

(** No exception leaves the scan loop. *)
Lemma render_files_returns (fnames : list string) (data_path : string)
    (info : Info) (interactive : bool) (folders : list string) (s : State) :
  fst (render_files w fnames data_path info interactive folders s) = Ok tt.
Proof.
  revert folders s. induction fnames as [|f rest IH]; intros folders s;
    [reflexivity|].
  cbn [render_files]. unfold bind, logger_info, modify, try_except.
  destruct (render_file w f data_path info interactive folders _)
    as [[folders'|e] s1]; cbn [ret]; apply IH.
Qed.



(** The table of contents only logs, and it is built whenever every
    listed averaged-response file can be read again. *)
Lemma toc_entries_logs_only {C : Type} (f : State -> C)
    (fnames : list string) (global_id : Z) (class_name : option string) :
  (forall v s, f (set_logged v s) = f s) ->
  preserves f (toc_entries w fnames global_id class_name).
Proof.
  intros Hf. revert global_id class_name.
  induction fnames as [|fname rest IH]; intros global_id class_name;
    cbn [toc_entries]; [preserves_steps|].
  apply preserves_bind; [apply preserves_modify; intros s; apply Hf|].
  intros _. cbv zeta.
  repeat match goal with
         | |- preserves _ (if ?b then _ else _) => destruct b
         | |- preserves _ (match ?x with _ => _ end) => destruct x
         end;
    preserves_steps; apply IH.
Qed.

Lemma is_ascii_basename_from (acc s : string) :
  is_ascii acc = true -> is_ascii s = true ->
  is_ascii (Str.basename_from acc s) = true.
Proof.
  revert acc. induction s as [|c s' IH]; intros acc Hacc Hs;
    [exact Hacc|].
  cbn [is_ascii] in Hs. apply andb_prop in Hs. destruct Hs as [_ Hs'].
  cbn [Str.basename_from]. destruct (Ascii.eqb c "/"); now apply IH.
Qed.

Lemma unicode_format_ok (args : list string) :
  forallb is_ascii args = true -> unicode_format args = Ok tt.
Proof. intros H. unfold unicode_format. now rewrite H. Qed.

Lemma unicode_format_name (fname : string) :
  is_ascii fname = true ->
  unicode_format [fname; Str.basename fname] = Ok tt.
Proof.
  intros H. apply unicode_format_ok. cbn [forallb]. rewrite H.
  unfold Str.basename. now rewrite (is_ascii_basename_from fname fname H H).
Qed.

(** A row whose name or condition comment is not ASCII cannot be
    formatted: the table of contents raises there. *)
Lemma unicode_format_raises (args : list string) :
  forallb is_ascii args = false ->
  unicode_format args = Raise UnicodeDecodeError.
Proof. intros H. unfold unicode_format. now rewrite H. Qed.

Lemma toc_entries_returns (fnames : list string) (global_id : Z)
    (class_name : option string) (s : State) :
  Forall (toc_ready w) fnames ->
  exists entries,
    fst (toc_entries w fnames global_id class_name s) = Ok entries.
Proof.
  intros Hready. revert global_id class_name s.
  induction Hready as [|fname rest [Hre Hpr] Hrest IH];
    intros global_id class_name s; [now exists []|].
  cbn [toc_entries]. unfold bind at 1, logger_info, modify. cbv zeta.
  unfold toc_printable in Hpr.
  destruct (Str.endswith_any fname toc_file_suffixes) eqn:E1.
  - destruct (toc_class_name_bound class_name fname E1) as [c ->].
    unfold bind, call. rewrite (unicode_format_name fname Hpr).
    match goal with
    | |- context [toc_entries w rest ?g ?c ?s0] =>
        destruct (IH g c s0) as [entries He];
        destruct (toc_entries w rest g c s0) as [[es|e] s1];
        cbn in He; [|discriminate]
    end.
    eexists. reflexivity.
  - destruct (Str.endswith_any fname ["-ave.fif"]) eqn:E2.
    + destruct Hre as [evokeds Hev].
      { unfold toc_rereads. now rewrite E1, E2. }
      destruct Hpr as [Hname Hcomments].
      unfold bind, call.
      rewrite Hev, (unicode_format_name fname Hname),
        (unicode_format_ok _ (Hcomments evokeds Hev)).
      match goal with
      | |- context [toc_entries w rest ?g ?c ?s0] =>
          destruct (IH g c s0) as [entries He];
          destruct (toc_entries w rest g c s0) as [[es|e] s1];
          cbn in He; [|discriminate]
      end.
      eexists. reflexivity.
    + destruct (String.eqb fname "bem"); unfold bind;
        match goal with
        | |- context [toc_entries w rest ?g ?c ?s0] =>
            destruct (IH g c s0) as [entries He];
            destruct (toc_entries w rest g c s0) as [[es|e] s1];
            cbn in He; [|discriminate]
        end;
        eexists; reflexivity.
Qed.

(** [save] writes the document: header, table of contents, body, footer. *)
Lemma save_returns (fname dp : string) (open_browser : bool) (s : State) :
  Forall (toc_ready w) (fnames s) ->
  data_path s = Some dp ->
  open_write w (Str.join dp fname) = Ok tt ->
  exists entries s',
    save w fname open_browser s = (Ok fname, s') /\
    html s'
    = (list_insert 1 (Toc entries) (html s) ++ [Footer (strftime w)])%list /\
    written s' = (written s ++ [(Str.join dp fname, html s')])%list.
Proof.
  intros Hready Hdp Hopen.
  set (s0 := set_logged
               (logged s ++ [LogInfo "Rendering : Table of Contents"]) s).
  destruct (toc_entries_returns (fnames s) 1 None s0 Hready)
    as [entries He].
  pose proof (toc_entries_logs_only html (fnames s) 1 None
                (fun _ _ => eq_refl) s0) as Hhtml.
  pose proof (toc_entries_logs_only data_path (fnames s) 1 None
                (fun _ _ => eq_refl) s0) as Hpath.
  pose proof (toc_entries_logs_only written (fnames s) 1 None
                (fun _ _ => eq_refl) s0) as Hwritten.
  unfold save, _render_toc.
  unfold bind at 1. unfold bind at 1.
  unfold logger_info at 1, modify at 1. fold s0.
  unfold bind at 1, get at 1. unfold bind at 1.
  change (fnames s0) with (fnames s).
  destruct (toc_entries w (fnames s) 1 None s0) as [[es|e] s1];
    cbn in He, Hhtml, Hpath, Hwritten; [|discriminate].
  inversion He; subst es.
  exists entries.
  unfold modify, bind, html_append, modify, get, call.
  cbn -[list_insert Str.join append]. rewrite Hpath, Hdp.
  cbn -[list_insert Str.join append]. rewrite Hopen.
  destruct open_browser; eexists; (split; [reflexivity|]);
    cbn -[list_insert Str.join append];
    rewrite Hhtml, Hwritten; split; reflexivity.
Qed.

Lemma toc_printable_bem : toc_printable w "bem".
Proof. exact I. Qed.

Lemma scanned_ready (names : list string) (f : string) :
  Forall (toc_printable w) names -> scanned_name w names f ->
  toc_ready w f.
Proof.
  intros Hnames [Hre [->|Hin]]; (split; [exact Hre|]).
  - exact toc_printable_bem.
  - rewrite Forall_forall in Hnames. now apply Hnames.
Qed.


End Scan.


(** ** An empty slice range *)









(** ** The fallback of the BEM section *)

Lemma set_warned_twice (a b : list Warning) (s : State) :
  set_warned a (set_warned b s) = set_warned a s.
Proof. reflexivity. Qed.

Lemma render_slices_returns (w : World) (slices_iter : list (Z * Np.ndarray2))
    (name global_id cmap : string) (first : bool) :
  (forall m c, exists png, figure_png w m c = Ok png) ->
  Forall (fun ip => Np.ncols (snd ip) <> 1) slices_iter ->
  exists slices,
    render_slices w slices_iter name global_id cmap first
    = Ok (slices, map fst slices_iter).
Proof.
  intros Hpng Hcols. revert first.
  induction Hcols as [|[ind data] rest Hd Hrest IH]; intros first.
  - now exists [].
  - cbn [render_slices]. cbv zeta. unfold _build_image.
    cbn [snd] in Hd. apply Nat.eqb_neq in Hd. rewrite Hd.
    destruct (Hpng data cmap) as [png ->].
    destruct (IH false) as [slices ->]. eexists. reflexivity.
Qed.

Lemma render_one_axe_returns (w : World)
    (slices_iter : list (Z * Np.ndarray2)) (name : string)
    (global_id : option Z) (cmap : string) :
  (forall m c, exists png, figure_png w m c = Ok png) ->
  Forall (fun ip => Np.ncols (snd ip) <> 1) slices_iter ->
  slices_iter <> [] ->
  exists axe, _render_one_axe w slices_iter name global_id cmap = Ok axe.
Proof.
  intros Hpng Hcols Hne. unfold _render_one_axe.
  match goal with
  | |- context [render_slices w slices_iter name ?g cmap true] =>
      destruct (render_slices_returns w slices_iter name g cmap true
                  Hpng Hcols) as [slices ->]
  end.
  destruct slices_iter as [|[ind data] rest]; [now destruct Hne|].
  cbn [map fst _build_html_slider]. eexists. reflexivity.
Qed.

(** Every axis with at least one plane keeps its plane 0 under the
    stride-2 limits of [_render_image]. *)
Lemma spec_indices_step2 (extent : nat) :
  1 <= extent -> spec_indices (Some (range_step2 extent)) extent <> [].
Proof.
  destruct extent as [|d]; [lia|]. intros _.
  unfold range_step2. cbn [Nat.div2].
  change (seq 0 (S (Nat.div2 d))) with (0 :: seq 1 (Nat.div2 d)).
  cbn [map]. change (2 * Z.of_nat 0)%Z with 0%Z.
  cbn [spec_indices]. unfold xrange.
  change (seq 0 (S d)) with (0 :: seq 1 d). cbn [map filter].
  change (Z.of_nat 0) with 0%Z.
  unfold contains at 1. cbn [existsb]. rewrite Z.eqb_refl. cbn [orb].
  discriminate.
Qed.

Lemma map_pair_nonempty {A B : Type} (f : A -> B) (l : list A) :
  l <> [] -> map f l <> [].
Proof. destruct l; [intros H; now destruct H|discriminate]. Qed.

(** The plain rendering of a volume that has at least one plane along
    every axis and planes more than one column wide. *)
Lemma render_array_returns (w : World) (data : Np.ndarray3)
    (global_id : option Z) (cmap : string) :
  (forall m c, exists png, figure_png w m c = Ok png) ->
  2 <= Np.dim0 data -> 1 <= Np.dim1 data -> 2 <= Np.dim2 data ->
  exists axial sagittal coronal,
    _render_array w data global_id cmap
      (Some [("sagittal", range_step2 (Np.dim0 data));
             ("axial", range_step2 (Np.dim1 data));
             ("coronal", range_step2 (Np.dim2 data))])
    = Ok [axial; sagittal; coronal].
Proof.
  intros Hpng H0 H1 H2. unfold _render_array.
  change (dict_get _ "axial") with (Some (range_step2 (Np.dim1 data))).
  change (dict_get _ "sagittal") with (Some (range_step2 (Np.dim0 data))).
  change (dict_get _ "coronal") with (Some (range_step2 (Np.dim2 data))).
  cbv zeta.
  destruct (iterators_by_indices data (Some (range_step2 (Np.dim1 data))))
    as [_ [-> _]].
  destruct (iterators_by_indices data (Some (range_step2 (Np.dim0 data))))
    as [-> _].
  destruct (iterators_by_indices data (Some (range_step2 (Np.dim2 data))))
    as [_ [_ ->]].
  destruct (render_one_axe_returns w
              (map (fun ind => (ind, Np.index1 data ind))
                 (spec_indices (Some (range_step2 (Np.dim1 data)))
                    (Np.dim1 data)))
              "axial" global_id cmap Hpng) as [axial ->].
  { apply Forall_forall. intros ip Hin. apply in_map_iff in Hin.
    destruct Hin as [ind [<- _]]. cbn. lia. }
  { apply map_pair_nonempty, spec_indices_step2. lia. }
  destruct (render_one_axe_returns w
              (map (fun ind => (ind, Np.index0 data ind))
                 (spec_indices (Some (range_step2 (Np.dim0 data)))
                    (Np.dim0 data)))
              "sagittal" global_id cmap Hpng) as [sagittal ->].
  { apply Forall_forall. intros ip Hin. apply in_map_iff in Hin.
    destruct Hin as [ind [<- _]]. cbn. lia. }
  { apply map_pair_nonempty, spec_indices_step2. lia. }
  destruct (render_one_axe_returns w
              (map (fun ind => (ind, coronal_transform (Np.index2 data ind)))
                 (spec_indices (Some (range_step2 (Np.dim2 data)))
                    (Np.dim2 data)))
              "coronal" global_id cmap Hpng) as [coronal ->].
  { apply Forall_forall. intros ip Hin. apply in_map_iff in Hin.
    destruct Hin as [ind [<- _]]. cbn. lia. }
  { apply map_pair_nonempty, spec_indices_step2. lia. }
  now exists axial, sagittal, coronal.
Qed.

Lemma render_image_returns (w : World) (image cmap : string)
    (data : Np.ndarray3) (s : State) :
  nib_load w image = Ok data ->
  (forall m c, exists png, figure_png w m c = Ok png) ->
  2 <= Np.dim0 data -> 1 <= Np.dim1 data -> 2 <= Np.dim2 data ->
  exists axial sagittal coronal,
    _render_image w image cmap s
    = (Ok (SlicesLi (initial_id s + 1) (Str.basename image)
             [axial; sagittal; coronal]),
       set_html
         (html s ++ [SlicesLi (initial_id s + 1) (Str.basename image)
                       [axial; sagittal; coronal]])%list
         (set_initial_id (initial_id s + 1) s)).
Proof.
  intros Hload Hpng H0 H1 H2. unfold _render_image.
  unfold bind at 1. rewrite get_id_run.
  unfold bind at 1, call at 1. rewrite Hload. cbv zeta.
  destruct (render_array_returns w data (Some (initial_id s + 1)%Z) cmap
              Hpng H0 H1 H2) as [axial [sagittal [coronal E]]].
  unfold bind at 1, call at 1. rewrite E.
  now exists axial, sagittal, coronal.
Qed.

(** Up to the first missing surface nothing is rendered; there, one
    warning is issued and the volume is rendered plainly. *)
Lemma find_surfaces_missing (w : World) (bem_path mri : string)
    (names : list string) :
  (exists n, In n names /\ glob w (Str.join bem_path (n ++ ".surf")) = []) ->
  exists n0, In n0 names /\
    forall found,
      find_surfaces w bem_path mri names found
      = (warnings_warn (NoSurfaceFound n0) ;;
         html <- _render_image w mri "gray" ;;
         ret (inl html)).
Proof.
  induction names as [|n names IH]; intros [m [Hin Hm]]; [destruct Hin|].
  destruct (glob w (Str.join bem_path (n ++ ".surf"))) as [|f fs] eqn:E.
  - exists n. split; [now left|]. intros found.
    cbn [find_surfaces]. now rewrite E.
  - destruct Hin as [->|Hin]; [congruence|].
    destruct IH as [n0 [Hn0 Hrun]]; [now exists m|].
    exists n0. split; [now right|]. intros found.
    cbn [find_surfaces]. rewrite E. apply Hrun.
Qed.

(** With the [bem] directory or one of the three surfaces missing,
    [_render_bem] is the plain rendering of the volume, run after the
    warnings. *)
Lemma render_bem_fallback (w : World) (subj sdir : string)
    (subjects_dir : option string) (s : State) :
  get_subjects_dir w subjects_dir = Ok sdir ->
  isdir w (Str.join (Str.join sdir subj) "bem") = false \/
  (exists n, In n ["*inner_skull"; "*outer_skull"; "*outer_skin"] /\
             glob w (Str.join (Str.join (Str.join sdir subj) "bem")
                       (n ++ ".surf")) = []) ->
  exists warnings, warnings <> [] /\
    _render_bem w (Some subj) subjects_dir s
    = _render_image w
        (Str.join (Str.join (Str.join sdir subj) "mri") "T1.mgz") "gray"
        (set_warned (warned s ++ warnings)%list s).
Proof.
  intros Hdir Hmiss. unfold _render_bem.
  unfold bind at 1, call at 1. rewrite Hdir. cbv zeta.
  set (mri := Str.join (Str.join (Str.join sdir subj) "mri") "T1.mgz").
  set (bem := Str.join (Str.join sdir subj) "bem") in *.
  assert (Hfirst : exists w0,
            (if isfile w mri then ret tt
             else warnings_warn (MriFileMissing mri)) s
            = (Ok tt, set_warned (warned s ++ w0)%list s) /\
            forall w1, set_warned (warned (set_warned (warned s ++ w0)%list s)
                                   ++ w1)%list
                         (set_warned (warned s ++ w0)%list s)
                       = set_warned (warned s ++ (w0 ++ w1))%list s).
  { destruct (isfile w mri).
    - exists []. split.
      + unfold ret. rewrite app_nil_r. now destruct s.
      + intros w1. cbn. now rewrite app_nil_r.
    - exists [MriFileMissing mri]. split; [reflexivity|].
      intros w1. cbn. now rewrite <- app_assoc. }
  destruct Hfirst as [w0 [E Hmerge]].
  unfold bind at 1. rewrite E. clear E.
  destruct (isdir w bem) eqn:Ed; cbn [negb].
  - destruct Hmiss as [Hmiss|Hmiss]; [discriminate|].
    destruct (find_surfaces_missing w bem mri _ Hmiss) as [n0 [_ Hrun]].
    rewrite (Hrun []).
    exists (w0 ++ [NoSurfaceFound n0])%list.
    split; [now destruct w0|].
    unfold bind, warnings_warn, modify. rewrite Hmerge.
    now destruct (_render_image w mri "gray" _) as [[h|e] s1].
  - exists (w0 ++ [BemDirectoryMissing bem])%list.
    split; [now destruct w0|].
    unfold bind, warnings_warn, modify. now rewrite Hmerge.
Qed.

(** C7, as amended: during BEM rendering, if the [bem] directory or any
    of the three segmentation surfaces (inner skull, outer skull, outer
    skin) is absent, the builder warns and falls back to the plain-volume
    Image rendering of the anatomical volume; when that volume loads, has
    a plane along every axis and planes more than one column wide, and the
    plotting backend answers, the section built is the Image section with
    its three slider groups and no exception propagates.  (An absent
    volume only adds a warning: loading it then raises.) *)
Theorem bem_falls_back_to_plain_volume (w : World) (subj sdir : string)
    (subjects_dir : option string) (data : Np.ndarray3) (s : State) :
  get_subjects_dir w subjects_dir = Ok sdir ->
  isdir w (Str.join (Str.join sdir subj) "bem") = false \/
  (exists n, In n ["*inner_skull"; "*outer_skull"; "*outer_skin"] /\
             glob w (Str.join (Str.join (Str.join sdir subj) "bem")
                       (n ++ ".surf")) = []) ->
  nib_load w (Str.join (Str.join (Str.join sdir subj) "mri") "T1.mgz")
  = Ok data ->
  (forall m c, exists png, figure_png w m c = Ok png) ->
  2 <= Np.dim0 data -> 1 <= Np.dim1 data -> 2 <= Np.dim2 data ->
  exists warnings axial sagittal coronal s1,
    warnings <> [] /\
    _render_bem w (Some subj) subjects_dir s
    = _render_image w
        (Str.join (Str.join (Str.join sdir subj) "mri") "T1.mgz") "gray"
        (set_warned (warned s ++ warnings)%list s) /\
    _render_bem w (Some subj) subjects_dir s
    = (Ok (SlicesLi (initial_id s + 1)
             (Str.basename
                (Str.join (Str.join (Str.join sdir subj) "mri") "T1.mgz"))
             [axial; sagittal; coronal]), s1) /\
    html s1
    = (html s
       ++ [SlicesLi (initial_id s + 1)
             (Str.basename
                (Str.join (Str.join (Str.join sdir subj) "mri") "T1.mgz"))
             [axial; sagittal; coronal]])%list /\
    warned s1 = (warned s ++ warnings)%list.
Proof.
  intros Hdir Hmiss Hload Hpng H0 H1 H2.
  destruct (render_bem_fallback w subj sdir subjects_dir s Hdir Hmiss)
    as [warnings [Hne Hfall]].
  destruct (render_image_returns w _ "gray" data
              (set_warned (warned s ++ warnings)%list s)
              Hload Hpng H0 H1 H2) as [axial [sagittal [coronal Himg]]].
  exists warnings, axial, sagittal, coronal.
  eexists. split; [exact Hne|]. split; [exact Hfall|].
  rewrite Hfall, Himg. split; [reflexivity|]. split; reflexivity.
Qed.

Lemma bem_falls_back_to_plain_volume_witness :
  exists warnings axial sagittal coronal s1,
    warnings <> [] /\
    _render_bem Sample.no_bem_world (Some "sample") (Some "/subjects")
      (Sample.at_scan Sample.no_bem_world (Some "/subjects") (Some "sample"))
    = _render_image Sample.no_bem_world "/subjects/sample/mri/T1.mgz" "gray"
        (set_warned
           (warned (Sample.at_scan Sample.no_bem_world (Some "/subjects")
                      (Some "sample")) ++ warnings)%list
           (Sample.at_scan Sample.no_bem_world (Some "/subjects")
              (Some "sample"))) /\
    _render_bem Sample.no_bem_world (Some "sample") (Some "/subjects")
      (Sample.at_scan Sample.no_bem_world (Some "/subjects") (Some "sample"))
    = (Ok (SlicesLi 1 "T1.mgz" [axial; sagittal; coronal]), s1) /\
    html s1
    = (html (Sample.at_scan Sample.no_bem_world (Some "/subjects")
               (Some "sample"))
       ++ [SlicesLi 1 "T1.mgz" [axial; sagittal; coronal]])%list /\
    warned s1 = warnings.
Proof.
  exact (bem_falls_back_to_plain_volume Sample.no_bem_world "sample"
           "/subjects" (Some "/subjects") Sample.cube
           (Sample.at_scan Sample.no_bem_world (Some "/subjects")
              (Some "sample"))
           eq_refl (or_introl eq_refl) eq_refl
           (fun _ _ => ex_intro _ "slice.png" eq_refl)
           (le_n 2) (le_S 1 1 (le_n 1)) (le_n 2)).
Defined.

(** C7, as stated, fails when the anatomical volume itself is absent:
    the builder warns twice, then loading the volume raises and the
    exception leaves [_render_bem]; no Image section is appended. *)
Lemma bem_without_volume_raises :
  isfile Sample.no_mri_world "/subjects/sample/mri/T1.mgz" = false /\
  exists s1,
    _render_bem Sample.no_mri_world (Some "sample") (Some "/subjects")
      (Sample.at_scan Sample.no_mri_world (Some "/subjects") (Some "sample"))
    = (Raise (ExternalError "nib.load"), s1) /\
    html s1
    = html (Sample.at_scan Sample.no_mri_world (Some "/subjects")
              (Some "sample")) /\
    warned s1
    = [MriFileMissing "/subjects/sample/mri/T1.mgz";
       BemDirectoryMissing "/subjects/sample/bem"].
Proof.
  split; [reflexivity|].
  exists (snd (_render_bem Sample.no_mri_world (Some "sample")
                 (Some "/subjects")
                 (Sample.at_scan Sample.no_mri_world (Some "/subjects")
                    (Some "sample")))).
  vm_compute. repeat split.
Qed.



(** C6, for a name that is not ASCII: the raw file that cannot be read is
    skipped and the scan returns; the transform that follows, drawn in
    2-D, adds no fragment but is listed under its name; and [save] raises
    [UnicodeDecodeError] when the table of contents formats that name:
    the table of contents is not inserted and nothing is written. *)
Lemma unprintable_name_fails_save :
  scan_fnames Sample.accent_world "/data" None None
  = ["/data/bad_raw.fif"; "/data/" ++ Sample.e_acute ++ "-trans.fif"] /\
  exists s1 s2 s3,
    render_file Sample.accent_world "/data/bad_raw.fif" "/data" "info"
      true []
      (set_logged
         (logged (Sample.at_scan Sample.accent_world None None)
          ++ [rendering_msg "/data" "/data/bad_raw.fif"])%list
         (Sample.at_scan Sample.accent_world None None))
    = (Raise (ExternalError "Raw"), s1) /\
    Forall (toc_ready Sample.accent_world)
      (fnames (Sample.at_scan Sample.accent_world None None)) /\
    data_path (Sample.at_scan Sample.accent_world None None)
    = Some "/data" /\
    open_write Sample.accent_world (Str.join "/data" "report.html")
    = Ok tt /\
    render_files Sample.accent_world
      ["/data/bad_raw.fif"; "/data/" ++ Sample.e_acute ++ "-trans.fif"]
      "/data" "info" true []
      (Sample.at_scan Sample.accent_world None None)
    = (Ok tt, s2) /\
    fnames s2 = ["/data/" ++ Sample.e_acute ++ "-trans.fif"] /\
    save Sample.accent_world "report.html" false s2
    = (Raise UnicodeDecodeError, s3) /\
    html s3 = html s2 /\
    written s3 = [].
Proof.
  split; [vm_compute; reflexivity|].
  exists (snd (render_file Sample.accent_world "/data/bad_raw.fif" "/data"
                 "info" true []
                 (set_logged
                    (logged (Sample.at_scan Sample.accent_world None None)
                     ++ [rendering_msg "/data" "/data/bad_raw.fif"])%list
                    (Sample.at_scan Sample.accent_world None None)))).
  exists (snd (render_files Sample.accent_world
                 ["/data/bad_raw.fif";
                  "/data/" ++ Sample.e_acute ++ "-trans.fif"]
                 "/data" "info" true []
                 (Sample.at_scan Sample.accent_world None None))).
  exists (snd (save Sample.accent_world "report.html" false
                 (snd (render_files Sample.accent_world
                         ["/data/bad_raw.fif";
                          "/data/" ++ Sample.e_acute ++ "-trans.fif"]
                         "/data" "info" true []
                         (Sample.at_scan Sample.accent_world None None))))).
  split; [vm_compute; reflexivity|]. split; [apply Forall_nil|].
  split; [vm_compute; reflexivity|]. split; [vm_compute; reflexivity|].
  split; [vm_compute; reflexivity|]. split; [vm_compute; reflexivity|].
  split; [vm_compute; reflexivity|].
  split; vm_compute; reflexivity.
Qed.

(** ** Naming flags in the table of contents *)

Ltac apart_from p suf :=
  repeat match goal with
         | |- context [Str.endswith (p ++ suf) ?b] =>
             rewrite (endswith_apart (p ++ suf) suf b eq_refl
                        (endswith_app p suf))
         end.

(** A conventional raw name is not flagged. *)
Lemma raw_name_is_not_flagged (p : string) : toc_color (p ++ "raw.fif") = "".
Proof.
  unfold toc_color, Str.endswith_any. cbn [existsb].
  apart_from p "raw.fif". rewrite endswith_app. reflexivity.
Qed.

Lemma dat_name_is_flagged : toc_color "myfile.dat" = "red".
Proof. reflexivity. Qed.

(** C5 fails on the code for Maxwell-filtered raw files: a name ending in
    [sss.fif] is rendered by the raw builder of [parse_folder] and gets the
    class [raw] in the table of contents, yet it is coloured red, because
    the tuple of lines 522-525 lacks [sss.fif]; so is the row of
    [/data/sub_sss.fif] in the saved sample report. *)
Theorem sss_raw_file_is_flagged (p : string) :
  Str.endswith_any (p ++ "sss.fif") [".mgz"] = false /\
  Str.endswith_any (p ++ "sss.fif") ["raw.fif"; "sss.fif"] = true /\
  toc_class_name None (p ++ "sss.fif") = Some "raw" /\
  toc_color (p ++ "sss.fif") = "red" /\
  flat_map toc_of (html (snd (Sample.run Sample.sss_world None None)))
  = [TocFile "raw" 1 "/data/sub_sss.fif" "red" "sub_sss.fif"].
Proof.
  unfold toc_class_name, toc_color, Str.endswith_any. cbn [existsb].
  apart_from p "sss.fif". rewrite endswith_app. repeat split.
Qed.

(** ** Anchors of the table of contents *)

(** C1 fails on the code.  The two passes do visit the names in the same
    order, yet the anchors drift from the fragment ids: a transform file
    that [plot_trans] does not draw as a 3-D scene gets no fragment but
    keeps its row, so the row of the raw file after it links to [#2]
    while the raw fragment has id 1; and a raw file whose reader raises
    has used id 1, so the fragment of the next raw file has id 2 while its
    row links to [#1]. *)
Theorem toc_anchors_drift :
  (let doc := html (snd (Sample.run Sample.trans_world None None)) in
   fst (Sample.run Sample.trans_world None None) = Ok "report.html" /\
   flat_map fragment_ids doc = [1%Z] /\
   flat_map toc_hrefs (flat_map toc_of doc) = [1; 2]%Z /\
   In (ReprLi "raw" 1 "Raw : /data/b_raw.fif" "RawRaw<br/>Info") doc /\
   In (TocFile "raw" 2 "/data/b_raw.fif" "" "b_raw.fif")
      (flat_map toc_of doc)) /\
  (let doc := html (snd (Sample.run Sample.bad_raw_world None None)) in
   fst (Sample.run Sample.bad_raw_world None None) = Ok "report.html" /\
   flat_map fragment_ids doc = [2%Z] /\
   flat_map toc_hrefs (flat_map toc_of doc) = [1%Z] /\
   In (ReprLi "raw" 2 "Raw : /data/b_raw.fif" "RawRaw<br/>Info") doc /\
   In (TocFile "raw" 1 "/data/b_raw.fif" "" "b_raw.fif")
      (flat_map toc_of doc)).
Proof.
  vm_compute. repeat split; auto.
Qed.

(** ** Files the scan does not select *)

Lemma recursive_search_fif (w : World) (path : string) :
  Forall (fun f => Str.endswith f ".fif" = true)
         (_recursive_search w path "*.fif").
Proof.
  apply Forall_forall. intros f Hf. unfold _recursive_search in Hf.
  apply in_flat_map in Hf. destruct Hf as [[[dirpath dirnames] files] [_ Hf]].
  apply in_map_iff in Hf. destruct Hf as [name [<- Hname]].
  unfold fnmatch_filter in Hname. apply filter_In in Hname.
  destruct Hname as [_ Hname]. rewrite fnmatch_fif in Hname.
  now apply endswith_join.
Qed.

Lemma filter_filter_implied {A : Type} (p q : A -> bool) (l : list A) :
  (forall x, p x = true -> q x = true) ->
  filter p (filter q l) = filter p l.
Proof.
  intros Hpq. induction l as [|x l IH]; [reflexivity|].
  cbn [filter]. destruct (q x) eqn:Eq; cbn [filter].
  - now rewrite IH.
  - destruct (p x) eqn:Ep; [|exact IH].
    rewrite (Hpq x Ep) in Eq. discriminate.
Qed.

(** Removing a file that the pattern does not match changes nothing in
    what the search returns. *)
Lemma recursive_search_without (w : World) (name path pattern : string) :
  fnmatch pattern name = false ->
  _recursive_search (without_file name w) path pattern
  = _recursive_search w path pattern.
Proof.
  intros Hname. unfold _recursive_search, without_file. cbn [os_walk].
  induction (os_walk w path) as [|[[dirpath dirnames] files] rest IH];
    [reflexivity|].
  cbn [map flat_map]. rewrite IH. f_equal.
  unfold fnmatch_filter. rewrite filter_filter_implied; [reflexivity|].
  intros x Hx. apply negb_true_iff. apply String.eqb_neq.
  intros ->. congruence.
Qed.

(** C4, as amended: a file named [weird_data.bin] in the scan root is not
    among the scanned names (the search keeps the names that end in
    [.fif]); constructing the report, parsing the folder and saving go
    exactly as they do without that file, so it yields no fragment and no
    row of the table of contents. *)
Theorem unknown_suffix_file_is_ignored (w : World) (info_fname : string)
    (subjects_dir subject title : option string) (dp out : string)
    (interactive open_browser : bool) (s : State) :
  Forall (fun f => Str.endswith f ".fif" = true)
         (_recursive_search w dp "*.fif") /\
  (forall dirpath,
     ~ In (Str.join dirpath "weird_data.bin")
          (_recursive_search w dp "*.fif")) /\
  __init__ w info_fname subjects_dir subject title
  = __init__ (without_file "weird_data.bin" w) info_fname subjects_dir
      subject title /\
  parse_folder w dp interactive s
  = parse_folder (without_file "weird_data.bin" w) dp interactive s /\
  save w out open_browser s
  = save (without_file "weird_data.bin" w) out open_browser s.
Proof.
  split; [apply recursive_search_fif|].
  split.
  - intros dirpath Hin.
    pose proof (recursive_search_fif w dp) as Hall.
    rewrite Forall_forall in Hall. specialize (Hall _ Hin).
    assert (Hbin : Str.endswith (Str.join dirpath "weird_data.bin")
                     "weird_data.bin" = true).
    { apply endswith_join, endswith_refl. }
    rewrite (endswith_apart _ "weird_data.bin" ".fif" eq_refl Hbin) in Hall.
    discriminate.
  - split; [reflexivity|]. split; [|reflexivity].
    unfold parse_folder, scan_fnames.
    rewrite (recursive_search_without w "weird_data.bin" dp "*.fif" eq_refl).
    reflexivity.
Qed.

(** C4, as stated, fails on a folder that holds only [weird_data.bin]:
    the saved report has no fragment at all (none of class [custom]) and
    an empty table of contents (no row flagged red). *)
Lemma unknown_suffix_file_leaves_no_trace :
  os_walk Sample.weird_world "/data" = [("/data", [], ["weird_data.bin"])] /\
  fst (Sample.run Sample.weird_world None None) = Ok "report.html" /\
  flat_map fragment_classes
    (html (snd (Sample.run Sample.weird_world None None))) = [] /\
  flat_map toc_of (html (snd (Sample.run Sample.weird_world None None)))
  = [] /\
  ~ (List.length
       (filter (String.eqb "custom")
          (flat_map fragment_classes
             (html (snd (Sample.run Sample.weird_world None None))))) = 1 /\
     List.length
       (filter toc_flagged
          (flat_map toc_of
             (html (snd (Sample.run Sample.weird_world None None))))) = 1).
Proof.
  vm_compute. repeat split. intros [H _]. discriminate H.
Qed.

(** A scanned name with none of the suffixes of [parse_folder] that is
    not a directory is passed over: there is no [Unknown] kind. *)
Lemma unmatched_name_renders_nothing (w : World) (data_path : string)
    (info : Info) (interactive : bool) (folders : list string) (s : State) :
  isdir w "/data/weird_data.fif" = false ->
  render_file w "/data/weird_data.fif" data_path info interactive folders s
  = (Ok folders, s).
Proof.
  intros Hdir. unfold render_file.
  change (Str.endswith_any "/data/weird_data.fif" [".mgz"]) with false.
  change (Str.endswith_any "/data/weird_data.fif" ["raw.fif"; "sss.fif"])
    with false.
  change (Str.endswith_any "/data/weird_data.fif"
            ["-fwd.fif"; "-fwd.fif.gz"]) with false.
  change (Str.endswith_any "/data/weird_data.fif" ["-ave.fif"]) with false.
  change (Str.endswith_any "/data/weird_data.fif" ["-eve.fif"]) with false.
  change (Str.endswith_any "/data/weird_data.fif" ["-epo.fif"]) with false.
  change (Str.endswith_any "/data/weird_data.fif" ["-cov.fif"]) with false.
  change (Str.endswith_any "/data/weird_data.fif" ["-trans.fif"]) with false.
  cbv iota. now rewrite Hdir.
Qed.

(** ** When the anchors do match *)

Lemma ids_from_S (g : Z) (n : nat) :
  ids_from g (S n) = g :: ids_from (g + 1) n.
Proof.
  unfold ids_from. cbn [seq map]. f_equal; [lia|].
  rewrite <- seq_shift, map_map. apply map_ext. intros k. lia.
Qed.

Lemma ids_from_app (g : Z) (a b : nat) :
  ids_from g (a + b) = (ids_from g a ++ ids_from (g + Z.of_nat a) b)%list.
Proof.
  revert g. induction a as [|a IH]; intros g.
  - change (Z.of_nat 0) with 0%Z. now rewrite Z.add_0_r.
  - cbn [plus]. rewrite !ids_from_S, IH. cbn [app]. do 3 f_equal. lia.
Qed.

Lemma toc_conditions_hrefs (fname color : string) (evokeds : list Evoked)
    (g : Z) :
  map cond_href (toc_conditions fname color evokeds g)
  = ids_from g (List.length evokeds).
Proof.
  revert g. induction evokeds as [|ev rest IH]; intros g; [reflexivity|].
  cbn [toc_conditions map List.length cond_href].
  now rewrite ids_from_S, IH.
Qed.

Lemma total_width_cons (w : World) (fname : string) (rest : list string) :
  total_width w (fname :: rest) = toc_width w fname + total_width w rest.
Proof. reflexivity. Qed.

Lemma total_width_app (w : World) (l : list string) (fname : string) :
  total_width w (l ++ [fname]) = total_width w l + toc_width w fname.
Proof.
  induction l as [|x l IH]; cbn [app].
  - rewrite !total_width_cons. cbn. lia.
  - rewrite !total_width_cons, IH. lia.
Qed.

(** The anchors of the table of contents are consecutive. *)
Lemma toc_entries_hrefs (w : World) (fnames : list string) (g : Z)
    (class_name : option string) (s s' : State) (entries : list TocEntry) :
  toc_entries w fnames g class_name s = (Ok entries, s') ->
  flat_map toc_hrefs entries = ids_from g (total_width w fnames).
Proof.
  revert g class_name s s' entries.
  induction fnames as [|fname rest IH]; intros g class_name s s' entries H.
  - inversion H. reflexivity.
  - cbn [toc_entries] in H. unfold bind at 1, logger_info, modify in H.
    cbv zeta in H.
    rewrite total_width_cons, ids_from_app. unfold toc_width.
    destruct (Str.endswith_any fname toc_file_suffixes).
    + destruct (toc_class_name class_name fname) as [c|]; [|discriminate].
      unfold bind, call in H.
      destruct (unicode_format _) as [[]|e]; [|discriminate].
      destruct (toc_entries w rest _ _ _) as [[es|e] s1] eqn:E;
        [|discriminate].
      inversion H; subst. cbn [flat_map toc_hrefs app].
      rewrite (IH _ _ _ _ _ E). cbn [ids_from seq map app].
      now rewrite Z.add_0_r.
    + destruct (Str.endswith_any fname ["-ave.fif"]).
      * unfold bind at 1, call in H.
        destruct (read_evokeds w fname) as [evokeds|e]; [|discriminate].
        unfold bind in H.
        destruct (unicode_format [_; _]) as [[]|e]; [|discriminate].
        destruct (unicode_format _) as [[]|e]; [|discriminate].
        destruct (toc_entries w rest _ _ _) as [[es|e] s1] eqn:E;
          [|discriminate].
        inversion H; subst. cbn [flat_map toc_hrefs].
        rewrite toc_conditions_hrefs. f_equal. exact (IH _ _ _ _ _ E).
      * destruct (String.eqb fname "bem"); unfold bind in H;
          (destruct (toc_entries w rest _ _ _) as [[es|e] s1] eqn:E;
             [|discriminate]);
          inversion H; subst; cbn [flat_map toc_hrefs app];
          rewrite (IH _ _ _ _ _ E); cbn [ids_from seq map app];
          now rewrite Z.add_0_r.
Qed.

Lemma aligned_step (w : World) (s s' : State) (hs : list Html) (k : nat)
    (name : string) :
  aligned w s ->
  html s' = (html s ++ hs)%list ->
  flat_map fragment_ids hs = ids_from (initial_id s + 1) k ->
  initial_id s' = (initial_id s + Z.of_nat k)%Z ->
  fnames s' = (fnames s ++ [name])%list ->
  toc_width w name = k ->
  aligned w s'.
Proof.
  intros [Hids Hcount] Hhtml Hhs Hid Hfn Hw. unfold aligned.
  rewrite Hhtml, Hfn, flat_map_app, Hids, Hhs, Hid, Hcount.
  rewrite total_width_app, Hw, ids_from_app.
  split; [do 2 f_equal|]; lia.
Qed.

Lemma ids_from_one (g : Z) : ids_from g 1 = [g].
Proof. unfold ids_from. cbn. now rewrite Z.add_0_r. Qed.

Lemma set_initial_id_twice (a b : Z) (s : State) :
  set_initial_id a (set_initial_id b s) = set_initial_id a s.
Proof. reflexivity. Qed.

(** One fragment with the next id. *)
Ltac emits_one H :=
  unfold html_append, modify in H; inversion H; subst;
  eexists; split; [reflexivity|]; rewrite ids_from_one;
  split; [reflexivity|]; split; reflexivity.

Lemma emits_render_raw (w : World) (fname : string) :
  emits 1 (_render_raw w fname).
Proof.
  intros s a s' H. unfold _render_raw in H. cbv zeta in H.
  unfold bind at 1 in H. rewrite get_id_run in H.
  unfold bind at 1, call at 1 in H.
  destruct (Raw_repr w fname) as [raw|e]; [|discriminate].
  emits_one H.
Qed.

Lemma emits_render_eve (w : World) (fname : string) (info : Info)
    (interactive : bool) :
  emits 1 (_render_eve w fname info interactive).
Proof.
  intros s a s' H. unfold _render_eve in H. cbv zeta in H.
  unfold bind at 1 in H.
  assert (E : (if interactive then call (import_mpld3 w) else ret tt) s
              = (Ok tt, s) \/
              exists e, (if interactive then call (import_mpld3 w)
                         else ret tt) s = (Raise e, s)).
  { destruct interactive; [|now left]. unfold call.
    destruct (import_mpld3 w) as [[]|e]; [now left|right; now exists e]. }
  destruct E as [E|[e E]]; rewrite E in H; [|discriminate].
  unfold bind at 1 in H. rewrite get_id_run in H.
  unfold bind at 1, call at 1 in H.
  destruct (events_plot w fname info interactive) as [plot|e];
    [|discriminate].
  emits_one H.
Qed.

Lemma emits_render_epochs (w : World) (fname : string) :
  emits 1 (_render_epochs w fname).
Proof.
  intros s a s' H. unfold _render_epochs in H. cbv zeta in H.
  unfold bind at 1 in H. rewrite get_id_run in H.
  unfold bind at 1, get at 1 in H. unfold bind at 1, call at 1 in H.
  destruct (epochs_drop_log_img w fname _) as [img|e]; [|discriminate].
  emits_one H.
Qed.

Lemma emits_render_cov (w : World) (fname : string) :
  emits 1 (_render_cov w fname).
Proof.
  intros s a s' H. unfold _render_cov in H. cbv zeta in H.
  unfold bind at 1 in H. rewrite get_id_run in H.
  unfold bind at 1, call at 1 in H.
  destruct (covariance_img w fname) as [img|e]; [|discriminate].
  emits_one H.
Qed.

Lemma emits_render_trans (w : World) (fname path : string) (info : Info)
    (subject subjects_dir : option string) :
  always_scene w ->
  emits 1 (_render_trans w fname path info subject subjects_dir).
Proof.
  intros Hscene s a s' H. unfold _render_trans in H.
  unfold bind at 1, call at 1 in H.
  destruct (import_mayavi w) as [[]|e]; [|discriminate].
  unfold bind at 1, call at 1 in H.
  destruct (plot_trans w info fname subject subjects_dir) as [fig|e] eqn:E;
    [|discriminate].
  destruct (Hscene _ _ _ _ _ E) as [bmp ->]. cbv zeta in H.
  unfold bind at 1 in H. rewrite get_id_run in H.
  unfold bind at 1, call at 1 in H.
  destruct bmp as [img|e]; [|discriminate].
  emits_one H.
Qed.

Lemma emits_render_image (w : World) (image cmap : string) :
  emits 1 (_render_image w image cmap).
Proof.
  intros s a s' H. unfold _render_image in H.
  unfold bind at 1 in H. rewrite get_id_run in H.
  unfold bind at 1, call at 1 in H.
  destruct (nib_load w image) as [data|e]; [|discriminate].
  cbv zeta in H. unfold bind at 1, call at 1 in H.
  destruct (_render_array w data _ cmap _) as [axes|e]; [|discriminate].
  unfold bind, html_append, modify, ret in H. inversion H; subst.
  eexists. split; [reflexivity|]. rewrite ids_from_one.
  split; [reflexivity|]. split; reflexivity.
Qed.

(** The fragments of an averaged-response file: one per condition. *)
Lemma render_evokeds_ids (fname : string) (evokeds : list Evoked)
    (s s' : State) (lis : list ImageLi) :
  render_evokeds fname evokeds s = (Ok lis, s') ->
  map li_id lis = ids_from (initial_id s + 1) (List.length evokeds) /\
  s' = set_initial_id (initial_id s + Z.of_nat (List.length evokeds)) s.
Proof.
  revert s s' lis. induction evokeds as [|ev rest IH]; intros s s' lis H.
  - unfold ret in H. injection H as Hl Hs. subst lis s'.
    split; [reflexivity|].
    cbn [List.length]. change (Z.of_nat 0) with 0%Z. rewrite Z.add_0_r.
    now destruct s.
  - cbn [render_evokeds] in H. unfold bind at 1 in H.
    rewrite get_id_run in H. unfold bind at 1, call at 1 in H.
    destruct (plot_img ev) as [img|e]; [|discriminate]. cbv zeta in H.
    unfold bind at 1 in H.
    destruct (render_evokeds fname rest _) as [[lis'|e] s1] eqn:E;
      [|discriminate].
    inversion H; subst. destruct (IH _ _ _ E) as [Hids ->].
    cbn [List.length map li_id image_template_substitute].
    rewrite ids_from_S, Hids. cbn [initial_id set_initial_id].
    split; [reflexivity|]. rewrite set_initial_id_twice. f_equal. lia.
Qed.

Lemma emits_render_evoked (w : World) (fname : string)
    (evokeds : list Evoked) :
  read_evokeds w fname = Ok evokeds ->
  emits (List.length evokeds) (_render_evoked w fname).
Proof.
  intros Hread s a s' H. unfold _render_evoked in H.
  unfold bind at 1, call at 1 in H. rewrite Hread in H.
  unfold bind at 1 in H.
  destruct (render_evokeds fname evokeds s) as [[lis|e] s1] eqn:E;
    [|discriminate].
  destruct (render_evokeds_ids _ _ _ _ _ E) as [Hids ->].
  unfold html_append, modify in H. inversion H; subst.
  eexists. split; [reflexivity|]. cbn [flat_map fragment_ids].
  rewrite app_nil_r. split; [exact Hids|]. split; reflexivity.
Qed.

Lemma rendering_render_bem_slices (w : World) (mri : string)
    (surfs : list string) (name gid : string) (size : nat * nat)
    (sls : list Z) (first : bool) :
  preserves rendering (render_bem_slices w mri surfs name gid size sls first).
Proof.
  revert first. induction sls as [|sl rest IH]; intros first;
    cbn [render_bem_slices]; cbv zeta; preserves_steps. apply IH.
Qed.

Lemma rendering_render_one_bem_axe (w : World) (mri : string)
    (surfs : list string) (gid : Z) (shape : nat * nat * nat)
    (orientation : string) :
  preserves rendering (_render_one_bem_axe w mri surfs gid shape orientation).
Proof.
  unfold _render_one_bem_axe.
  destruct (dict_get orientation_name2axis orientation);
    [|apply preserves_raise].
  destruct shape as [[x y] z]. cbv zeta.
  apply preserves_bind; [apply rendering_render_bem_slices|intros r].
  preserves_steps.
Qed.

(** A surface was missing: the volume was rendered plainly after one
    more warning. *)
Lemma find_surfaces_rendered (w : World) (bem_path mri : string)
    (names found : list string) (s s' : State) (h : Html) :
  find_surfaces w bem_path mri names found s = (Ok (inl h), s') ->
  exists n0,
    _render_image w mri "gray"
      (set_warned (warned s ++ [NoSurfaceFound n0])%list s) = (Ok h, s').
Proof.
  revert found. induction names as [|n names IH]; intros found;
    cbn [find_surfaces].
  - intros H. inversion H.
  - destruct (glob w _); [|apply IH].
    unfold bind at 1, warnings_warn, modify. unfold bind at 1.
    intros H. exists n.
    destruct (_render_image w mri "gray" _) as [[h'|e] s1];
      inversion H; subst; reflexivity.
Qed.

Lemma emits_render_bem (w : World) (subject subjects_dir : option string) :
  emits 1 (_render_bem w subject subjects_dir).
Proof.
  intros s a s' H. unfold _render_bem in H.
  unfold bind at 1, call at 1 in H.
  destruct (get_subjects_dir w subjects_dir) as [sdir|e]; [|discriminate].
  destruct subject as [subj|]; [|discriminate]. cbv zeta in H.
  set (mri := Str.join (Str.join (Str.join sdir subj) "mri") "T1.mgz") in *.
  unfold bind at 1 in H.
  assert (E0 : exists s0,
            (if isfile w mri then ret tt
             else warnings_warn (MriFileMissing mri)) s = (Ok tt, s0) /\
            rendering s0 = rendering s).
  { destruct (isfile w mri); eexists; split; reflexivity. }
  destruct E0 as [s0 [E0 R0]]. rewrite E0 in H. clear E0.
  assert (Himage : forall s1 h s2,
            rendering s1 = rendering s ->
            _render_image w mri "gray" s1 = (Ok h, s2) ->
            exists hs,
              html s2 = (html s ++ hs)%list /\
              flat_map fragment_ids hs = ids_from (initial_id s + 1) 1 /\
              initial_id s2 = (initial_id s + Z.of_nat 1)%Z /\
              fnames s2 = fnames s).
  { intros s1 h s2 R1 E1. unfold rendering in R1. inversion R1 as [[Ri Rh Rf]].
    destruct (emits_render_image w mri "gray" s1 h s2 E1)
      as [hs [H1 [H2 [H3 H4]]]].
    exists hs. rewrite H1, H2, H3, H4, Ri, Rh, Rf. repeat split. }
  destruct (negb (isdir w _)).
  - unfold bind at 1, warnings_warn, modify in H.
    refine (Himage _ _ _ _ H). exact R0.
  - unfold bind at 1 in H.
    destruct (find_surfaces w _ mri _ _ s0) as [[[h|surfs]|e] s1] eqn:E;
      [| |discriminate].
    + destruct (find_surfaces_rendered _ _ _ _ _ _ _ _ E) as [n0 E1].
      unfold ret in H. inversion H; subst.
      refine (Himage _ _ _ _ E1). exact R0.
    + apply find_surfaces_found in E. subst s1.
      unfold bind at 1, call at 1 in H.
      destruct (nib_load w mri) as [data|e]; [|discriminate].
      cbv zeta in H. unfold bind at 1 in H. rewrite get_id_run in H.
      set (s1 := set_initial_id (initial_id s0 + 1) s0) in *.
      unfold bind at 1 in H.
      pose proof (rendering_render_one_bem_axe w mri surfs
                    (initial_id s0 + 1)
                    (Np.dim0 data, Np.dim1 data, Np.dim2 data) "axial" s1)
        as P1.
      destruct (_render_one_bem_axe w mri surfs _ _ "axial" s1)
        as [[axial|e] s2]; [|discriminate].
      unfold bind at 1 in H.
      pose proof (rendering_render_one_bem_axe w mri surfs
                    (initial_id s0 + 1)
                    (Np.dim0 data, Np.dim1 data, Np.dim2 data) "sagittal" s2)
        as P2.
      destruct (_render_one_bem_axe w mri surfs _ _ "sagittal" s2)
        as [[sagittal|e] s3]; [|discriminate].
      unfold bind at 1 in H.
      pose proof (rendering_render_one_bem_axe w mri surfs
                    (initial_id s0 + 1)
                    (Np.dim0 data, Np.dim1 data, Np.dim2 data) "coronal" s3)
        as P3.
      destruct (_render_one_bem_axe w mri surfs _ _ "coronal" s3)
        as [[coronal|e] s4]; [|discriminate].
      cbn [snd] in P1, P2, P3.
      unfold bind, html_append, modify, ret in H. inversion H; subst.
      assert (R4 : rendering s4 = rendering s1) by congruence.
      unfold rendering in R0, R4. inversion R0 as [[Ri Rh Rf]].
      inversion R4 as [[Qi Qh Qf]].
      eexists. cbn [html initial_id fnames set_html].
      rewrite Qh, Qi, Qf. unfold s1. cbn [html initial_id fnames set_initial_id].
      rewrite Rh, Ri, Rf, ids_from_one.
      split; [reflexivity|]. split; [reflexivity|]. split; reflexivity.
Qed.

Lemma aligned_rendering (w : World) (s s' : State) :
  rendering s' = rendering s -> aligned w s -> aligned w s'.
Proof.
  unfold rendering, aligned. intros R. inversion R as [[Ri Rh Rf]].
  now rewrite Ri, Rh, Rf.
Qed.

(** A builder that returns, followed by the registration of the name. *)
Lemma aligned_after (w : World) (k : nat) {A : Type} (m : M A)
    (name : string) (folders folders' : list string) (s s' : State) :
  emits k m ->
  toc_width w name = k ->
  aligned w s ->
  (m ;; fnames_append name ;; ret folders) s = (Ok folders', s') ->
  aligned w s'.
Proof.
  intros Hm Hw Hs H. unfold bind at 1 in H.
  destruct (m s) as [[a|e] s1] eqn:E; [|discriminate].
  unfold bind, fnames_append, modify, ret in H. inversion H; subst.
  destruct (Hm s a s1 E) as [hs [H1 [H2 [H3 H4]]]].
  apply (aligned_step w s _ hs (toc_width w name) name Hs);
    cbn [html initial_id fnames set_fnames]; try assumption;
    try reflexivity.
  now rewrite H4.
Qed.

Lemma toc_width_listed (w : World) (fname suf : string) :
  Str.endswith fname suf = true ->
  Str.endswith_any suf toc_file_suffixes = true ->
  toc_width w fname = 1.
Proof.
  intros Hs Hsuf. unfold toc_width.
  assert (Hex : Str.endswith_any fname toc_file_suffixes = true).
  { unfold Str.endswith_any in *. apply existsb_exists in Hsuf.
    destruct Hsuf as [x [Hx Hsx]]. apply existsb_exists. exists x.
    split; [exact Hx|]. now apply endswith_trans with (a := suf). }
  now rewrite Hex.
Qed.

Lemma toc_width_ave (w : World) (fname : string) (evokeds : list Evoked) :
  Str.endswith fname "-ave.fif" = true ->
  read_evokeds w fname = Ok evokeds ->
  toc_width w fname = List.length evokeds.
Proof.
  intros Hs Hread. unfold toc_width, toc_file_suffixes, Str.endswith_any.
  cbn [existsb].
  repeat match goal with
         | |- context [Str.endswith fname ?b] =>
             rewrite (endswith_apart fname "-ave.fif" b eq_refl Hs)
         end.
  cbn [orb]. now rewrite Hs, Hread.
Qed.

Lemma toc_width_fwd_gz (w : World) (fname : string) :
  Str.endswith fname "-fwd.fif.gz" = true -> toc_width w fname = 1.
Proof.
  intros Hs. unfold toc_width.
  destruct (Str.endswith_any fname toc_file_suffixes); [reflexivity|].
  unfold Str.endswith_any. cbn [existsb].
  now rewrite (endswith_apart fname "-fwd.fif.gz" "-ave.fif" eq_refl Hs).
Qed.

(** An iteration that returns keeps anchors and fragment ids in step,
    provided transforms are drawn as scenes. *)
Lemma render_file_aligned (w : World) (fname data_path : string)
    (info : Info) (interactive : bool) (folders folders' : list string)
    (s s' : State) :
  always_scene w ->
  render_file w fname data_path info interactive folders s
  = (Ok folders', s') ->
  aligned w s -> aligned w s'.
Proof.
  intros Hscene H Hs. unfold render_file in H.
  repeat match type of H with
         | (if Str.endswith_any fname ?l then _ else _) _ = _ =>
             let E := fresh "E" in
             destruct (Str.endswith_any fname l) eqn:E;
             [cbn [Str.endswith_any existsb] in E;
              rewrite ?orb_false_r in E|clear E]
         end.
  - (* .mgz *)
    unfold bind at 1, get at 1 in H. unfold bind at 1, get at 1 in H.
    exact (aligned_after w 1 _ "bem" _ _ s s'
             (emits_render_bem w _ _) eq_refl Hs H).
  - (* raw.fif, sss.fif *)
    refine (aligned_after w 1 _ fname _ _ s s'
              (emits_render_raw w fname) _ Hs H).
    apply orb_prop in E. destruct E as [E|E];
      [apply toc_width_listed with "raw.fif"
      |apply toc_width_listed with "sss.fif"]; auto.
  - (* -fwd.fif, -fwd.fif.gz *)
    unfold bind at 1 in H. unfold _render_forward in H. cbv zeta in H.
    unfold bind at 1, call at 1 in H.
    destruct (read_forward_solution_repr w fname) as [fwd|e];
      [|discriminate].
    unfold bind at 1 in H. rewrite get_id_run in H.
    unfold bind, html_append, fnames_append, modify, ret in H.
    inversion H; subst.
    apply (aligned_step w s _
             [ReprLi "forward" (initial_id s + 1) ("Forward: " ++ fname)
                (remove_char ">" (remove_char "<" fwd))] 1 fname Hs);
      try reflexivity.
    + now rewrite ids_from_one.
    + apply orb_prop in E. destruct E as [E|E];
        [now apply toc_width_listed with "-fwd.fif"
        |now apply toc_width_fwd_gz].
  - (* -ave.fif *)
    destruct (read_evokeds w fname) as [evokeds|e] eqn:Hread.
    + exact (aligned_after w _ _ fname _ _ s s'
               (emits_render_evoked w fname evokeds Hread)
               (toc_width_ave w fname evokeds E Hread) Hs H).
    + unfold bind at 1, _render_evoked, bind at 1, call at 1 in H.
      rewrite Hread in H. discriminate.
  - (* -eve.fif *)
    refine (aligned_after w 1 _ fname _ _ s s'
              (emits_render_eve w fname info interactive) _ Hs H).
    now apply toc_width_listed with "-eve.fif".
  - (* -epo.fif *)
    refine (aligned_after w 1 _ fname _ _ s s'
              (emits_render_epochs w fname) _ Hs H).
    now apply toc_width_listed with "-epo.fif".
  - (* -cov.fif *)
    refine (aligned_after w 1 _ fname _ _ s s'
              (emits_render_cov w fname) _ Hs H).
    now apply toc_width_listed with "-cov.fif".
  - (* -trans.fif *)
    unfold bind at 1, get at 1 in H. unfold bind at 1, get at 1 in H.
    refine (aligned_after w 1 _ fname _ _ s s'
              (emits_render_trans w fname data_path info _ _ Hscene)
              _ Hs H).
    now apply toc_width_listed with "-trans.fif".
  - (* a directory, or nothing *)
    destruct (isdir w fname); cbv zeta in H.
    + unfold bind, logger_info, modify, ret in H. inversion H; subst.
      now apply (aligned_rendering w s).
    + unfold ret in H. inversion H; subst. exact Hs.
Qed.

Lemma render_files_aligned (w : World) (fnames : list string)
    (data_path : string) (info : Info) (interactive : bool)
    (folders : list string) (s : State) :
  always_scene w ->
  renders_cleanly w fnames data_path info interactive folders s ->
  aligned w s ->
  aligned w (snd (render_files w fnames data_path info interactive
                    folders s)).
Proof.
  intros Hscene. revert folders s.
  induction fnames as [|fname rest IH]; intros folders s Hclean Hs;
    [exact Hs|].
  cbn [renders_cleanly] in Hclean. cbn [render_files].
  unfold bind at 1, logger_info at 1, modify at 1.
  unfold bind at 1, try_except.
  destruct (render_file w fname data_path info interactive folders _)
    as [[folders'|e] s1] eqn:E; [|destruct Hclean].
  apply IH; [exact Hclean|].
  apply (render_file_aligned w _ _ _ _ _ _ _ _ Hscene E).
  now apply (aligned_rendering w s).
Qed.

(** When every scanned file is rendered without an exception and every
    transform is drawn as a 3-D scene, the anchors of the table of contents
    are, in order, the ids of the fragments of the body. *)
Theorem anchors_match_fragment_ids (w : World) (names : list string)
    (data_path : string) (info : Info) (interactive : bool)
    (folders : list string) (s s0 s1 : State) (entries : list TocEntry) :
  always_scene w ->
  renders_cleanly w names data_path info interactive folders s ->
  aligned w s ->
  toc_entries w
    (fnames (snd (render_files w names data_path info interactive
                    folders s)))
    1 None s0 = (Ok entries, s1) ->
  flat_map toc_hrefs entries
  = flat_map fragment_ids
      (html (snd (render_files w names data_path info interactive
                    folders s))).
Proof.
  intros Hscene Hclean Hs Htoc.
  destruct (render_files_aligned w names data_path info interactive
              folders s Hscene Hclean Hs) as [Hids _].
  rewrite Hids. exact (toc_entries_hrefs w _ _ _ _ _ _ Htoc).
Qed.

Lemma anchors_match_fragment_ids_witness :
  flat_map toc_hrefs
    (match
       toc_entries Sample.scene_world
         (fnames (snd (render_files Sample.scene_world
                         ["/data/a-trans.fif"; "/data/b_raw.fif";
                          "/data/d-ave.fif"] "/data" "info" true []
                         (Sample.at_scan Sample.scene_world None None))))
         1 None (Sample.at_scan Sample.scene_world None None)
     with
     | (Ok entries, _) => entries
     | (Raise _, _) => []
     end)
  = flat_map fragment_ids
      (html (snd (render_files Sample.scene_world
                    ["/data/a-trans.fif"; "/data/b_raw.fif";
                     "/data/d-ave.fif"] "/data" "info" true []
                    (Sample.at_scan Sample.scene_world None None)))).
Proof.
  apply (anchors_match_fragment_ids Sample.scene_world
           ["/data/a-trans.fif"; "/data/b_raw.fif"; "/data/d-ave.fif"]
           "/data" "info" true []
           (Sample.at_scan Sample.scene_world None None)
           (Sample.at_scan Sample.scene_world None None)
           (snd (toc_entries Sample.scene_world
                   (fnames (snd (render_files Sample.scene_world
                                   ["/data/a-trans.fif"; "/data/b_raw.fif";
                                    "/data/d-ave.fif"] "/data" "info" true
                                   []
                                   (Sample.at_scan Sample.scene_world None
                                      None))))
                   1 None (Sample.at_scan Sample.scene_world None None)))).
  - intros info fname subject subjects_dir fig H.
    exists (Ok "scene.bmp"). now inversion H.
  - vm_compute. exact I.
  - split; vm_compute; reflexivity.
  - vm_compute. reflexivity.
Defined.

(** * Further properties of the module *)

(** ** The recursive search *)

(** X2: a name is returned by the recursive search of [parse_folder]
    exactly when it is the join of a walked directory and of one of its
    files whose name ends in [.fif]. *)
Theorem recursive_search_selects (w : World) (path f : string) :
  In f (_recursive_search w path "*.fif") <->
  exists dirpath dirnames files name,
    In (dirpath, dirnames, files) (os_walk w path) /\
    In name files /\
    Str.endswith name ".fif" = true /\
    f = Str.join dirpath name.
Proof.
  unfold _recursive_search. rewrite in_flat_map. split.
  - intros [[[dirpath dirnames] files] [Hwalk Hf]].
    apply in_map_iff in Hf. destruct Hf as [name [<- Hname]].
    unfold fnmatch_filter in Hname. apply filter_In in Hname.
    destruct Hname as [Hin Hmatch]. rewrite fnmatch_fif in Hmatch.
    now exists dirpath, dirnames, files, name.
  - intros [dirpath [dirnames [files [name [Hwalk [Hin [Hfif ->]]]]]]].
    exists (dirpath, dirnames, files). split; [exact Hwalk|].
    apply in_map. unfold fnmatch_filter. apply filter_In.
    split; [exact Hin|]. now rewrite fnmatch_fif.
Qed.

(** ** The table of contents *)

Lemma toc_entries_length (w : World) (names : list string) (g : Z)
    (class_name : option string) (s s' : State) (entries : list TocEntry) :
  toc_entries w names g class_name s = (Ok entries, s') ->
  List.length entries = List.length names.
Proof.
  revert g class_name s s' entries.
  induction names as [|fname rest IH]; intros g class_name s s' entries H.
  - inversion H. reflexivity.
  - cbn [toc_entries] in H. unfold bind at 1, logger_info, modify in H.
    cbv zeta in H.
    destruct (Str.endswith_any fname toc_file_suffixes).
    + destruct (toc_class_name class_name fname) as [c|]; [|discriminate].
      unfold bind, call in H.
      destruct (unicode_format _) as [[]|e]; [|discriminate].
      destruct (toc_entries w rest _ _ _) as [[es|e] s1] eqn:E;
        [|discriminate].
      inversion H; subst. cbn [List.length]. f_equal.
      exact (IH _ _ _ _ _ E).
    + destruct (Str.endswith_any fname ["-ave.fif"]).
      * unfold bind at 1, call in H.
        destruct (read_evokeds w fname) as [evokeds|e]; [|discriminate].
        unfold bind in H.
        destruct (unicode_format [_; _]) as [[]|e]; [|discriminate].
        destruct (unicode_format _) as [[]|e]; [|discriminate].
        destruct (toc_entries w rest _ _ _) as [[es|e] s1] eqn:E;
          [|discriminate].
        inversion H; subst. cbn [List.length]. f_equal.
        exact (IH _ _ _ _ _ E).
      * destruct (String.eqb fname "bem"); unfold bind in H;
          (destruct (toc_entries w rest _ _ _) as [[es|e] s1] eqn:E;
             [|discriminate]);
          inversion H; subst; cbn [List.length]; f_equal;
          exact (IH _ _ _ _ _ E).
Qed.

(** The names listed in a sample world can be read again and printed. *)
Ltac sample_rereadable :=
  let H := fresh in
  intros H; first [discriminate H | eexists; reflexivity].

Ltac sample_printable :=
  first [ exact I
        | exact eq_refl
        | split;
          [exact eq_refl
          |let H := fresh in
           intros ? H; injection H as <-; exact eq_refl] ].

Ltac sample_names_printable :=
  repeat (apply Forall_cons; [sample_printable|]); apply Forall_nil.

Ltac sample_ready :=
  repeat (apply Forall_cons;
          [split; [sample_rereadable|sample_printable]|]);
  apply Forall_nil.

(** X3: when [_render_toc] returns it has inserted, right after the first
    element of [self.html], a table of contents with one row per listed
    name, whose anchors are 1, 2, ... in row order (an averaged-response
    file taking one anchor per condition); names and id counter are as
    before. *)
Theorem render_toc_rows (w : World) (s s' : State) :
  _render_toc w s = (Ok tt, s') ->
  exists entries,
    html s' = list_insert 1 (Toc entries) (html s) /\
    List.length entries = List.length (fnames s) /\
    flat_map toc_hrefs entries = ids_from 1 (total_width w (fnames s)) /\
    fnames s' = fnames s /\
    initial_id s' = initial_id s.
Proof.
  intros H. unfold _render_toc in H.
  unfold bind at 1, logger_info at 1, modify at 1 in H.
  unfold bind at 1, get at 1 in H. unfold bind at 1 in H.
  set (s0 := set_logged
               (logged s ++ [LogInfo "Rendering : Table of Contents"]) s)
    in *.
  change (fnames s0) with (fnames s) in H.
  pose proof (toc_entries_logs_only w rendering (fnames s) 1 None
                (fun _ _ => eq_refl) s0) as Hr.
  destruct (toc_entries w (fnames s) 1 None s0) as [[entries|e] s1] eqn:E;
    [|discriminate].
  cbn [snd] in Hr. unfold rendering in Hr. inversion Hr as [[Ri Rh Rf]].
  unfold modify in H. inversion H; subst s'.
  exists entries. cbn [html fnames initial_id set_html].
  rewrite Rh, Rf, Ri.
  split; [reflexivity|].
  split; [exact (toc_entries_length w _ _ _ _ _ _ E)|].
  split; [exact (toc_entries_hrefs w _ _ _ _ _ _ E)|].
  split; reflexivity.
Qed.

Lemma render_toc_rows_witness :
  exists entries,
    html (snd (_render_toc Sample.scene_world Sample.listed))
    = list_insert 1 (Toc entries) (html Sample.listed) /\
    List.length entries = 4 /\
    flat_map toc_hrefs entries = [1; 2; 3; 4; 5]%Z /\
    fnames (snd (_render_toc Sample.scene_world Sample.listed))
    = fnames Sample.listed /\
    initial_id (snd (_render_toc Sample.scene_world Sample.listed)) = 0%Z.
Proof.
  exact (render_toc_rows Sample.scene_world Sample.listed
           (snd (_render_toc Sample.scene_world Sample.listed)) eq_refl).
Defined.

(** ** Saving *)

(** X4: [save] on a report that [parse_folder] never scanned raises
    [AttributeError] ([self.data_path] is not set), and does so after it
    has inserted the table of contents and appended the footer; nothing is
    written. *)
Theorem save_before_parse_folder (w : World) (out : string)
    (open_browser : bool) (s : State) :
  data_path s = None ->
  Forall (toc_ready w) (fnames s) ->
  exists entries s',
    save w out open_browser s = (Raise AttributeError, s') /\
    html s'
    = (list_insert 1 (Toc entries) (html s) ++ [Footer (strftime w)])%list /\
    written s' = written s.
Proof.
  intros Hdp Hready.
  set (s0 := set_logged
               (logged s ++ [LogInfo "Rendering : Table of Contents"]) s).
  destruct (toc_entries_returns w (fnames s) 1 None s0 Hready)
    as [entries He].
  pose proof (toc_entries_logs_only w html (fnames s) 1 None
                (fun _ _ => eq_refl) s0) as Hhtml.
  pose proof (toc_entries_logs_only w data_path (fnames s) 1 None
                (fun _ _ => eq_refl) s0) as Hpath.
  pose proof (toc_entries_logs_only w written (fnames s) 1 None
                (fun _ _ => eq_refl) s0) as Hwritten.
  unfold save, _render_toc.
  unfold bind at 1. unfold bind at 1.
  unfold logger_info at 1, modify at 1. fold s0.
  unfold bind at 1, get at 1. unfold bind at 1.
  change (fnames s0) with (fnames s).
  destruct (toc_entries w (fnames s) 1 None s0) as [[es|e] s1];
    cbn in He, Hhtml, Hpath, Hwritten; [|discriminate].
  inversion He; subst es.
  exists entries.
  unfold modify, bind, html_append, modify, get, call.
  cbn -[list_insert Str.join append]. rewrite Hpath, Hdp.
  eexists. split; [reflexivity|].
  cbn -[list_insert Str.join append]. rewrite Hhtml, Hwritten.
  split; reflexivity.
Qed.

Lemma save_before_parse_folder_witness :
  exists entries s',
    save Sample.scene_world "report.html" false Sample.listed
    = (Raise AttributeError, s') /\
    html s'
    = (list_insert 1 (Toc entries) (html Sample.listed)
       ++ [Footer (strftime Sample.scene_world)])%list /\
    written s' = written Sample.listed.
Proof.
  refine (save_before_parse_folder Sample.scene_world "report.html" false
            Sample.listed eq_refl _).
  sample_ready.
Defined.

(** ** Sliders and thumbnails *)





Lemma render_slices_shape (w : World) (slices_iter : list (Z * Np.ndarray2))
    (name global_id cmap : string) (first : bool) (slices : list SliceLi)
    (slices_range : list Z) :
  render_slices w slices_iter name global_id cmap first
  = Ok (slices, slices_range) ->
  slices_range = map fst slices_iter /\
  map slice_show slices
  = match slices_iter with
    | [] => []
    | _ :: rest => first :: map (fun _ => false) rest
    end /\
  map slice_id slices
  = map (fun ip => name ++ "-" ++ global_id ++ "-" ++ str_of_int (fst ip))
        slices_iter.
Proof.
  revert first slices slices_range.
  induction slices_iter as [|[ind data] rest IH];
    intros first slices slices_range H.
  - inversion H. repeat split.
  - cbn [render_slices] in H. cbv zeta in H.
    destruct (_build_image w data cmap) as [img|e]; [|discriminate].
    destruct (render_slices w rest name global_id cmap false)
      as [[slices' range']|e] eqn:E; [|discriminate].
    inversion H; subst.
    destruct (IH false slices' range' E) as [Hr [Hshow Hid]].
    cbn [map fst slice_show slice_id _build_html_image].
    rewrite Hr, Hshow, Hid. repeat split.
    f_equal. destruct rest; reflexivity.
Qed.

(** X6: a column built by [_render_one_axe] has one thumbnail per slice
    the iterator yields, in order, with ids [name-id-index]; only the
    first thumbnail is marked visible; and its slider runs from the
    first to the last yielded index. *)
Theorem render_one_axe_thumbnails (w : World)
    (slices_iter : list (Z * Np.ndarray2)) (name : string) (gid : Z)
    (cmap : string) (axe : Axe) :
  _render_one_axe w slices_iter name (Some gid) cmap = Ok axe ->
  gid <> 0%Z ->
  exists ind rest,
    map fst slices_iter = ind :: rest /\
    map slice_id (axe_slices axe)
    = map (fun i => name ++ "-" ++ str_of_int gid ++ "-" ++ str_of_int i)
          (ind :: rest) /\
    map slice_show (axe_slices axe) = true :: map (fun _ => false) rest /\
    minvalue (axe_slider axe) = ind /\
    maxvalue (axe_slider axe) = last rest ind.
Proof.
  intros H Hgid. unfold _render_one_axe in H.
  apply Z.eqb_neq in Hgid. rewrite Hgid in H.
  destruct (render_slices w slices_iter name (str_of_int gid) cmap true)
    as [[slices slices_range]|e] eqn:E; [|discriminate].
  destruct (render_slices_shape w _ _ _ _ _ _ _ E) as [Hr [Hshow Hid]].
  destruct slices_iter as [|[ind data] rest]; subst slices_range.
  - discriminate.
  - cbn [map fst _build_html_slider] in H. inversion H; subst.
    exists ind, (map fst rest).
    cbn [axe_slices axe_slider minvalue maxvalue slider_template_substitute].
    split; [reflexivity|].
    split; [rewrite Hid; cbn [map fst]; now rewrite map_map|].
    split; [rewrite Hshow; now rewrite map_map|].
    split; [reflexivity|].
    cbn [map fst]. destruct (map fst rest); reflexivity.
Qed.

Lemma render_one_axe_thumbnails_witness :
  exists ind rest,
    map fst (_iterate_axial_slices Sample.cube (Some [0; 1]%Z))
    = ind :: rest /\
    map slice_id
      [MkSliceLi "span12 axial-1" "axial-1-0" true "slideimg-axial"
         "slice.png" "Slice axial 0";
       MkSliceLi "span12 axial-1" "axial-1-1" false "slideimg-axial"
         "slice.png" "Slice axial 1"]
    = map (fun i => "axial" ++ "-" ++ str_of_int 1 ++ "-" ++ str_of_int i)
          (ind :: rest) /\
    [true; false] = true :: map (fun _ => false) rest /\
    0%Z = ind /\
    1%Z = last rest ind.
Proof.
  exact (render_one_axe_thumbnails Sample.no_bem_world
           (_iterate_axial_slices Sample.cube (Some [0; 1]%Z)) "axial" 1
           "gray"
           (MkAxe "select-axial-1"
              [MkSliceLi "span12 axial-1" "axial-1-0" true "slideimg-axial"
                 "slice.png" "Slice axial 0";
               MkSliceLi "span12 axial-1" "axial-1-1" false "slideimg-axial"
                 "slice.png" "Slice axial 1"]
              (MkSlider "select-axial-1" "axial-1" 0 1 2 1))
           eq_refl ltac:(discriminate)).
Defined.

(** X7: a volume whose last axis has extent 1 cannot be rendered: the
    first axial plane has a single column, on which [_build_image]
    indexes a 2-D array with three indices, so [_render_image] raises
    [IndexError] after taking an id and appends nothing. *)
Theorem render_image_one_deep (w : World) (image cmap : string)
    (data : Np.ndarray3) (s : State) :
  nib_load w image = Ok data ->
  1 <= Np.dim1 data ->
  Np.dim2 data = 1 ->
  _render_image w image cmap s
  = (Raise IndexError, set_initial_id (initial_id s + 1) s).
Proof.
  intros Hload H1 H2. unfold _render_image.
  unfold bind at 1. rewrite get_id_run.
  unfold bind at 1, call at 1. rewrite Hload. cbv zeta.
  unfold bind at 1, call at 1.
  assert (E : _render_array w data (Some (initial_id s + 1)%Z) cmap
                (Some [("sagittal", range_step2 (Np.dim0 data));
                       ("axial", range_step2 (Np.dim1 data));
                       ("coronal", range_step2 (Np.dim2 data))])
              = Raise IndexError).
  { unfold _render_array.
    change (dict_get _ "axial") with (Some (range_step2 (Np.dim1 data))).
    cbv zeta.
    destruct (iterators_by_indices data
                (Some (range_step2 (Np.dim1 data)))) as [_ [-> _]].
    pose proof (spec_indices_step2 (Np.dim1 data) H1) as Hne.
    destruct (spec_indices (Some (range_step2 (Np.dim1 data)))
                (Np.dim1 data)) as [|i0 rest]; [now destruct Hne|].
    unfold _render_one_axe. cbn [map render_slices]. cbv zeta.
    unfold _build_image. cbn [Np.ncols Np.index1]. rewrite H2.
    destruct (Z.eqb (initial_id s + 1) 0); reflexivity. }
  now rewrite E.
Qed.

Lemma render_image_one_deep_witness :
  _render_image Sample.thin_world "/subjects/sample/mri/T1.mgz" "gray"
    (Sample.at_scan Sample.thin_world None None)
  = (Raise IndexError,
     set_initial_id 1 (Sample.at_scan Sample.thin_world None None)).
Proof.
  exact (render_image_one_deep Sample.thin_world
           "/subjects/sample/mri/T1.mgz" "gray" Sample.thin_volume
           (Sample.at_scan Sample.thin_world None None) eq_refl
           (le_S 1 1 (le_n 1)) eq_refl).
Defined.

(** ** What a scan adds to the body *)

Section Adds.

Context {A B : Type}.

Lemma adds_preserves (P : Html -> Prop) (m : M A) :
  preserves html m -> adds P m.
Proof.
  intros H s. exists []. rewrite (H s), app_nil_r. now split.
Qed.

Lemma adds_weaken (P Q : Html -> Prop) (m : M A) :
  (forall h, P h -> Q h) -> adds P m -> adds Q m.
Proof.
  intros HPQ Hm s. destruct (Hm s) as [hs [E Hhs]]. exists hs.
  split; [exact E|]. eapply Forall_impl; eauto.
Qed.

Lemma adds_bind_ok (P : Html -> Prop) (m : M A) (k : A -> M B) :
  adds P m ->
  (forall a, (exists s s', m s = (Ok a, s')) -> adds P (k a)) ->
  adds P (bind m k).
Proof.
  intros Hm Hk s. unfold bind. destruct (Hm s) as [l [El Pl]].
  destruct (m s) as [[a|e] s1] eqn:E; cbn in El |- *.
  - destruct (Hk a (ex_intro _ s (ex_intro _ s1 E)) s1) as [l' [El' Pl']].
    exists (l ++ l')%list. rewrite El', El, app_assoc.
    split; [reflexivity|]. apply Forall_app. now split.
  - now exists l.
Qed.

Lemma adds_bind (P : Html -> Prop) (m : M A) (k : A -> M B) :
  adds P m -> (forall a, adds P (k a)) -> adds P (bind m k).
Proof. intros Hm Hk. apply adds_bind_ok; [exact Hm|intros a _; apply Hk]. Qed.

Lemma adds_try (P : Html -> Prop) (m : M A) (h : exn -> M A) :
  adds P m -> (forall e, adds P (h e)) -> adds P (try_except m h).
Proof.
  intros Hm Hh s. unfold try_except. destruct (Hm s) as [l [El Pl]].
  destruct (m s) as [[a|e] s1]; cbn in El |- *.
  - now exists l.
  - destruct (Hh e s1) as [l' [El' Pl']]. exists (l ++ l')%list.
    rewrite El', El, app_assoc. split; [reflexivity|].
    apply Forall_app. now split.
Qed.

End Adds.

Lemma adds_html_append (P : Html -> Prop) (h : Html) :
  P h -> adds P (html_append h).
Proof.
  intros Hh s. exists [h]. split; [reflexivity|]. now constructor.
Qed.

Ltac adds_quiet := apply adds_preserves; solve [preserves_steps].

(** Peel the steps of a builder that do not touch the markup, down to
    the [append]. *)
Ltac adds_steps :=
  repeat first
    [ apply adds_html_append
    | apply adds_bind; [adds_quiet|intros ?]
    | apply adds_bind; [|intros ?; adds_quiet]
    | adds_quiet ].

Section AddsBuilders.

Variable w : World.

Lemma render_evokeds_class (fname : string) (evokeds : list Evoked)
    (s s' : State) (lis : list ImageLi) :
  render_evokeds fname evokeds s = (Ok lis, s') ->
  Forall (fun li => li_klass li = "evoked") lis.
Proof.
  revert s s' lis. induction evokeds as [|ev rest IH]; intros s s' lis H.
  - inversion H. constructor.
  - cbn [render_evokeds] in H. unfold bind at 1 in H.
    rewrite get_id_run in H. unfold bind at 1, call at 1 in H.
    destruct (plot_img ev) as [img|e]; [|discriminate]. cbv zeta in H.
    unfold bind at 1 in H.
    destruct (render_evokeds fname rest _) as [[lis'|e] s1] eqn:E;
      [|discriminate].
    inversion H; subst. constructor; [reflexivity|exact (IH _ _ _ E)].
Qed.

Lemma adds_render_raw (fname : string) :
  adds (section_of "raw") (_render_raw w fname).
Proof. unfold _render_raw. cbv zeta. adds_steps. reflexivity. Qed.

Lemma adds_render_forward (fname : string) :
  adds (section_of "forward") (_render_forward w fname).
Proof. unfold _render_forward. cbv zeta. adds_steps. reflexivity. Qed.

Lemma adds_render_evoked (fname : string) :
  adds (section_of "evoked") (_render_evoked w fname).
Proof.
  unfold _render_evoked.
  apply adds_bind; [adds_quiet|intros evokeds].
  apply adds_bind_ok.
  - apply adds_preserves. exact (proj1 (silent_render_evokeds fname evokeds)).
  - intros lis [s [s' Hrun]]. apply adds_html_append.
    exact (render_evokeds_class _ _ _ _ _ Hrun).
Qed.

Lemma adds_render_eve (fname : string) (info : Info) (interactive : bool) :
  adds (section_of "events") (_render_eve w fname info interactive).
Proof.
  unfold _render_eve. cbv zeta.
  apply adds_bind;
    [destruct interactive; adds_quiet|intros _].
  adds_steps. repeat constructor.
Qed.

Lemma adds_render_epochs (fname : string) :
  adds (section_of "epochs") (_render_epochs w fname).
Proof. unfold _render_epochs. cbv zeta. adds_steps. repeat constructor. Qed.

Lemma adds_render_cov (fname : string) :
  adds (section_of "covariance") (_render_cov w fname).
Proof. unfold _render_cov. cbv zeta. adds_steps. repeat constructor. Qed.

Lemma adds_render_trans (fname path : string) (info : Info)
    (subject subjects_dir : option string) :
  adds (section_of "trans")
    (_render_trans w fname path info subject subjects_dir).
Proof.
  unfold _render_trans.
  apply adds_bind; [adds_quiet|intros _].
  apply adds_bind; [adds_quiet|intros fig].
  destruct fig; cbv zeta; adds_steps. repeat constructor.
Qed.

Lemma adds_render_image (image cmap : string) :
  adds (section_of "slices-images") (_render_image w image cmap).
Proof. unfold _render_image. cbv zeta. adds_steps. reflexivity. Qed.

Lemma adds_find_surfaces (bem_path mri : string)
    (names found : list string) :
  adds (section_of "slices-images")
    (find_surfaces w bem_path mri names found).
Proof.
  revert found. induction names as [|n names IH]; intros found;
    cbn [find_surfaces]; [adds_quiet|].
  destruct (glob w _); [|apply IH].
  apply adds_bind; [adds_quiet|intros _].
  apply adds_bind; [apply adds_render_image|intros h; adds_quiet].
Qed.

Lemma adds_render_bem (subject subjects_dir : option string) :
  adds (section_of "slices-images") (_render_bem w subject subjects_dir).
Proof.
  unfold _render_bem.
  apply adds_bind; [adds_quiet|intros sdir].
  destruct subject as [subj|]; [|adds_quiet]. cbv zeta.
  apply adds_bind; [destruct (isfile w _); adds_quiet|intros _].
  destruct (negb (isdir w _)).
  - apply adds_bind; [adds_quiet|intros _]. apply adds_render_image.
  - apply adds_bind; [apply adds_find_surfaces|].
    intros [h|surfs]; [adds_quiet|].
    apply adds_bind; [adds_quiet|intros data]. cbv zeta.
    apply adds_bind; [adds_quiet|intros gid].
    do 3 (apply adds_bind;
          [apply adds_preserves;
           exact (proj1 (silent_render_one_bem_axe w _ _ _ _ _))
          |intros ?]).
    adds_steps. reflexivity.
Qed.

Lemma kind_class_navbar (fname c : string) :
  kind_class fname = Some c -> In c navbar_classes.
Proof.
  unfold kind_class, navbar_classes.
  repeat match goal with
         | |- context [if ?b then _ else _] => destruct b
         end;
    intros H; inversion H; subst; cbn; tauto.
Qed.

(** The iteration of one file adds sections of the class of its kind. *)
Lemma adds_render_file (fname data_path : string) (info : Info)
    (interactive : bool) (folders : list string) :
  adds (fun h => exists c, kind_class fname = Some c /\ section_of c h)
    (render_file w fname data_path info interactive folders).
Proof.
  unfold render_file, kind_class.
  repeat match goal with
         | |- adds _ (if ?b then _ else _) => destruct b
         end;
    try (apply adds_bind; [adds_quiet|intros ?]);
    try (apply adds_bind; [adds_quiet|intros ?]);
    try solve [cbv zeta; adds_quiet];
    (apply adds_bind; [|intros ?; adds_quiet]);
    match goal with
    | |- adds (fun h => exists c, Some ?k = Some c /\ _) _ =>
        apply adds_weaken with (P := section_of k);
        [intros h Hh; exists k; now split|]
    end;
    first [ apply adds_render_bem | apply adds_render_raw
          | apply adds_render_forward | apply adds_render_evoked
          | apply adds_render_eve | apply adds_render_epochs
          | apply adds_render_cov | apply adds_render_trans ].
Qed.

Lemma adds_render_files (names : list string) (data_path : string)
    (info : Info) (interactive : bool) (folders : list string) :
  adds (rendered_for names)
    (render_files w names data_path info interactive folders).
Proof.
  revert folders. induction names as [|fname rest IH]; intros folders;
    cbn [render_files]; [adds_quiet|].
  apply adds_bind; [adds_quiet|intros _].
  apply adds_bind.
  - apply adds_try; [|intros e; adds_quiet].
    eapply adds_weaken; [|apply adds_render_file].
    intros h [c [Hk Hc]]. exists fname, c. split; [now left|now split].
  - intros folders'. eapply adds_weaken; [|apply IH].
    intros h [f [c [Hin H]]]. exists f, c. split; [now right|exact H].
Qed.

End AddsBuilders.

(** X8: whatever the readers do, the loop of [parse_folder] only appends
    to [self.html], and each element it appends is a section rendered for
    one of the scanned names, all of whose fragments carry the class of
    that name's suffix kind, a class that one of the eight buttons of the
    header toggles. *)
Theorem scan_sections_by_kind (w : World) (names : list string)
    (data_path : string) (info : Info) (interactive : bool)
    (folders : list string) (s : State) :
  exists body,
    html (snd (render_files w names data_path info interactive folders s))
    = (html s ++ body)%list /\
    Forall (fun h => exists fname c,
                       In fname names /\
                       kind_class fname = Some c /\
                       section_of c h /\
                       In c navbar_classes) body.
Proof.
  destruct (adds_render_files w names data_path info interactive folders s)
    as [body [E Hbody]].
  exists body. split; [exact E|].
  eapply Forall_impl; [|exact Hbody].
  intros h [fname [c [Hin [Hk Hc]]]]. exists fname, c.
  repeat split; try assumption. exact (kind_class_navbar fname c Hk).
Qed.

(** ** A whole run *)

Lemma embed_includes_logs_only {C : Type} (f : State -> C) (w : World)
    (names : list string) (include : list Include) :
  (forall v s, f (set_logged v s) = f s) ->
  preserves f (embed_includes w names include).
Proof.
  intros Hf. revert include.
  induction names as [|n names IH]; intros include.
  - apply preserves_ret.
  - cbn [embed_includes]. apply preserves_bind.
    + apply preserves_modify. intros s. apply Hf.
    + intros _. apply preserves_bind; [apply preserves_call|].
      intros body. apply IH.
Qed.

(** A report just constructed: the header alone, nothing listed, nothing
    written. *)
Lemma init_state (w : World) (ifn : string) (sd subj ttl : option string)
    (s : State) :
  __init__ w ifn sd subj ttl = (Ok tt, s) ->
  exists include,
    html s = [Header ttl include] /\
    fnames s = [] /\
    initial_id s = 0%Z /\
    config s = (ifn, sd, subj, ttl, None, [], []).
Proof.
  unfold __init__, _init_render. intros H. unfold bind at 1 in H.
  pose proof (embed_includes_logs_only rendering w inc_fnames []
                (fun _ _ => eq_refl) (blank ifn sd subj ttl)) as Pr.
  pose proof (embed_includes_logs_only config w inc_fnames []
                (fun _ _ => eq_refl) (blank ifn sd subj ttl)) as Pc.
  destruct (embed_includes w inc_fnames [] _) as [[include|e] s1];
    [|discriminate].
  cbn [snd] in Pr, Pc. unfold bind, get, html_append, modify in H.
  inversion H; subst s. exists include.
  unfold rendering in Pr.
  change (blank ifn sd subj ttl)
    with (MkState ifn sd subj ttl None 0 [] [] [] [] [] []) in Pr, Pc.
  cbn [initial_id html fnames] in Pr. injection Pr as Pi Ph Pf.
  unfold config in Pc |- *.
  cbn [info_fname subjects_dir subject title data_path written
       browser_tabs] in Pc.
  injection Pc as C1 C2 C3 C4 C5 C6 C7.
  cbn [html fnames initial_id info_fname subjects_dir subject title
       data_path written browser_tabs set_html].
  rewrite Ph, Pf, Pi, C1, C2, C3, C4, C5, C6, C7. repeat split.
Qed.

Lemma list_insert_after_head {A : Type} (x h : A) (l : list A) :
  list_insert 1 x (h :: l) = h :: x :: l.
Proof. reflexivity. Qed.

(** The sections the scan appends, without the names they come from. *)
Lemma scan_sections_body (w : World) (names : list string)
    (data_path : string) (info : Info) (interactive : bool)
    (folders : list string) (s : State) :
  exists body,
    html (snd (render_files w names data_path info interactive folders s))
    = (html s ++ body)%list /\
    Forall (fun h => exists c, section_of c h /\ In c navbar_classes) body.
Proof.
  destruct (adds_render_files w names data_path info interactive folders s)
    as [body [E Hbody]].
  exists body. split; [exact E|].
  eapply Forall_impl; [|exact Hbody].
  intros h [fname [c [Hin [Hk Hc]]]]. exists c.
  split; [exact Hc|exact (kind_class_navbar fname c Hk)].
Qed.

Lemma render_toc_count (w : World) (s s' : State) :
  _render_toc w s = (Ok tt, s') ->
  exists entries,
    html s' = list_insert 1 (Toc entries) (html s) /\
    List.length entries = List.length (fnames s).
Proof.
  intros H. unfold _render_toc in H.
  unfold bind at 1, logger_info at 1, modify at 1 in H.
  unfold bind at 1, get at 1 in H. unfold bind at 1 in H.
  set (s0 := set_logged
               (logged s ++ [LogInfo "Rendering : Table of Contents"]) s)
    in *.
  change (fnames s0) with (fnames s) in H.
  pose proof (toc_entries_logs_only w html (fnames s) 1 None
                (fun _ _ => eq_refl) s0) as Hh.
  destruct (toc_entries w (fnames s) 1 None s0) as [[entries|e] s1] eqn:E;
    [|discriminate].
  cbn [snd] in Hh. unfold modify in H. inversion H; subst s'.
  exists entries. cbn [html set_html]. rewrite Hh.
  split; [reflexivity|exact (toc_entries_length w _ _ _ _ _ _ E)].
Qed.

(** X9: a report constructed, scanned and saved is written whenever the
    session info can be read, the output file opened, and the names of
    the scanned files that get a row of the table of contents (with the
    comments of their conditions) are ASCII, whatever the other readers
    and the plotting backend do: [parse_folder] returns, [save] returns
    the file name, and the one document written is the header, the table
    of contents with one row per listed name, sections of the eight
    navbar classes, and the footer, in this order. *)
Theorem report_is_always_written (w : World) (ifn : string)
    (sd subj ttl : option string) (dp out : string)
    (interactive open_browser : bool) (s0 : State) (info : Info) :
  __init__ w ifn sd subj ttl = (Ok tt, s0) ->
  read_info w ifn = Ok info ->
  open_write w (Str.join dp out) = Ok tt ->
  Forall (toc_printable w) (scan_fnames w dp sd subj) ->
  exists s1 s2 include entries body,
    parse_folder w dp interactive s0 = (Ok tt, s1) /\
    save w out open_browser s1 = (Ok out, s2) /\
    html s2
    = Header ttl include :: Toc entries
      :: (body ++ [Footer (strftime w)])%list /\
    Forall (fun h => exists c, section_of c h /\ In c navbar_classes) body /\
    List.length entries = List.length (fnames s1) /\
    written s2 = [(Str.join dp out, html s2)].
Proof.
  intros Hinit Hinfo Hopen Hprint.
  destruct (init_state w _ _ _ _ _ Hinit)
    as [include [Hhtml [Hfnames [_ Hconfig]]]].
  unfold config in Hconfig. inversion Hconfig as [[C1 C2 C3 C4 C5 C6 C7]].
  set (sp := match ttl with
             | None =>
                 set_title
                   (Some ("MNE Report for ..." ++ Str.last_chars 20 dp))
                   (set_data_path (Some dp) s0)
             | Some _ => set_data_path (Some dp) s0
             end).
  set (names := scan_fnames w dp sd subj).
  assert (Hsp : rendering sp = rendering s0 /\
                info_fname sp = ifn /\ subjects_dir sp = sd /\
                subject sp = subj /\ data_path sp = Some dp /\
                written sp = []).
  { unfold sp. destruct ttl; repeat split; assumption. }
  destruct Hsp as [Rsp [E3 [E1 [E2 [E4 E5]]]]].
  assert (Hparse : parse_folder w dp interactive s0
                   = render_files w names dp info interactive [] sp).
  { unfold parse_folder. unfold bind at 1, modify at 1.
    unfold bind at 1, get at 1.
    change (title (set_data_path (Some dp) s0)) with (title s0).
    rewrite C4. unfold bind at 1.
    assert (E : (match ttl with
                 | Some _ => ret tt
                 | None =>
                     modify
                       (set_title
                          (Some ("MNE Report for ..."
                                 ++ Str.last_chars 20 dp)))
                 end) (set_data_path (Some dp) s0) = (Ok tt, sp)).
    { unfold sp. now destruct ttl. }
    rewrite E. clear E.
    unfold bind at 1, get at 1. unfold bind at 1, get at 1.
    unfold bind at 1, get at 1. unfold bind at 1, call at 1.
    rewrite E1, E2, E3, Hinfo. reflexivity. }
  pose proof (render_files_returns w names dp info interactive [] sp)
    as Hret.
  pose proof (appends_render_files w names dp info interactive [] sp)
    as [l [Hl Pl]].
  pose proof (config_render_files w names dp info interactive [] sp)
    as Hconf.
  destruct (scan_sections_body w names dp info interactive [] sp)
    as [body [Hbody Pbody]].
  destruct (render_files w names dp info interactive [] sp) as [r s1].
  cbn [fst snd] in Hret, Hl, Hconf, Hbody. subst r.
  unfold rendering in Rsp. inversion Rsp as [[Ri Rh Rf]].
  unfold config in Hconf. inversion Hconf as [[D1 D2 D3 D4 D5 D6 D7]].
  assert (Hready : Forall (toc_ready w) (fnames s1)).
  { rewrite Hl, Rf, Hfnames. cbn [app]. revert Pl. apply Forall_impl.
    intros f. now apply scanned_ready. }
  assert (Hdp : data_path s1 = Some dp) by congruence.
  destruct (save_returns w out dp open_browser s1 Hready Hdp Hopen)
    as [entries [s2 [Hsave [Hdoc Hwritten]]]].
  assert (Hlen : List.length entries = List.length (fnames s1)).
  { unfold save in Hsave. unfold bind at 1 in Hsave.
    destruct (_render_toc w s1) as [[[]|e] st] eqn:Etoc; [|discriminate].
    destruct (render_toc_count w s1 st Etoc) as [es [Hes Hn]].
    assert (Hsame : list_insert 1 (Toc entries) (html s1)
                    = list_insert 1 (Toc es) (html s1)).
    { rewrite <- Hes.
      unfold bind at 1, html_append at 1, modify at 1 in Hsave.
      unfold bind at 1, get at 1 in Hsave.
      cbn [data_path set_html] in Hsave.
      assert (Hst : html s2
                    = (html st ++ [Footer (strftime w)])%list).
      { destruct (data_path st) as [d|]; [|discriminate].
        unfold bind at 1, call at 1 in Hsave.
        destruct (open_write w (Str.join d out)) as [[]|e];
          [|discriminate].
        unfold bind at 1, modify at 1 in Hsave.
        destruct open_browser; unfold bind, modify, ret in Hsave;
          inversion Hsave; reflexivity. }
      rewrite Hdoc in Hst. now apply app_inv_tail in Hst. }
    rewrite Hbody, Rh, Hhtml in Hsame. cbn [app] in Hsame.
    rewrite !list_insert_after_head in Hsame.
    inversion Hsame. now subst. }
  exists s1, s2, include, entries, body.
  split; [exact Hparse|]. split; [exact Hsave|].
  split.
  { rewrite Hdoc, Hbody, Rh, Hhtml. cbn [app].
    rewrite list_insert_after_head, ?C4. reflexivity. }
  split; [exact Pbody|]. split; [exact Hlen|].
  rewrite Hwritten, D6, E5, ?C6. reflexivity.
Qed.

Lemma report_is_always_written_witness :
  exists s1 s2 include entries body,
    parse_folder Sample.bad_raw_world "/data" true
      (snd (__init__ Sample.bad_raw_world "info.fif" None None None))
    = (Ok tt, s1) /\
    save Sample.bad_raw_world "report.html" false s1
    = (Ok "report.html", s2) /\
    html s2
    = Header None include :: Toc entries
      :: (body ++ [Footer (strftime Sample.bad_raw_world)])%list /\
    Forall (fun h => exists c, section_of c h /\ In c navbar_classes) body /\
    List.length entries = List.length (fnames s1) /\
    written s2 = [(Str.join "/data" "report.html", html s2)].
Proof.
  refine (report_is_always_written Sample.bad_raw_world "info.fif" None None
           None "/data" "report.html" true false
           (snd (__init__ Sample.bad_raw_world "info.fif" None None None))
           "info" eq_refl eq_refl eq_refl _).
  sample_names_printable.
Defined.
